(** * arbok.bench: job generation and job running

    A shallow embedding of [src/arbok/bench.py]: the [Benchmark] class
    (job-script generation, queue submission, preprocessor selection,
    running one job against the tracking service) and the [cli] entry
    point with its JSON configuration and log files.

    The program is effectful throughout, so the embedding threads an
    explicit [World] (file system, the tracking client's global API key,
    the trace of outward calls) through an exception monad.  The
    collaborators the program calls into (the tracking service, the
    AutoML wrapper constructors, the queue command) are not part of the
    source at hand; they are an [Env] of oracles that may answer or fail.

    The [json] module is modelled down to the text it writes and reads,
    for the values a configuration and a log hold: [None], bools, ints,
    strs of characters up to U+00FF, lists and dicts.  Floats are outside
    the model. *)

From Stdlib Require Import ZArith String Ascii List Decimal DecimalString DecimalZ Lia.
From stdpp Require Import gmap strings list sorting.

#[local] Set Warnings "-clear-no-such-hyp,-register-all".

Local Open Scope string_scope.
Local Open Scope list_scope.
Local Open Scope Z_scope.

(** ** Python values that reach the program *)

(** [str(n)] for a Python int. *)
Definition str_of_Z (n : Z) : string := NilZero.string_of_int (Z.to_int n).

(** A task identifier is an int when it comes from a study's task list and
    a str when it comes from the command line. *)
Inductive pyid :=
  | IdInt (n : Z)
  | IdStr (s : string).

(** What an f-string field [{task_id}] renders. *)
Definition format_id (t : pyid) : string :=
  match t with
  | IdInt n => str_of_Z n
  | IdStr s => s
  end.

(** What an f-string field renders for a value that is [None] or a str. *)
Definition format_opt (o : option string) : string :=
  match o with
  | None => "None"
  | Some s => s
  end.

(** Python truthiness of a value that is [None] or a str. *)
Definition truthy (o : option string) : bool :=
  match o with
  | None => false
  | Some s => negb (String.eqb s "")
  end.

(** ** Exceptions *)

Inductive exn :=
  | ValueError (msg : string)
  | ClickException (msg : string)
  | KeyError (key : string)
  | TypeError
  | JSONDecodeError
  | FileNotFoundError (path : string)
  | IsADirectoryError (path : string)
  | NotADirectoryError (path : string)
  | AttributeError
  | OSError
  | CollaboratorError.

Inductive outcome (A : Type) :=
  | Ok (a : A)
  | Raise (e : exn).
Arguments Ok {A} a.
Arguments Raise {A} e.

(** ** Paths *)

(** A path is the text the program passes to the operating system, taken
    relative to the working directory; [.] and [..] components and
    repeated separators are not interpreted. *)

Fixpoint has_char (x : ascii) (s : string) : bool :=
  match s with
  | EmptyString => false
  | String c r => Ascii.eqb c x || has_char x r
  end.

Module Path.

(** The text before the last ["/"] of a path, [None] when the path has
    no ["/"] (an entry of the working directory). *)
Fixpoint dirname (p : string) : option string :=
  match p with
  | EmptyString => None
  | String c r =>
      match dirname r with
      | Some d => Some (String c d)
      | None => if Ascii.eqb c "/" then Some EmptyString else None
      end
  end.

Definition has_slash (p : string) : bool := has_char "/" p.

Fixpoint ends_with_slash (p : string) : bool :=
  match p with
  | EmptyString => false
  | String c EmptyString => Ascii.eqb c "/"
  | String _ r => ends_with_slash r
  end.

Definition is_abs (p : string) : bool :=
  match p with
  | String c _ => Ascii.eqb c "/"
  | EmptyString => false
  end.

(** [os.path.join a b] *)
Definition join (a b : string) : string :=
  if is_abs b then b
  else if String.eqb a "" || ends_with_slash a then a +:+ b
  else a +:+ "/" +:+ b.

(** [strip_prefix pre s = Some r] when [s = pre ++ r]. *)
Fixpoint strip_prefix (pre s : string) : option string :=
  match pre, s with
  | EmptyString, _ => Some s
  | String a pre', String b s' =>
      if Ascii.eqb a b then strip_prefix pre' s' else None
  | String _ _, EmptyString => None
  end.

(** A directory named with a trailing ["/"] is the directory itself. *)
Definition strip_slash (d : string) : string :=
  if ends_with_slash d then default d (dirname d) else d.

(** The proper prefixes of a path that end just before a ["/"]. *)
Fixpoint parents (p : string) : list string :=
  match p with
  | EmptyString => []
  | String c r =>
      (if Ascii.eqb c "/" then [EmptyString] else []) ++ map (String c) (parents r)
  end.

(** Every directory [os.makedirs p] has to make sure of: the directories
    above [p], and [p]. *)
Definition ancestors (p : string) : list string :=
  List.filter (λ a, negb (String.eqb a ""))
    (parents (strip_slash p) ++ [strip_slash p]).

End Path.

(** ** The world the program acts on *)

(** Handles of the tracking service's objects. *)
Record task := Task { task_handle : nat }.
Record dataset := Dataset { dataset_handle : nat }.
Record run := Run { run_handle : nat }.

(** Modelled from the spec: the classes [ConditionalImputer] (of this
    package) and [OneHotEncoder] (of sklearn) are not in the source at
    hand.  A stage of a preprocessing pipeline is the constructor call,
    with the arguments [get_preprocessor] passes. *)
Inductive stage :=
  | ConditionalImputer (categorical_features : list bool)
                       (strategy strategy_nominal : string)
  | OneHotEncoder (categorical_features : list bool)
                  (handle_unknown : string) (sparse : bool).

Definition pipeline := list stage.

(** Outward calls, in the order the program makes them. *)
Inductive event :=
  | EvSetApikey (key : string)          (* openml.config.apikey = key *)
  | EvGetTask (t : pyid)                (* openml.tasks.get_task *)
  | EvGetDataset (t : task)             (* task.get_dataset *)
  | EvGetData (d : dataset)             (* dataset.get_data *)
  | EvRunModel (t : task)               (* openml.runs.run_model_on_task *)
  | EvPublish (r : run)                 (* run.publish *)
  | EvPrint (line : string)             (* print *)
  | EvSubprocess (argv : list string)   (* subprocess.call *)
  | EvOpenWrite (path : string)         (* open(path, "w") *)
  | EvStderr (line : string).           (* a line on standard error *)

(** The calls that go to the tracking service over the network. *)
Definition is_service_call (e : event) : bool :=
  match e with
  | EvGetTask _ | EvGetDataset _ | EvGetData _ | EvRunModel _ | EvPublish _ => true
  | EvSetApikey _ | EvPrint _ | EvSubprocess _ | EvOpenWrite _ | EvStderr _ => false
  end.

Definition service_calls (tr : list event) : list event :=
  List.filter is_service_call tr.

Record World := mkWorld {
  w_dirs : gset string;          (* directories that exist *)
  w_files : gmap string string;  (* regular files and their text *)
  w_apikey : string;             (* openml.config.apikey *)
  w_trace : list event;          (* outward calls made so far, oldest first *)
}.

Definition set_files (f : gmap string string → gmap string string) (w : World) : World :=
  mkWorld (w_dirs w) (f (w_files w)) (w_apikey w) (w_trace w).
Definition set_dirs (f : gset string → gset string) (w : World) : World :=
  mkWorld (f (w_dirs w)) (w_files w) (w_apikey w) (w_trace w).
Definition set_apikey (k : string) (w : World) : World :=
  mkWorld (w_dirs w) (w_files w) k (w_trace w).
Definition log_event (e : event) (w : World) : World :=
  mkWorld (w_dirs w) (w_files w) (w_apikey w) (w_trace w ++ [e])%list.

(** ** The effect monad: state and exceptions *)

Definition M (A : Type) : Type := World → outcome A * World.

Global Instance M_ret : MRet M := λ A a w, (Ok a, w).
Global Instance M_bind : MBind M := λ A B k m w,
  match m w with
  | (Ok a, w') => k a w'
  | (Raise e, w') => (Raise e, w')
  end.
Definition raise {A} (e : exn) : M A := λ w, (Raise e, w).
Definition modify (f : World → World) : M unit := λ w, (Ok tt, f w).

(** [for x in xs: body x] *)
Fixpoint for_each {A} (xs : list A) (body : A → M unit) : M unit :=
  match xs with
  | [] => mret tt
  | x :: xs' => body x;; for_each xs' body
  end.

(** [[x for x in xs if cond x]] *)
Fixpoint filter_m {A} (cond : A → M bool) (xs : list A) : M (list A) :=
  match xs with
  | [] => mret []
  | x :: xs' =>
      keep ← cond x;
      rest ← filter_m cond xs';
      mret (if keep : bool then x :: rest else rest)
  end.

(** ** File-system primitives ([os], [open]) *)

Module Os.

(** [d] names a directory; the empty name is the root. *)
Definition is_dir (w : World) (d : string) : bool :=
  String.eqb d "" || bool_decide (d ∈ w_dirs w).

Definition is_file (w : World) (p : string) : bool :=
  bool_decide (is_Some (w_files w !! p)).

(** The directory a path lies in exists. *)
Definition parent_exists (w : World) (p : string) : bool :=
  match Path.dirname p with
  | None => true
  | Some d => is_dir w d
  end.

(** [os.path.exists] *)
Definition exists_ (p : string) : M bool :=
  λ w, (Ok (negb (String.eqb p "") && (is_dir w (Path.strip_slash p) || is_file w p)), w).

(** [os.path.isfile] *)
Definition isfile (p : string) : M bool :=
  λ w, (Ok (is_file w p), w).

(** [os.makedirs]: creates the directory and the missing ones above it. *)
Definition makedirs (p : string) : M unit :=
  λ w,
    if String.eqb p "" then (Raise (FileNotFoundError p), w)
    else if is_dir w (Path.strip_slash p) then (Raise OSError, w)
    else match List.find (is_file w) (Path.ancestors p) with
         | Some a => (Raise (NotADirectoryError a), w)
         | None => (Ok tt, set_dirs (λ ds, ds ∪ list_to_set (Path.ancestors p)) w)
         end.

(** The conditions under which [open(p, "w")] succeeds. *)
Definition can_open_w (w : World) (p : string) : bool :=
  negb (String.eqb p "")
  && negb (is_dir w (Path.strip_slash p))
  && parent_exists w p.

(** [open(p, "w")] and [open(p, "w+")]: creates or truncates the file. *)
Definition open_w (p : string) : M unit :=
  λ w,
    if String.eqb p "" then (Raise (FileNotFoundError p), w)
    else if is_dir w (Path.strip_slash p) then (Raise (IsADirectoryError p), w)
    else if negb (parent_exists w p) then (Raise (FileNotFoundError p), w)
    else (Ok tt, log_event (EvOpenWrite p) (set_files (insert p "") w)).

(** [f.write(s)] on a file opened for writing: appends at the end. *)
Definition write (p s : string) : M unit :=
  modify (set_files (λ fs, <[p := default "" (fs !! p) +:+ s]> fs)).

(** [open(p, "r").read()] *)
Definition read (p : string) : M string :=
  λ w,
    match w_files w !! p with
    | Some s => (Ok s, w)
    | None =>
        if negb (String.eqb p "") && is_dir w (Path.strip_slash p)
        then (Raise (IsADirectoryError p), w)
        else (Raise (FileNotFoundError p), w)
    end.

(** The entries directly inside [d]: files and directories whose path is
    [d], a ["/"], and a name without ["/"]. *)
Definition entry_name (d p : string) : option string :=
  match Path.strip_prefix (Path.join d "") p with
  | Some n => if Path.has_slash n || String.eqb n "" then None else Some n
  | None => None
  end.

(** [os.listdir]; the order is the host's, here the order of the maps. *)
Definition listdir (d : string) : M (list string) :=
  λ w,
    if negb (String.eqb d "") && is_dir w (Path.strip_slash d)
    then (Ok (omap (entry_name d) ((map_to_list (w_files w)).*1 ++ elements (w_dirs w))), w)
    else if is_file w d then (Raise (NotADirectoryError d), w)
    else (Raise (FileNotFoundError d), w).

End Os.

(** ** JSON-shaped Python values *)

(** The values a configuration holds and [json.load] returns: [None],
    bools, ints, strs, lists and str-keyed dicts (a dict as its items in
    insertion order). *)
#[local] Unset Elimination Schemes.
Inductive json :=
  | JNull
  | JBool (b : bool)
  | JInt (n : Z)
  | JStr (s : string)
  | JList (xs : list json)
  | JObj (kvs : list (string * json)).
#[local] Set Elimination Schemes.

Definition kwargs := list (string * json).

Definition is_Some_bool {A} (o : option A) : bool :=
  match o with
  | Some _ => true
  | None => false
  end.

(** A dict as Python has it: items in insertion order, one per key. *)
Fixpoint dict_set {K V} `{EqDecision K} (k : K) (v : V) (d : list (K * V)) : list (K * V) :=
  match d with
  | [] => [(k, v)]
  | (k', v') :: d' =>
      if decide (k = k') then (k, v) :: d' else (k', v') :: dict_set k v d'
  end.

Fixpoint dict_get {K V} `{EqDecision K} (k : K) (d : list (K * V)) : option V :=
  match d with
  | [] => None
  | (k', v') :: d' => if decide (k = k') then Some v' else dict_get k d'
  end.

(** [dict(pairs)]: a later pair replaces the value of an earlier one with
    the same key. *)
Definition dict_of_pairs {K V} `{EqDecision K} (pairs : list (K * V)) : list (K * V) :=
  foldl (λ d kv, dict_set kv.1 kv.2 d) [] pairs.

(** The keys of a dict that is about to be dumped: strs, and the ints
    [json.dump] turns into strs. *)
Inductive pykey :=
  | KStr (s : string)
  | KInt (n : Z).

Global Instance pykey_eq_dec : EqDecision pykey.
Proof. solve_decision. Defined.

Definition key_text (k : pykey) : string :=
  match k with
  | KStr s => s
  | KInt n => str_of_Z n
  end.

(** ** The json module *)

Definition dquote : ascii := "034".
Definition backslash : ascii := "092".
Definition newline : ascii := "010".

Module Json.

(** *** json.dumps *)

Definition hex_char (n : N) : ascii :=
  match n with
  | 0 => "0" | 1 => "1" | 2 => "2" | 3 => "3" | 4 => "4" | 5 => "5" | 6 => "6"
  | 7 => "7" | 8 => "8" | 9 => "9" | 10 => "a" | 11 => "b" | 12 => "c"
  | 13 => "d" | 14 => "e" | _ => "f"
  end%N%char.

(** What the encoder writes for one character of a str ([ensure_ascii]):
    the short escapes, [\u00xx] for everything else outside the printable
    ASCII range, the character itself otherwise. *)
Definition escape_char (c : ascii) : string :=
  if Ascii.eqb c dquote then String backslash (String dquote "")
  else if Ascii.eqb c backslash then String backslash (String backslash "")
  else if Ascii.eqb c "008" then String backslash "b"
  else if Ascii.eqb c "012" then String backslash "f"
  else if Ascii.eqb c "010" then String backslash "n"
  else if Ascii.eqb c "013" then String backslash "r"
  else if Ascii.eqb c "009" then String backslash "t"
  else
    let n := N_of_ascii c in
    if ((n <? 32) || (126 <? n))%N
    then String backslash
           (String "u" (String "0" (String "0"
              (String (hex_char (n / 16)) (String (hex_char (n mod 16)) "")))))
    else String c "".

Fixpoint escape (s : string) : string :=
  match s with
  | EmptyString => ""
  | String c r => escape_char c +:+ escape r
  end.

Definition encode_str (s : string) : string :=
  String dquote (escape s +:+ String dquote "").

Fixpoint spaces (n : nat) : string :=
  match n with
  | O => ""
  | S n => String " " (spaces n)
  end.

(** The line break and indentation before an item at [level]; nothing
    when [indent] is [None]. *)
Definition newline_indent (indent : option nat) (level : nat) : string :=
  match indent with
  | None => ""
  | Some n => String newline (spaces (n * level))
  end.

(** Between two items: [", "] by default, [","] and a new line when an
    indent is given. *)
Definition item_separator (indent : option nat) (level : nat) : string :=
  match indent with
  | None => ", "
  | Some _ => "," +:+ newline_indent indent level
  end.

Definition key_separator : string := ": ".

(** The encoder proper, items in the order of the value. *)
Fixpoint encode (indent : option nat) (level : nat) (v : json) : string :=
  match v with
  | JNull => "null"
  | JBool true => "true"
  | JBool false => "false"
  | JInt n => str_of_Z n
  | JStr s => encode_str s
  | JList [] => "[]"
  | JList xs =>
      "[" +:+ newline_indent indent (S level)
      +:+ String.concat (item_separator indent (S level))
            (map (encode indent (S level)) xs)
      +:+ newline_indent indent level +:+ "]"
  | JObj [] => "{}"
  | JObj kvs =>
      "{" +:+ newline_indent indent (S level)
      +:+ String.concat (item_separator indent (S level))
            (map (λ kv, encode_str kv.1 +:+ key_separator +:+ encode indent (S level) kv.2) kvs)
      +:+ newline_indent indent level +:+ "}"
  end.

Definition key_le (a b : string * json) : Prop := String.le a.1 b.1.
Global Instance key_le_dec : RelDecision key_le.
Proof. intros a b. unfold key_le. apply _. Defined.

(** [sort_keys=True]: the items of every dict ordered by key. *)
Fixpoint sort_keys (v : json) : json :=
  match v with
  | JList xs => JList (map sort_keys xs)
  | JObj kvs => JObj (merge_sort key_le (map (λ kv, (kv.1, sort_keys kv.2)) kvs))
  | _ => v
  end.

(** [json.dumps(v, indent=indent, sort_keys=sort)] *)
Definition dumps (indent : option nat) (sort : bool) (v : json) : string :=
  encode indent 0 (if sort then sort_keys v else v).

(** [json.dumps] of a dict whose keys may be ints. *)
Definition dumps_dict (d : list (pykey * json)) : string :=
  dumps None false (JObj (map (λ kv, (key_text kv.1, kv.2)) d)).

(** *** json.loads *)

Definition is_ws (c : ascii) : bool :=
  Ascii.eqb c " " || Ascii.eqb c "009" || Ascii.eqb c "010" || Ascii.eqb c "013".

Fixpoint skip_ws (s : string) : string :=
  match s with
  | EmptyString => ""
  | String c r => if is_ws c then skip_ws r else s
  end.

Definition hex_val (c : ascii) : option N :=
  let n := N_of_ascii c in
  if ((48 <=? n) && (n <=? 57))%N then Some (n - 48)%N
  else if ((97 <=? n) && (n <=? 102))%N then Some (n - 87)%N
  else if ((65 <=? n) && (n <=? 70))%N then Some (n - 55)%N
  else None.

Definition hex4 (a b c d : ascii) : option N :=
  match hex_val a, hex_val b, hex_val c, hex_val d with
  | Some x, Some y, Some z, Some t => Some (((x * 16 + y) * 16 + z) * 16 + t)%N
  | _, _, _, _ => None
  end.

Definition prepend (c : ascii) (r : option (string * string)) : option (string * string) :=
  match r with
  | Some (s, rest) => Some (String c s, rest)
  | None => None
  end.

(** The characters of a str after its opening quote, up to the closing
    one; the result is the str and the text after it.  Characters above
    U+00FF are outside the model. *)
Fixpoint parse_string (s : string) : option (string * string) :=
  match s with
  | EmptyString => None
  | String c r =>
      if Ascii.eqb c dquote then Some (EmptyString, r)
      else if Ascii.eqb c backslash then
        match r with
        | EmptyString => None
        | String e r' =>
            if Ascii.eqb e dquote then prepend dquote (parse_string r')
            else if Ascii.eqb e backslash then prepend backslash (parse_string r')
            else if Ascii.eqb e "/" then prepend "/" (parse_string r')
            else if Ascii.eqb e "b" then prepend "008" (parse_string r')
            else if Ascii.eqb e "f" then prepend "012" (parse_string r')
            else if Ascii.eqb e "n" then prepend "010" (parse_string r')
            else if Ascii.eqb e "r" then prepend "013" (parse_string r')
            else if Ascii.eqb e "t" then prepend "009" (parse_string r')
            else if Ascii.eqb e "u" then
              match r' with
              | String h1 (String h2 (String h3 (String h4 r''))) =>
                  match hex4 h1 h2 h3 h4 with
                  | Some n =>
                      if (n <? 256)%N then prepend (ascii_of_N n) (parse_string r'')
                      else None
                  | None => None
                  end
              | _ => None
              end
            else None
        end
      else if (N_of_ascii c <? 32)%N then None
      else prepend c (parse_string r)
  end.

Definition digit_of (c : ascii) : option (uint → uint) :=
  match c with
  | "0" => Some D0 | "1" => Some D1 | "2" => Some D2 | "3" => Some D3
  | "4" => Some D4 | "5" => Some D5 | "6" => Some D6 | "7" => Some D7
  | "8" => Some D8 | "9" => Some D9 | _ => None
  end%char.

(** The longest run of digits a text starts with. *)
Fixpoint take_digits (s : string) : uint * string :=
  match s with
  | EmptyString => (Nil, EmptyString)
  | String c r =>
      match digit_of c with
      | Some d => let '(ds, rest) := take_digits r in (d ds, rest)
      | None => (Nil, s)
      end
  end.

(** A fraction or an exponent follows: a float, outside the model. *)
Definition starts_float (s : string) : bool :=
  match s with
  | String c _ => Ascii.eqb c "." || Ascii.eqb c "e" || Ascii.eqb c "E"
  | EmptyString => false
  end.

Definition is_nil (d : uint) : bool :=
  match d with
  | Nil => true
  | _ => false
  end.

(** The digits of an int: [0], or a run of digits that does not start with
    [0]. *)
Definition parse_digits (negative : bool) (s : string) : option (json * string) :=
  match s with
  | EmptyString => None
  | String c r =>
      if Ascii.eqb c "0" then
        if starts_float r then None else Some (JInt 0, r)
      else
        let '(ds, rest) := take_digits s in
        if is_nil ds then None
        else if starts_float rest then None
        else Some (JInt (Z.of_int (if negative then Neg ds else Pos ds)), rest)
  end.

(** An int: an optional sign, then the digits. *)
Definition parse_number (s : string) : option (json * string) :=
  match s with
  | EmptyString => None
  | String c r => if Ascii.eqb c "-" then parse_digits true r else parse_digits false s
  end.

Definition literal (rest_of_word : string) (v : json) (s : string) : option (json * string) :=
  match Path.strip_prefix rest_of_word s with
  | Some rest => Some (v, rest)
  | None => None
  end.

(** One value at the start of the text, and the text after it.  The fuel
    bounds the nesting and the number of items. *)
Fixpoint parse_value (fuel : nat) (s : string) : option (json * string) :=
  match fuel with
  | O => None
  | S fuel =>
      match s with
      | EmptyString => None
      | String c r =>
          if Ascii.eqb c dquote then
            match parse_string r with
            | Some (str, rest) => Some (JStr str, rest)
            | None => None
            end
          else if Ascii.eqb c "{" then
            match skip_ws r with
            | EmptyString => None
            | String c' r' =>
                if Ascii.eqb c' "}" then Some (JObj [], r')
                else
                  match parse_members fuel (String c' r') with
                  | Some (kvs, rest) => Some (JObj (dict_of_pairs kvs), rest)
                  | None => None
                  end
            end
          else if Ascii.eqb c "[" then
            match skip_ws r with
            | EmptyString => None
            | String c' r' =>
                if Ascii.eqb c' "]" then Some (JList [], r')
                else
                  match parse_elements fuel (String c' r') with
                  | Some (vs, rest) => Some (JList vs, rest)
                  | None => None
                  end
            end
          else if Ascii.eqb c "n" then literal "ull" JNull r
          else if Ascii.eqb c "t" then literal "rue" (JBool true) r
          else if Ascii.eqb c "f" then literal "alse" (JBool false) r
          else parse_number s
      end
  end
with parse_elements (fuel : nat) (s : string) : option (list json * string) :=
  match fuel with
  | O => None
  | S fuel =>
      match parse_value fuel s with
      | None => None
      | Some (v, rest) =>
          match skip_ws rest with
          | EmptyString => None
          | String c r =>
              if Ascii.eqb c "," then
                match parse_elements fuel (skip_ws r) with
                | Some (vs, rest') => Some (v :: vs, rest')
                | None => None
                end
              else if Ascii.eqb c "]" then Some ([v], r)
              else None
          end
      end
  end
with parse_members (fuel : nat) (s : string) : option (list (string * json) * string) :=
  match fuel with
  | O => None
  | S fuel =>
      match s with
      | EmptyString => None
      | String c r =>
          if negb (Ascii.eqb c dquote) then None
          else
            match parse_string r with
            | None => None
            | Some (k, rest) =>
                match skip_ws rest with
                | EmptyString => None
                | String c1 r1 =>
                    if negb (Ascii.eqb c1 ":") then None
                    else
                      match parse_value fuel (skip_ws r1) with
                      | None => None
                      | Some (v, rest2) =>
                          match skip_ws rest2 with
                          | EmptyString => None
                          | String c2 r2 =>
                              if Ascii.eqb c2 "," then
                                match parse_members fuel (skip_ws r2) with
                                | Some (kvs, rest3) => Some ((k, v) :: kvs, rest3)
                                | None => None
                                end
                              else if Ascii.eqb c2 "}" then Some ([(k, v)], r2)
                              else None
                          end
                      end
                end
            end
      end
  end.

(** [json.loads]: one value, with white space around it and nothing else.
    [None] is a text that is no JSON, and also a text with a value outside
    these values (a number with a fraction or an exponent, [NaN],
    [Infinity], an escape above [00FF]); what is proved of a failing load
    is proved for texts that begin with no value, see [no_json_start]. *)
Definition loads (s : string) : option json :=
  match parse_value (S (String.length s)) (skip_ws s) with
  | Some (v, rest) => if String.eqb (skip_ws rest) "" then Some v else None
  | None => None
  end.

End Json.

(** ** Collaborators *)

(** Modelled from the spec: [TPOTWrapper] and [AutoSklearnWrapper] are
    defined elsewhere in this package, not in the source at hand.  A
    wrapper is the constructor call that built it; whether the
    constructor accepts its options is the environment's answer. *)
Inductive classifier :=
  | TPOTWrapper (preprocessor : option pipeline) (options : kwargs)
  | AutoSklearnWrapper (preprocessor : option pipeline) (options : kwargs).

(** What the collaborators answer.  An answer may depend on the calls made
    before it; [None] is the collaborator raising. *)
Record Env := mkEnv {
  env_server : string;                                     (* openml.config.server *)
  env_get_task : list event → pyid → option task;
  env_get_dataset : list event → task → option dataset;
  env_get_data : list event → dataset → option (list bool);  (* the categorical indicator *)
  env_construct : classifier → bool;                       (* the wrapper accepts its options *)
  env_run_model : list event → task → classifier → option run;
  env_publish : list event → run → option Z;               (* the new run's id *)
  env_subprocess : list event → list string → option Z;    (* the return code *)
}.

(** One outward call: recorded in the trace, then answered. *)
Definition call {A} (ev : event) (answer : list event → option A) : M A :=
  λ w, match answer (w_trace w) with
       | Some a => (Ok a, log_event ev w)
       | None => (Raise CollaboratorError, log_event ev w)
       end.

Definition print (line : string) : M unit := modify (log_event (EvPrint line)).

Section Bench.

Context (env : Env).

(** *** The tracking-service client *)

Definition get_task (task_id : pyid) : M task :=
  call (EvGetTask task_id) (λ tr, env_get_task env tr task_id).
Definition get_dataset (t : task) : M dataset :=
  call (EvGetDataset t) (λ tr, env_get_dataset env tr t).
Definition get_data (d : dataset) : M (list bool) :=
  call (EvGetData d) (λ tr, env_get_data env tr d).
Definition run_model_on_task (t : task) (clf : classifier) : M run :=
  call (EvRunModel t) (λ tr, env_run_model env tr t clf).
Definition publish (r : run) : M Z :=
  call (EvPublish r) (λ tr, env_publish env tr r).
Definition subprocess_call (argv : list string) : M Z :=
  call (EvSubprocess argv) (λ tr, env_subprocess env tr argv).

(** [openml.config.apikey = key] *)
Definition assign_apikey (key : string) : M unit :=
  modify (λ w, log_event (EvSetApikey key) (set_apikey key w)).

(** *** class Benchmark *)

Record Benchmark := mkBenchmark {
  python_interpreter : string;
  jobs_dir : string;
  config_file : string;
  headers : string;
}.

(** [Benchmark.__init__] *)
Definition init (headers python_interpreter jobs_dir config_file : string) : M Benchmark :=
  let self := mkBenchmark python_interpreter jobs_dir config_file headers in
  present ← Os.exists_ jobs_dir;
  (if negb present then Os.makedirs jobs_dir else mret tt);;
  mret self.

(** [Benchmark.create_config_file] *)
Definition create_config_file (file_name : string) (tpot autosklearn wrapper : json)
    : M string :=
  Os.open_w file_name;;
  Os.write file_name
    (Json.dumps (Some 4%nat) true
       (JObj [("tpot", tpot); ("autosklearn", autosklearn); ("wrapper", wrapper)]));;
  mret file_name.

(** The name [create_job] opens: [f"jobs/{clf_name}_{task_id}.sh"]. *)
Definition job_file (clf_name : string) (task_id : pyid) : string :=
  "jobs/" +:+ clf_name +:+ "_" +:+ format_id task_id +:+ ".sh".

(** [Benchmark.create_job] *)
Definition create_job (self : Benchmark) (task_id : pyid) (clf_name : string)
    (preprocessor : option string) (log : string) : M Benchmark :=
  let f := job_file clf_name task_id in
  Os.open_w f;;
  Os.write f (headers self +:+ "
");;
  Os.write f (python_interpreter self +:+ " -m arbok ");;
  Os.write f ("--classifier " +:+ clf_name +:+ " ");;
  Os.write f ("--task-id " +:+ format_id task_id +:+ " ");;
  Os.write f ("--config " +:+ config_file self +:+ " ");;
  Os.write f ("--preprocessor " +:+ format_opt preprocessor +:+ " ");;
  Os.write f ("--log " +:+ log +:+ " ");;
  mret self.

(** The defaults of [create_job]'s keyword parameters. *)
Definition default_preprocessor : option string := Some "default".
Definition default_log : string := "log.json".

(** [Benchmark.create_jobs]; [classifiers = None] is the parameter's
    default. *)
Definition create_jobs (self : Benchmark) (tasks : list pyid)
    (classifiers : option (list string)) : M Benchmark :=
  let classifiers := default ["tpot"; "autosklearn"] classifiers in
  for_each classifiers (λ clf,
    for_each tasks (λ task_id,
      create_job self task_id clf default_preprocessor default_log;; mret tt));;
  mret self.

(** [Benchmark.submit_jobs] *)
Definition submit_jobs (self : Benchmark) : M Benchmark :=
  names ← Os.listdir "jobs/";
  files ← filter_m (λ f, Os.isfile (Path.join "jobs/" f)) names;
  for_each files (λ file,
    print ("Submitting jobs/" +:+ file);;
    subprocess_call ["qsub"; "jobs/" +:+ file];;
    mret tt);;
  mret self.

(** [Benchmark.get_preprocessor] *)
Definition get_preprocessor (task_id : pyid) (name : option string) : M (option pipeline) :=
  match name with
  | None => mret None
  | Some name =>
      task ← get_task task_id;
      dataset ← get_dataset task;
      categorical ← get_data dataset;
      let categorical := removelast categorical in
      if String.eqb name "default" then
        mret (Some [ConditionalImputer categorical "mean" "most_frequent";
                    OneHotEncoder categorical "ignore" false])
      else raise (ValueError ("Preprocessor " +:+ name +:+ " unknown"))
  end.

(** A call [f(preprocessor=p, **a, **b)]: both must be mappings, and no
    keyword may be given twice. *)
Definition keyword_args (a b : json) : M kwargs :=
  match a, b with
  | JObj a, JObj b =>
      let keys := ("preprocessor" :: map fst a ++ map fst b)%list in
      if bool_decide (NoDup keys) then mret (a ++ b)%list else raise TypeError
  | _, _ => raise TypeError
  end.

Definition construct (clf : classifier) : M classifier :=
  if env_construct env clf then mret clf else raise CollaboratorError.

(** [Benchmark.run_job] *)
Definition run_job (clf_name : string) (task_id : pyid)
    (wrapper_config tpot_config autosklearn_config : json)
    (preprocessor apikey : option string) : M (Z * string) :=
  (if truthy apikey then assign_apikey (default "" apikey) else mret tt);;
  preprocessor ← get_preprocessor task_id preprocessor;
  clf ← (if String.eqb clf_name "tpot" then
           kw ← keyword_args wrapper_config tpot_config;
           construct (TPOTWrapper preprocessor kw)
         else if String.eqb clf_name "autosklearn" then
           kw ← keyword_args wrapper_config autosklearn_config;
           construct (AutoSklearnWrapper preprocessor kw)
         else raise (ValueError ("Classifier name " +:+ clf_name +:+ " unknown")));
  task ← get_task task_id;
  run ← run_model_on_task task clf;
  run_id ← publish run;
  mret (run_id, env_server env +:+ "/json/run/" +:+ str_of_Z run_id).

(** *** The command-line entry point *)

(** [json.load(open(path))] *)
Definition json_load (path : string) : M json :=
  text ← Os.read path;
  match Json.loads text with
  | Some v => mret v
  | None => raise JSONDecodeError
  end.

(** [cfg[key]] *)
Definition getitem (cfg : json) (key : string) : M json :=
  match cfg with
  | JObj kvs =>
      match dict_get key kvs with
      | Some v => mret v
      | None => raise (KeyError key)
      end
  | _ => raise TypeError
  end.

(** [data.update({id: output})]; only a dict has [update]. *)
Definition update (data : json) (id : Z) (output : string) : M (list (pykey * json)) :=
  match data with
  | JObj kvs => mret (dict_set (KInt id) (JStr output) (map (λ kv, (KStr kv.1, kv.2)) kvs))
  | _ => raise AttributeError
  end.

(** The end of [cli], "Store output": the run's record is merged into the
    log file. *)
Definition store_output (log : string) (id : Z) (output : string) : M unit :=
  present ← Os.isfile log;
  data ← (if present : bool then json_load log else mret (JObj []));
  data ← update data id output;
  Os.open_w log;;
  Os.write log (Json.dumps_dict data);;
  mret tt.

(** [cli]; the options arrive as click delivers them: a str, or [None]
    for an option without default that was not given. *)
Definition cli (classifier : string) (task_id : option string) (config preprocessor : string)
    (apikey : option string) (log : string) : M unit :=
  (if negb (truthy task_id) then raise (ClickException "Please specify a task id.")
   else
     present ← Os.isfile config;
     if negb present then raise (ClickException "The configuration file does not exist.")
     else mret tt);;
  cfg ← json_load config;
  tpot ← getitem cfg "tpot";
  autosklearn ← getitem cfg "autosklearn";
  wrapper ← getitem cfg "wrapper";
  print ("Running " +:+ classifier +:+ " on task " +:+ format_opt task_id +:+ ".");;
  record ← run_job classifier (IdStr (format_opt task_id)) wrapper tpot autosklearn
             (Some preprocessor) apikey;
  store_output log record.1 record.2.

(** How click runs the command: a [ClickException] is shown on standard
    error as ["Error: message"] and the process exits with its exit code
    1; any other exception ends the process with status 1 as well. *)
Definition main (classifier : string) (task_id : option string) (config preprocessor : string)
    (apikey : option string) (log : string) : World → Z * World :=
  λ w,
    match cli classifier task_id config preprocessor apikey log w with
    | (Ok _, w') => (0, w')
    | (Raise (ClickException msg), w') => (1, log_event (EvStderr ("Error: " +:+ msg)) w')
    | (Raise _, w') => (1, w')
    end.

End Bench.

(** * Specification-side definitions *)

(** The text of a job script: the header block, then the invocation line. *)
Definition job_text (self : Benchmark) (task_id : pyid) (clf_name : string)
    (preprocessor : option string) (log : string) : string :=
  headers self +:+ "
" +:+ python_interpreter self +:+ " -m arbok "
  +:+ "--classifier " +:+ clf_name +:+ " "
  +:+ "--task-id " +:+ format_id task_id +:+ " "
  +:+ "--config " +:+ config_file self +:+ " "
  +:+ "--preprocessor " +:+ format_opt preprocessor +:+ " "
  +:+ "--log " +:+ log +:+ " ".

(** The world after a job script has been written. *)
Definition job_written (self : Benchmark) (task_id : pyid) (clf_name : string)
    (preprocessor : option string) (log : string) (w : World) : World :=
  log_event (EvOpenWrite (job_file clf_name task_id))
    (set_files (insert (job_file clf_name task_id)
                  (job_text self task_id clf_name preprocessor log)) w).

(** The (classifier, task) pairs in classifier-major order. *)
Definition job_pairs (classifiers : list string) (tasks : list pyid) : list (string * pyid) :=
  flat_map (λ c, map (pair c) tasks) classifiers.

Definition job_path (ct : string * pyid) : string := job_file ct.1 ct.2.

(** The world after one default job script per pair has been written, in
    the order of the list. *)
Definition write_all (self : Benchmark) (pairs : list (string * pyid)) (w : World) : World :=
  foldl (λ w ct, job_written self ct.2 ct.1 default_preprocessor default_log w) w pairs.

Definition is_int (t : pyid) : bool :=
  match t with
  | IdInt _ => true
  | IdStr _ => false
  end.



(** The world with more calls recorded. *)
Definition add_events (evs : list event) (w : World) : World :=
  mkWorld (w_dirs w) (w_files w) (w_apikey w) (w_trace w ++ evs).

(** The pipeline [get_preprocessor] builds for ["default"]. *)
Definition default_pipeline (categorical : list bool) : pipeline :=
  [ConditionalImputer categorical "mean" "most_frequent";
   OneHotEncoder categorical "ignore" false].

(** What the tracking service answers when the task, its dataset and the
    dataset's categorical indicator are fetched after the calls [tr]: the
    indicator if all three calls are answered, and the calls made. *)
Definition fetch_run (env : Env) (tr : list event) (task_id : pyid)
    : option (list bool) * list event :=
  match env_get_task env tr task_id with
  | None => (None, [EvGetTask task_id])
  | Some tk =>
      match env_get_dataset env (tr ++ [EvGetTask task_id]) tk with
      | None => (None, [EvGetTask task_id; EvGetDataset tk])
      | Some ds =>
          (env_get_data env ((tr ++ [EvGetTask task_id]) ++ [EvGetDataset tk]) ds,
           [EvGetTask task_id; EvGetDataset tk; EvGetData ds])
      end
  end.

(** The assignment [run_job] starts with when the key is truthy. *)
Definition apikey_events (apikey : option string) : list event :=
  if truthy apikey then [EvSetApikey (default "" apikey)] else [].

Definition unknown_classifier (clf_name : string) : exn :=
  ValueError ("Classifier name " +:+ clf_name +:+ " unknown").
Definition unknown_preprocessor (name : string) : exn :=
  ValueError ("Preprocessor " +:+ name +:+ " unknown").

(** A computation that leaves the client's API key alone and only adds to
    the trace. *)
Definition steady {A} (m : M A) : Prop :=
  ∀ w, w_apikey (m w).2 = w_apikey w ∧ ∃ evs, w_trace (m w).2 = w_trace w ++ evs.

(** A value whose dicts have one item per key, as every Python dict has. *)
Fixpoint wf (v : json) : bool :=
  match v with
  | JList xs => forallb wf xs
  | JObj kvs => bool_decide (NoDup (map fst kvs)) && forallb (λ kv, wf kv.2) kvs
  | _ => true
  end.

(** The fuel that parsing the text of a value takes. *)
Fixpoint size (v : json) : nat :=
  match v with
  | JList xs => S (list_sum (map (λ x, S (size x)) xs))
  | JObj kvs => S (list_sum (map (λ kv, S (size kv.2)) kvs))
  | _ => 1
  end.

(** Python's [==] on these values: dicts are equal when they have the same
    items, in whatever order. *)
Inductive json_eq : json → json → Prop :=
  | json_eq_null : json_eq JNull JNull
  | json_eq_bool b : json_eq (JBool b) (JBool b)
  | json_eq_int n : json_eq (JInt n) (JInt n)
  | json_eq_str s : json_eq (JStr s) (JStr s)
  | json_eq_list xs ys :
      Forall2 json_eq xs ys → json_eq (JList xs) (JList ys)
  | json_eq_obj kvs kvs' kvs'' :
      Forall2 (λ a b, a.1 = b.1 ∧ json_eq a.2 b.2) kvs kvs' →
      kvs' ≡ₚ kvs'' →
      json_eq (JObj kvs) (JObj kvs'').

(** A text that cannot continue a number. *)
Definition ends_number (rest : string) : bool :=
  match rest with
  | EmptyString => true
  | String c _ => negb (is_Some_bool (Json.digit_of c)) && negb (Json.starts_float rest)
  end.

(** A character a value's text can start with. *)
Definition value_start (c : ascii) : bool :=
  Ascii.eqb c dquote || Ascii.eqb c "{" || Ascii.eqb c "[" || Ascii.eqb c "n"
  || Ascii.eqb c "t" || Ascii.eqb c "f" || Ascii.eqb c "-" || is_Some_bool (Json.digit_of c).

Definition all_ws (s : string) : bool :=
  (fix go (s : string) : bool :=
     match s with
     | EmptyString => true
     | String c r => Json.is_ws c && go r
     end) s.

(** The text of a value, whatever follows it, parses back to the value. *)
Definition round_trips (indent : option nat) (v : json) : Prop :=
  ∀ level fuel rest,
    wf v = true → (size v ≤ fuel)%nat → ends_number rest = true →
    Json.parse_value fuel (Json.encode indent level v +:+ rest) = Some (v, rest).

(** The keys of every dict of a value are in ascending order. *)
Fixpoint sorted_strings (l : list string) : bool :=
  match l with
  | [] => true
  | a :: t =>
      match t with
      | [] => true
      | b :: _ => String.leb a b
      end && sorted_strings t
  end.

Fixpoint keys_sorted (v : json) : bool :=
  match v with
  | JList xs => forallb keys_sorted xs
  | JObj kvs => sorted_strings (map fst kvs) && forallb (λ kv, keys_sorted kv.2) kvs
  | _ => true
  end.

(** The text of a str that needs no escape. *)
Definition quoted (s : string) : string := String dquote (s +:+ String dquote "").

(** The layout of a configuration file: one object, its three keys in
    ascending order, each on a line of its own after four spaces. *)
Definition config_text (autosklearn tpot wrapper : json) : string :=
  "{" +:+ String newline "    " +:+ quoted "autosklearn" +:+ ": "
      +:+ Json.encode (Some 4%nat) 1 autosklearn +:+ ","
      +:+ String newline "    " +:+ quoted "tpot" +:+ ": "
      +:+ Json.encode (Some 4%nat) 1 tpot +:+ ","
      +:+ String newline "    " +:+ quoted "wrapper" +:+ ": "
      +:+ Json.encode (Some 4%nat) 1 wrapper
      +:+ String newline "" +:+ "}".

(** The line of a job script that runs the program: the module call and
    its five flags, each followed by a blank. *)
Definition invocation_line (self : Benchmark) (task_id : pyid) (clf_name : string)
    (preprocessor : option string) (log : string) : string :=
  python_interpreter self +:+ " -m arbok "
  +:+ "--classifier " +:+ clf_name +:+ " "
  +:+ "--task-id " +:+ format_id task_id +:+ " "
  +:+ "--config " +:+ config_file self +:+ " "
  +:+ "--preprocessor " +:+ format_opt preprocessor +:+ " "
  +:+ "--log " +:+ log +:+ " ".

(** The body of the loops of [create_jobs], for one pair. *)
Definition write_default_job (self : Benchmark) (ct : string * pyid) : M unit :=
  create_job self ct.2 ct.1 default_preprocessor default_log;; mret tt.

(** The names [submit_jobs] keeps of the listing of ["jobs/"]: those of
    regular files, in the order of the listing. *)
Definition jobs_listing (w : World) : list string :=
  List.filter (λ f, Os.is_file w (Path.join "jobs/" f))
    (omap (Os.entry_name "jobs/") ((map_to_list (w_files w)).*1 ++ elements (w_dirs w))).

(** What submitting one file adds to the trace. *)
Definition submission (file : string) : list event :=
  [EvPrint ("Submitting jobs/" +:+ file); EvSubprocess ["qsub"; "jobs/" +:+ file]].

(** The body of the loop of [submit_jobs]. *)
Definition submit_one (env : Env) (file : string) : M unit :=
  print ("Submitting jobs/" +:+ file);;
  subprocess_call env ["qsub"; "jobs/" +:+ file];;
  mret tt.

(** No path is a directory and a regular file at once. *)
Definition consistent (w : World) : Prop :=
  ∀ p, p ∈ w_dirs w → w_files w !! p = None.

Definition is_open_write (e : event) : bool :=
  match e with
  | EvOpenWrite _ => true
  | _ => false
  end.

(** A computation that leaves the client's API key alone and adds to the
    trace only calls of the kind [ok]. *)
Definition emits {A} (ok : event → bool) (m : M A) : Prop :=
  ∀ w, w_apikey (m w).2 = w_apikey w
       ∧ ∃ evs, w_trace (m w).2 = w_trace w ++ evs ∧ forallb ok evs = true.

(** A computation that stays on the machine: all it adds to the trace are
    openings of files. *)
Definition local_only {A} (m : M A) : Prop := emits is_open_write m.

(** A computation that creates no directory and changes no file outside
    the paths [P]. *)
Definition touches {A} (P : string → Prop) (m : M A) : Prop :=
  ∀ w, w_dirs (m w).2 = w_dirs w
       ∧ ∀ p, ¬ P p → w_files (m w).2 !! p = w_files w !! p.

(** The two halves of [run_job] that follow the preprocessor: the wrapper
    named by [clf_name] is built, then it is evaluated on the task and the
    run is published. *)
Definition build_classifier (env : Env) (clf_name : string) (preprocessor : option pipeline)
    (wrapper_config tpot_config autosklearn_config : json) : M classifier :=
  if String.eqb clf_name "tpot" then
    kw ← keyword_args wrapper_config tpot_config;
    construct env (TPOTWrapper preprocessor kw)
  else if String.eqb clf_name "autosklearn" then
    kw ← keyword_args wrapper_config autosklearn_config;
    construct env (AutoSklearnWrapper preprocessor kw)
  else raise (ValueError ("Classifier name " +:+ clf_name +:+ " unknown")).

Definition run_url (env : Env) (run_id : Z) : string :=
  env_server env +:+ "/json/run/" +:+ str_of_Z run_id.

Definition evaluate (env : Env) (task_id : pyid) (clf : classifier) : M (Z * string) :=
  task ← get_task env task_id;
  run ← run_model_on_task env task clf;
  run_id ← publish env run;
  mret (run_id, run_url env run_id).

(** The keywords of a wrapper's constructor call cannot be passed: one of
    the two option values is no mapping, or a keyword occurs twice. *)
Definition keywords_clash (a b : json) : Prop :=
  match a, b with
  | JObj a, JObj b => ¬ NoDup ("preprocessor" :: map fst a ++ map fst b)
  | _, _ => True
  end.

(** The first of the three keys [cli] reads that a configuration lacks. *)
Definition first_missing (kvs : list (string * json)) : option string :=
  List.find (λ k, negb (is_Some_bool (dict_get k kvs))) ["tpot"; "autosklearn"; "wrapper"].

(** The line [cli] prints before the run. *)
Definition announcement (classifier task_id : string) : event :=
  EvPrint ("Running " +:+ classifier +:+ " on task " +:+ task_id +:+ ".").

(** What [cli] reads from the log before it stores a record: the items of
    the object the file holds, none when there is no such file. *)
Definition holds_records (w : World) (log : string) (kvs : list (string * json)) : Prop :=
  match w_files w !! log with
  | Some text => Json.loads text = Some (JObj kvs) ∧ wf (JObj kvs) = true
  | None => kvs = []
  end.

(** The items [store_output] writes: those read, then the new record. *)
Definition log_items (kvs : list (string * json)) (id : Z) (output : string)
    : list (string * json) :=
  kvs ++ [(str_of_Z id, JStr output)].

(** A text that [json.load] rejects whatever else it holds: it is empty or
    all white space, or the first character after the white space is none
    of those a JSON value can begin with. *)
Definition may_start_value (c : ascii) : bool :=
  Ascii.eqb c dquote
  || existsb (Ascii.eqb c) (list_ascii_of_string "{[-0123456789tfnNI").

Definition no_json_start (text : string) : bool :=
  match Json.skip_ws text with
  | EmptyString => true
  | String c _ => negb (may_start_value c)
  end.

(** A log the store step cannot use, and the error it fails with. *)
Definition unusable_log (text : string) (e : exn) : Prop :=
  (no_json_start text = true ∧ e = JSONDecodeError)
  ∨ (∃ v, Json.loads text = Some v ∧ (∀ records, v ≠ JObj records) ∧ e = AttributeError).

(** ** Concrete worlds for the examples *)

Definition world_with_jobs : World := mkWorld {["jobs"]} ∅ "" [].
Definition bench0 : Benchmark := mkBenchmark "python3" "jobs" "config.json" "#!/bin/sh".
Definition world0 : World := mkWorld ∅ ∅ "" [].

(** A world with two job scripts and a file elsewhere, and an environment
    in which the queue command cannot be started. *)
Definition world_with_scripts : World :=
  mkWorld {["jobs"]}
    {["jobs/tpot_3.sh" := "a"; "jobs/tpot_31.sh" := "b"; "notes.txt" := "c"]} "" [].
Definition env_no_qsub : Env :=
  mkEnv "https://www.openml.org/api/v1"
    (λ _ _, Some (Task 0)) (λ _ _, Some (Dataset 0)) (λ _ _, Some [true; false; true])
    (λ _, true) (λ _ _ _, Some (Run 0)) (λ _ _, Some 7) (λ _ _, None).


(** Option mappings, and a log file holding one record. *)
Definition tpot_options : json :=
  JObj [("verbosity", JInt 2); ("generations", JInt 5); ("scoring", JStr "accuracy")].
Definition autosklearn_options : json :=
  JObj [("time_left_for_this_task", JInt 3600); ("include", JList [JStr "sgd"; JNull])].
Definition wrapper_options : json := JObj [("refit", JBool true)].
Definition log_text : string := "{" +:+ quoted "1" +:+ ": " +:+ quoted "urlA" +:+ "}".
Definition world_with_log : World := mkWorld ∅ {["log.json" := log_text]} "" [].

(** Configuration files: one with the three keys, one without the
    wrapper's options. *)
Definition config_example : string :=
  "{" +:+ quoted "autosklearn" +:+ ": {}, " +:+ quoted "tpot" +:+ ": {}, "
  +:+ quoted "wrapper" +:+ ": {}}".
Definition config_without_wrapper : string :=
  "{" +:+ quoted "tpot" +:+ ": {}, " +:+ quoted "autosklearn" +:+ ": {}}".
Definition world_with_config (text : string) : World :=
  mkWorld ∅ {["config.json" := text]} "" [].

(** A tracking service that answers every call, and one that is down. *)
Definition env_up : Env :=
  mkEnv "https://www.openml.org/api/v1"
    (λ _ _, Some (Task 0)) (λ _ _, Some (Dataset 0)) (λ _ _, Some [true; false; true])
    (λ _, true) (λ _ _ _, Some (Run 0)) (λ _ _, Some 7) (λ _ _, Some 0).
Definition env_down : Env :=
  mkEnv "https://www.openml.org/api/v1"
    (λ _ _, None) (λ _ _, None) (λ _ _, None)
    (λ _, true) (λ _ _ _, None) (λ _ _, None) (λ _ _, Some 0).

(** * Facts about the embedding *)

(** ** Strings *)

Lemma app_nil_l_s (s : string) : "" +:+ s = s.
Proof. reflexivity. Qed.

Lemma app_cons_s (c : ascii) (s t : string) : String c s +:+ t = String c (s +:+ t).
Proof. reflexivity. Qed.

Lemma app_assoc_s (a b c : string) : (a +:+ b) +:+ c = a +:+ (b +:+ c).
Proof.
  induction a as [|x a IH]; [reflexivity|].
  rewrite !app_cons_s. by rewrite IH.
Qed.

Lemma app_nil_r_s (s : string) : s +:+ "" = s.
Proof.
  induction s as [|x s IH]; [reflexivity|]. rewrite app_cons_s. by rewrite IH.
Qed.

Lemma length_app_s (a b : string) :
  String.length (a +:+ b) = (String.length a + String.length b)%nat.
Proof.
  induction a as [|x a IH]; [reflexivity|].
  rewrite app_cons_s. simpl. by rewrite IH.
Qed.

(** ** The monad *)

Lemma bind_ok {A B} (m : M A) (k : A → M B) w a w' :
  m w = (Ok a, w') → (m ≫= k) w = k a w'.
Proof. intros H. unfold mbind, M_bind. by rewrite H. Qed.

Lemma bind_raise {A B} (m : M A) (k : A → M B) w e w' :
  m w = (Raise e, w') → (m ≫= k) w = (Raise e, w').
Proof. intros H. unfold mbind, M_bind. by rewrite H. Qed.

(** ** Opening and writing files *)

Lemma open_w_ok w p :
  Os.can_open_w w p = true →
  Os.open_w p w = (Ok tt, log_event (EvOpenWrite p) (set_files (insert p "") w)).
Proof.
  unfold Os.can_open_w, Os.open_w. intros H.
  apply andb_prop in H as [H H3]. apply andb_prop in H as [H1 H2].
  destruct (String.eqb p ""); [discriminate|].
  destruct (Os.is_dir _ _); [discriminate|].
  by rewrite H3.
Qed.

Lemma open_w_fail w p :
  Os.can_open_w w p = false → ∃ e, Os.open_w p w = (Raise e, w).
Proof.
  unfold Os.can_open_w, Os.open_w. intros H.
  destruct (String.eqb p ""); [eauto|].
  destruct (Os.is_dir _ _); [eauto|].
  destruct (Os.parent_exists _ _); [discriminate|eauto].
Qed.

Lemma can_open_w_dirs w w' p :
  w_dirs w' = w_dirs w → Os.can_open_w w' p = Os.can_open_w w p.
Proof.
  intros H. unfold Os.can_open_w, Os.parent_exists, Os.is_dir. by rewrite H.
Qed.

Lemma write_inserted d fs k tr p c s :
  Os.write p s (mkWorld d (<[p := c]> fs) k tr)
  = (Ok tt, mkWorld d (<[p := c +:+ s]> fs) k tr).
Proof.
  unfold Os.write, modify, set_files. simpl.
  by rewrite lookup_insert_eq, insert_insert_eq.
Qed.

(** ** create_job *)

Lemma create_job_ok self task_id clf_name preprocessor log w :
  Os.can_open_w w (job_file clf_name task_id) = true →
  create_job self task_id clf_name preprocessor log w
  = (Ok self, job_written self task_id clf_name preprocessor log w).
Proof.
  intros Hopen. unfold create_job.
  rewrite (bind_ok _ _ _ _ _ (open_w_ok _ _ Hopen)).
  destruct w as [d fs k tr]. unfold log_event, set_files. simpl.
  repeat (erewrite bind_ok; [|apply write_inserted]).
  unfold mret, M_ret, job_written, log_event, set_files, job_text. simpl.
  by rewrite app_nil_l_s, !app_assoc_s.
Qed.

Lemma create_job_fail self task_id clf_name preprocessor log w :
  Os.can_open_w w (job_file clf_name task_id) = false →
  ∃ e, create_job self task_id clf_name preprocessor log w = (Raise e, w).
Proof.
  intros Hopen. destruct (open_w_fail _ _ Hopen) as [e He].
  exists e. unfold create_job. by rewrite (bind_raise _ _ _ _ _ He).
Qed.

(** C7: re-invoking [create_job] for the same (classifier, task) pair
    overwrites the job file without an error; after a second call with
    another preprocessor the files are what the second call alone would
    have left, and the script's text is the one built from the second
    preprocessor value only. *)
Theorem create_job_last_write_wins self task_id clf_name p1 p2 log1 log2 w :
  Os.can_open_w w (job_file clf_name task_id) = true →
  ∃ w1 w2,
    create_job self task_id clf_name p1 log1 w = (Ok self, w1) ∧
    create_job self task_id clf_name p2 log2 w1 = (Ok self, w2) ∧
    w_files w2 = w_files (snd (create_job self task_id clf_name p2 log2 w)) ∧
    w_files w2 !! job_file clf_name task_id
      = Some (job_text self task_id clf_name p2 log2).
Proof.
  intros Hopen.
  assert (Hopen1 : Os.can_open_w (job_written self task_id clf_name p1 log1 w)
                     (job_file clf_name task_id) = true).
  { by rewrite (can_open_w_dirs w). }
  eexists _, _. split; [by apply create_job_ok|].
  split; [by apply create_job_ok|].
  rewrite (create_job_ok _ _ _ p2 log2 w Hopen). simpl.
  split; [apply insert_insert_eq | apply lookup_insert_eq].
Qed.

Lemma create_job_last_write_wins_witness :
  Os.can_open_w world_with_jobs (job_file "tpot" (IdInt 31)) = true ∧
  ∃ w1 w2,
    create_job bench0 (IdInt 31) "tpot" (Some "default") "log.json" world_with_jobs
      = (Ok bench0, w1) ∧
    create_job bench0 (IdInt 31) "tpot" None "log.json" w1 = (Ok bench0, w2) ∧
    w_files w2
      = w_files (snd (create_job bench0 (IdInt 31) "tpot" None "log.json" world_with_jobs)) ∧
    w_files w2 !! job_file "tpot" (IdInt 31)
      = Some (job_text bench0 (IdInt 31) "tpot" None "log.json").
Proof.
  split; [vm_compute; reflexivity|].
  apply (create_job_last_write_wins bench0 (IdInt 31) "tpot"
           (Some "default") None "log.json" "log.json" world_with_jobs).
  vm_compute. reflexivity.
Defined.

(** ** Decimal text and job-file names *)

Lemma has_char_app x (a b : string) :
  has_char x (a +:+ b) = has_char x a || has_char x b.
Proof.
  induction a as [|c a IH]; [reflexivity|].
  rewrite app_cons_s. simpl. rewrite IH. by rewrite orb_assoc.
Qed.

Lemma app_inv_tail_s (a b t : string) : a +:+ t = b +:+ t → a = b.
Proof.
  revert b. induction a as [|x a IH]; intros [|y b] H.
  - reflexivity.
  - apply (f_equal String.length) in H.
    rewrite app_nil_l_s, app_cons_s in H. simpl in H.
    rewrite length_app_s in H. lia.
  - apply (f_equal String.length) in H.
    rewrite app_nil_l_s, app_cons_s in H. simpl in H.
    rewrite length_app_s in H. lia.
  - rewrite !app_cons_s in H. injection H as -> H. f_equal. by apply IH.
Qed.

Lemma uint_text_no_underscore d : has_char "_" (NilEmpty.string_of_uint d) = false.
Proof. induction d; simpl; auto. Qed.

Lemma uint_text_no_slash d : has_char "/" (NilEmpty.string_of_uint d) = false.
Proof. induction d; simpl; auto. Qed.

Lemma str_of_Z_no_underscore n : has_char "_" (str_of_Z n) = false.
Proof.
  unfold str_of_Z. destruct (Z.to_int n) as [d|d]; simpl;
    destruct d; simpl; auto using uint_text_no_underscore.
Qed.

Lemma str_of_Z_no_slash n : has_char "/" (str_of_Z n) = false.
Proof.
  unfold str_of_Z. destruct (Z.to_int n) as [d|d]; simpl;
    destruct d; simpl; auto using uint_text_no_slash.
Qed.

Lemma to_int_not_nil n : Z.to_int n ≠ Pos Nil ∧ Z.to_int n ≠ Neg Nil.
Proof.
  destruct n as [|p|p]; simpl; split; try discriminate;
    intros [= H]; by apply (DecimalPos.Unsigned.to_uint_nonnil p).
Qed.

Lemma str_of_Z_inj n n' : str_of_Z n = str_of_Z n' → n = n'.
Proof.
  unfold str_of_Z. intros H.
  apply DecimalZ.to_int_inj.
  destruct (to_int_not_nil n) as [Hp Hn], (to_int_not_nil n') as [Hp' Hn'].
  pose proof (NilZero.isi _ Hp Hn) as E. rewrite H in E.
  rewrite (NilZero.isi _ Hp' Hn') in E. congruence.
Qed.

(** A name [c_x] splits in one way only when [x] has no underscore. *)
Lemma split_at_underscore (c c' x y : string) :
  has_char "_" x = false → has_char "_" y = false →
  c +:+ String "_" x = c' +:+ String "_" y → c = c' ∧ x = y.
Proof.
  intros Hx Hy. revert c'. induction c as [|a c IH]; intros [|a' c'] H.
  - rewrite !app_nil_l_s in H. by injection H.
  - rewrite app_nil_l_s, app_cons_s in H. injection H as <- ->.
    rewrite has_char_app in Hx. simpl in Hx.
    by rewrite orb_true_r in Hx.
  - rewrite app_nil_l_s, app_cons_s in H. injection H as -> <-.
    rewrite has_char_app in Hy. simpl in Hy.
    by rewrite orb_true_r in Hy.
  - rewrite !app_cons_s in H. injection H as -> H.
    destruct (IH _ H) as [-> ->]. done.
Qed.

Lemma job_file_int_inj c n c' n' :
  job_file c (IdInt n) = job_file c' (IdInt n') → c = c' ∧ n = n'.
Proof.
  unfold job_file. simpl. intros H.
  apply (inj (String.app "jobs/")) in H.
  change ("_" +:+ ?s) with (String "_" s) in H.
  apply split_at_underscore in H as [-> H].
  - split; [done|]. by apply str_of_Z_inj, (app_inv_tail_s _ _ ".sh").
  - rewrite has_char_app, str_of_Z_no_underscore. reflexivity.
  - rewrite has_char_app, str_of_Z_no_underscore. reflexivity.
Qed.

(** ** create_jobs *)

Lemma write_all_cons self ct pairs w :
  write_all self (ct :: pairs) w
  = write_all self pairs (job_written self ct.2 ct.1 default_preprocessor default_log w).
Proof. reflexivity. Qed.

Lemma write_all_app self ps qs w :
  write_all self (ps ++ qs) w = write_all self qs (write_all self ps w).
Proof. apply foldl_app. Qed.

Lemma write_all_dirs self pairs w : w_dirs (write_all self pairs w) = w_dirs w.
Proof.
  revert w. induction pairs as [|ct pairs IH]; intros w; [reflexivity|].
  rewrite write_all_cons, IH. reflexivity.
Qed.

Lemma write_all_trace self pairs w :
  w_trace (write_all self pairs w)
  = w_trace w ++ map (λ ct, EvOpenWrite (job_path ct)) pairs.
Proof.
  revert w. induction pairs as [|ct pairs IH]; intros w.
  - simpl. by rewrite app_nil_r.
  - rewrite write_all_cons, IH. simpl. by rewrite <- app_assoc.
Qed.

Lemma write_all_lookup_other self pairs w p :
  p ∉ map job_path pairs →
  w_files (write_all self pairs w) !! p = w_files w !! p.
Proof.
  revert w. induction pairs as [|ct pairs IH]; intros w Hp; [reflexivity|].
  simpl in Hp. apply not_elem_of_cons in Hp as [Hne Hp].
  rewrite write_all_cons, IH by done. simpl.
  apply lookup_insert_ne. unfold job_path in Hne. congruence.
Qed.

Lemma write_all_dom self pairs w :
  dom (w_files (write_all self pairs w))
  = dom (w_files w) ∪ list_to_set (map job_path pairs).
Proof.
  revert w. induction pairs as [|ct pairs IH]; intros w.
  - simpl. set_solver.
  - rewrite write_all_cons, IH. simpl. rewrite dom_insert_L.
    unfold job_path at 2. set_solver.
Qed.

Lemma write_all_lookup self pairs w ct :
  NoDup (map job_path pairs) → ct ∈ pairs →
  w_files (write_all self pairs w) !! job_path ct
  = Some (job_text self ct.2 ct.1 default_preprocessor default_log).
Proof.
  revert w. induction pairs as [|x pairs IH]; intros w Hnd Hin.
  - by apply elem_of_nil in Hin.
  - simpl in Hnd. apply NoDup_cons in Hnd as [Hx Hnd].
    rewrite write_all_cons.
    apply elem_of_cons in Hin as [->|Hin].
    + rewrite write_all_lookup_other by done. simpl. apply lookup_insert_eq.
    + by apply IH.
Qed.

Lemma tasks_loop_ok self clf tasks w :
  (∀ t, t ∈ tasks → Os.can_open_w w (job_file clf t) = true) →
  for_each tasks (λ task_id,
    create_job self task_id clf default_preprocessor default_log;; mret tt) w
  = (Ok tt, write_all self (map (pair clf) tasks) w).
Proof.
  revert w. induction tasks as [|t tasks IH]; intros w Hopen; [reflexivity|].
  simpl for_each.
  erewrite bind_ok; cycle 1.
  { erewrite bind_ok; [reflexivity|]. apply create_job_ok, Hopen. left. }
  rewrite IH; [reflexivity|].
  intros t' Ht'. rewrite (can_open_w_dirs w) by reflexivity.
  apply Hopen. by right.
Qed.

Lemma classifiers_loop_ok self classifiers tasks w :
  (∀ c t, c ∈ classifiers → t ∈ tasks → Os.can_open_w w (job_file c t) = true) →
  for_each classifiers (λ clf,
    for_each tasks (λ task_id,
      create_job self task_id clf default_preprocessor default_log;; mret tt)) w
  = (Ok tt, write_all self (job_pairs classifiers tasks) w).
Proof.
  revert w. induction classifiers as [|c cs IH]; intros w Hopen; [reflexivity|].
  simpl for_each.
  erewrite bind_ok; cycle 1.
  { apply tasks_loop_ok. intros t Ht. apply Hopen; [left|done]. }
  rewrite IH.
  - unfold job_pairs. simpl. by rewrite write_all_app.
  - intros c' t Hc' Ht. rewrite (can_open_w_dirs w) by apply write_all_dirs.
    apply Hopen; [by right|done].
Qed.

Lemma length_job_pairs classifiers tasks :
  length (job_pairs classifiers tasks) = (length classifiers * length tasks)%nat.
Proof.
  unfold job_pairs. induction classifiers as [|c cs IH]; [reflexivity|].
  simpl. rewrite length_app, length_map, IH. reflexivity.
Qed.

Lemma elem_of_job_pairs classifiers tasks c t :
  (c, t) ∈ job_pairs classifiers tasks ↔ c ∈ classifiers ∧ t ∈ tasks.
Proof.
  unfold job_pairs. rewrite list_elem_of_In, in_flat_map. split.
  - intros (c' & Hc' & Hin). apply in_map_iff in Hin as (t' & [= <- <-] & Ht').
    by rewrite !list_elem_of_In.
  - intros [Hc Ht]. exists c. rewrite <- list_elem_of_In. split; [done|].
    apply in_map. by apply list_elem_of_In.
Qed.

Lemma NoDup_job_pairs classifiers tasks :
  NoDup classifiers → NoDup tasks → NoDup (job_pairs classifiers tasks).
Proof.
  intros Hc Ht. unfold job_pairs.
  induction Hc as [|c cs Hnotin Hc IH]; simpl; [constructor|].
  apply NoDup_app. split; [|split; [|done]].
  - apply NoDup_fmap_2; [|done]. by intros ?? [=].
  - intros [c' t'] Hin1 Hin2.
    apply list_elem_of_fmap in Hin1 as (t & [= -> ->] & _).
    apply (elem_of_job_pairs cs tasks) in Hin2 as [Hin2 _]. done.
Qed.

Lemma NoDup_job_paths classifiers tasks :
  NoDup classifiers → NoDup tasks → Forall (λ t, is_int t = true) tasks →
  NoDup (map job_path (job_pairs classifiers tasks)).
Proof.
  intros Hc Ht Hint.
  apply NoDup_fmap_2_strong; [|by apply NoDup_job_pairs].
  intros [c t] [c' t'] Hin Hin' Heq.
  apply elem_of_job_pairs in Hin as [_ Hin], Hin' as [_ Hin'].
  rewrite Forall_forall in Hint.
  pose proof (Hint _ Hin) as Hi. pose proof (Hint _ Hin') as Hi'.
  destruct t as [n|?], t' as [n'|?]; try discriminate.
  unfold job_path in Heq. simpl in Heq.
  by apply job_file_int_inj in Heq as [-> ->].
Qed.

(** C2: for N task identifiers and M classifier names (the default pair
    when none is given), [create_jobs] opens exactly N×M job files for
    writing, one per (classifier, task) pair in classifier-major order,
    each named [jobs/{classifier}_{task_id}.sh], and returns [self].
    Afterwards exactly these names were added to the files; when the
    classifiers and the (int) task identifiers are pairwise distinct the
    N×M names are distinct and each file holds its pair's script. *)
Theorem create_jobs_one_file_per_pair self tasks classifiers w :
  let cs := default ["tpot"; "autosklearn"] classifiers in
  let pairs := job_pairs cs tasks in
  forallb (λ ct, Os.can_open_w w (job_path ct)) pairs = true →
  ∃ w',
    create_jobs self tasks classifiers w = (Ok self, w') ∧
    length pairs = (length cs * length tasks)%nat ∧
    w_trace w' = w_trace w ++ map (λ ct, EvOpenWrite (job_file ct.1 ct.2)) pairs ∧
    dom (w_files w') = dom (w_files w) ∪ list_to_set (map job_path pairs) ∧
    (NoDup cs → NoDup tasks → Forall (λ t, is_int t = true) tasks →
     NoDup (map job_path pairs) ∧
     ∀ c t, c ∈ cs → t ∈ tasks →
       w_files w' !! job_file c t
       = Some (job_text self t c default_preprocessor default_log)).
Proof.
  intros cs pairs Hopen.
  rewrite forallb_forall in Hopen.
  assert (Hopen' : ∀ c t, c ∈ cs → t ∈ tasks → Os.can_open_w w (job_file c t) = true).
  { intros c t Hc Ht. apply (Hopen (c, t)).
    apply list_elem_of_In, elem_of_job_pairs. done. }
  exists (write_all self pairs w). split.
  { unfold create_jobs. fold cs.
    erewrite bind_ok; [reflexivity|]. by apply classifiers_loop_ok. }
  split; [apply length_job_pairs|].
  split; [apply write_all_trace|].
  split; [apply write_all_dom|].
  intros Hcs Hts Hint.
  assert (Hnd : NoDup (map job_path pairs)) by by apply NoDup_job_paths.
  split; [done|].
  intros c t Hc Ht.
  apply (write_all_lookup self pairs w (c, t)); [done|].
  by apply elem_of_job_pairs.
Qed.

Lemma create_jobs_one_file_per_pair_witness :
  forallb (λ ct, Os.can_open_w world_with_jobs (job_path ct))
    (job_pairs ["tpot"; "autosklearn"] [IdInt 3; IdInt 31]) = true ∧
  ∃ w',
    create_jobs bench0 [IdInt 3; IdInt 31] None world_with_jobs = (Ok bench0, w') ∧
    w_trace w' = [EvOpenWrite "jobs/tpot_3.sh"; EvOpenWrite "jobs/tpot_31.sh";
                  EvOpenWrite "jobs/autosklearn_3.sh"; EvOpenWrite "jobs/autosklearn_31.sh"].
Proof.
  split; [vm_compute; reflexivity|].
  destruct (create_jobs_one_file_per_pair bench0 [IdInt 3; IdInt 31] None world_with_jobs)
    as (w' & Hrun & _ & Htrace & _); [vm_compute; reflexivity|].
  exists w'. split; [exact Hrun|]. rewrite Htrace. vm_compute. reflexivity.
Defined.

(** ** The jobs directory *)

Lemma create_job_raise self task_id clf_name preprocessor log w e :
  Os.open_w (job_file clf_name task_id) w = (Raise e, w) →
  create_job self task_id clf_name preprocessor log w = (Raise e, w).
Proof. intros He. unfold create_job. by rewrite (bind_raise _ _ _ _ _ He). Qed.




Lemma strip_prefix_spec pre s r : Path.strip_prefix pre s = Some r → s = pre +:+ r.
Proof.
  revert s. induction pre as [|a pre IH]; intros s H.
  - simpl in H. by injection H as ->.
  - destruct s as [|b s]; [discriminate|]. simpl in H.
    destruct (Ascii.eqb_spec a b) as [->|]; [|discriminate].
    rewrite app_cons_s. f_equal. by apply IH.
Qed.

Lemma entry_name_spec d p n :
  Os.entry_name d p = Some n → p = Path.join d "" +:+ n ∧ Path.has_slash n = false.
Proof.
  unfold Os.entry_name. intros H.
  destruct (Path.strip_prefix _ p) as [r|] eqn:Hr; [|discriminate].
  destruct (Path.has_slash r) eqn:Hs; [discriminate|].
  simpl in H. destruct (String.eqb r ""); [discriminate|].
  injection H as <-. split; [by apply strip_prefix_spec|done].
Qed.


Lemma filter_m_isfile (g : string → string) names w :
  filter_m (λ f, Os.isfile (g f)) names w
  = (Ok (List.filter (λ f, Os.is_file w (g f)) names), w).
Proof.
  induction names as [|f names IH]; [reflexivity|].
  simpl. unfold mbind, M_bind, Os.isfile at 1. rewrite IH. simpl.
  by destruct (Os.is_file _ _).
Qed.

Lemma join_relative d n : Path.has_slash n = false → Path.join (d +:+ "/") n = d +:+ "/" +:+ n.
Proof.
  intros Hn. unfold Path.join.
  assert (Path.is_abs n = false) as ->.
  { destruct n as [|c n]; [done|]. unfold Path.has_slash in Hn. simpl in *.
    by destruct (Ascii.eqb c "/"). }
  assert (Path.ends_with_slash (d +:+ "/") = true) as ->.
  { induction d as [|c d IH]; [reflexivity|].
    rewrite app_cons_s. simpl. rewrite IH.
    destruct (d +:+ "/") eqn:E; [|done]. by destruct d. }
  rewrite orb_true_r. by rewrite app_assoc_s.
Qed.


Lemma strip_slash_in_ancestors p :
  Path.strip_slash p ≠ "" → Path.strip_slash p ∈ Path.ancestors p.
Proof.
  intros Hne. unfold Path.ancestors.
  apply list_elem_of_In, filter_In. split.
  - apply in_or_app. right. by left.
  - by apply negb_true_iff, String.eqb_neq.
Qed.

Lemma init_spec h py jd cf w :
  w_files (init h py jd cf w).2 = w_files w ∧
  w_trace (init h py jd cf w).2 = w_trace w ∧
  (w_dirs (init h py jd cf w).2 = w_dirs w
   ∨ w_dirs (init h py jd cf w).2 = w_dirs w ∪ list_to_set (Path.ancestors jd)) ∧
  ∀ self, (init h py jd cf w).1 = Ok self →
    self = mkBenchmark py jd cf h ∧
    Os.exists_ jd (init h py jd cf w).2 = (Ok true, (init h py jd cf w).2).
Proof.
  unfold init, mbind, M_bind.
  destruct (Os.exists_ jd w) as [r w0] eqn:Hex.
  unfold Os.exists_ in Hex. injection Hex as <- <-.
  destruct (negb (String.eqb jd "") && _) eqn:Hex; simpl.
  { split; [done|]. split; [done|]. split; [by left|].
    intros self [= <-]. split; [done|]. unfold Os.exists_. by rewrite Hex. }
  unfold Os.makedirs.
  destruct (String.eqb_spec jd "") as [->|Hne]; simpl.
  { split; [done|]. split; [done|]. split; [by left|]. discriminate. }
  simpl in Hex. apply orb_false_elim in Hex as [Hdir Hfile].
  rewrite Hdir.
  destruct (List.find _ _) as [a|]; simpl.
  { split; [done|]. split; [done|]. split; [by left|]. discriminate. }
  split; [done|]. split; [done|]. split; [by right|].
  intros self [= <-]. split; [done|].
  unfold Os.exists_. f_equal. f_equal.
  destruct (String.eqb_spec jd ""); [done|]. simpl.
  apply orb_true_intro. left. unfold Os.is_dir. simpl.
  unfold Os.is_dir in Hdir. apply orb_false_elim in Hdir as [Hroot _].
  rewrite Hroot. simpl. apply bool_decide_eq_true.
  apply elem_of_union_r, elem_of_list_to_set, strip_slash_in_ancestors.
  by apply String.eqb_neq.
Qed.


(** A benchmark constructed with another directory name creates that
    directory, and then cannot write its job script. *)
Example create_job_needs_literal_jobs_dir :
  let w := mkWorld ∅ ∅ "" [] in
  let '(b, w1) := init "#!/bin/sh" "python3" "out" "config.json" w in
  elements (w_dirs w1) = ["out"] ∧
  (create_job bench0 (IdInt 1) "tpot" (Some "default") "log.json" w1).1
  = Raise (FileNotFoundError "jobs/tpot_1.sh").
Proof. vm_compute. split; reflexivity. Qed.

(** ** get_preprocessor and run_job *)

Lemma add_events_nil w : add_events [] w = w.
Proof. destruct w. unfold add_events. simpl. by rewrite app_nil_r. Qed.

Lemma add_events_add evs evs' w :
  add_events evs' (add_events evs w) = add_events (evs ++ evs') w.
Proof. unfold add_events. simpl. by rewrite app_assoc. Qed.

Lemma get_preprocessor_none env task_id w :
  get_preprocessor env task_id None w = (Ok None, w).
Proof. reflexivity. Qed.

(** With a name, the three fetches come first and the name is looked at
    afterwards. *)
Lemma get_preprocessor_some env task_id name w :
  get_preprocessor env task_id (Some name) w
  = (match (fetch_run env (w_trace w) task_id).1 with
     | None => Raise CollaboratorError
     | Some ind =>
         if String.eqb name "default" then Ok (Some (default_pipeline (removelast ind)))
         else Raise (unknown_preprocessor name)
     end,
     add_events (fetch_run env (w_trace w) task_id).2 w).
Proof.
  unfold get_preprocessor, fetch_run, mbind, M_bind, get_task, get_dataset, get_data, call.
  destruct (env_get_task env (w_trace w) task_id) as [tk|]; [|reflexivity].
  simpl. destruct (env_get_dataset env _ tk) as [ds|]; simpl.
  2: { unfold log_event, add_events. simpl. by rewrite <- app_assoc. }
  destruct (env_get_data env _ ds) as [ind|]; simpl.
  - destruct (String.eqb name "default");
      unfold log_event, add_events, mret, M_ret, raise; simpl; by rewrite <- !app_assoc.
  - unfold log_event, add_events. simpl. by rewrite <- !app_assoc.
Qed.

Lemma fetch_run_first env tr task_id :
  ∃ rest, (fetch_run env tr task_id).2 = EvGetTask task_id :: rest.
Proof.
  unfold fetch_run. destruct (env_get_task _ _ _); [|by eexists].
  destruct (env_get_dataset _ _ _); by eexists.
Qed.

Lemma fetch_run_service_calls env tr task_id :
  service_calls (fetch_run env tr task_id).2 = (fetch_run env tr task_id).2.
Proof.
  unfold fetch_run. destruct (env_get_task _ _ _); [|reflexivity].
  destruct (env_get_dataset _ _ _); reflexivity.
Qed.

Lemma fetch_run_answered env tr task_id ind :
  (fetch_run env tr task_id).1 = Some ind →
  ∃ tk ds, (fetch_run env tr task_id).2 = [EvGetTask task_id; EvGetDataset tk; EvGetData ds].
Proof.
  unfold fetch_run. destruct (env_get_task _ _ _) as [tk|]; [|discriminate].
  destruct (env_get_dataset _ _ _) as [ds|]; [|discriminate]. by exists tk, ds.
Qed.

(** The first step of [run_job]. *)
Lemma run_job_assigns apikey w :
  (if truthy apikey then assign_apikey (default "" apikey) else mret tt) w
  = (Ok tt, add_events (apikey_events apikey)
              (if truthy apikey then set_apikey (default "" apikey) w else w)).
Proof.
  unfold apikey_events. destruct (truthy apikey).
  - reflexivity.
  - by rewrite add_events_nil.
Qed.

(** [run_job] with a name that is neither ["tpot"] nor ["autosklearn"]. *)
Lemma run_job_other env clf_name task_id wc tc ac pre apikey w :
  clf_name ≠ "tpot" → clf_name ≠ "autosklearn" →
  let w0 := add_events (apikey_events apikey)
              (if truthy apikey then set_apikey (default "" apikey) w else w) in
  run_job env clf_name task_id wc tc ac pre apikey w
  = match pre with
    | None => (Raise (unknown_classifier clf_name), w0)
    | Some name =>
        (match (fetch_run env (w_trace w0) task_id).1 with
         | None => Raise CollaboratorError
         | Some ind =>
             if String.eqb name "default" then Raise (unknown_classifier clf_name)
             else Raise (unknown_preprocessor name)
         end,
         add_events (fetch_run env (w_trace w0) task_id).2 w0)
    end.
Proof.
  intros Ht Ha w0. unfold run_job.
  rewrite (bind_ok _ _ _ _ _ (run_job_assigns apikey w)). fold w0.
  apply String.eqb_neq in Ht, Ha. rewrite Ht, Ha.
  destruct pre as [name|].
  - unfold mbind at 1, M_bind at 1. rewrite get_preprocessor_some.
    destruct (fetch_run env (w_trace w0) task_id).1 as [ind|]; [|reflexivity].
    destruct (String.eqb name "default"); reflexivity.
  - reflexivity.
Qed.

Lemma steady_ret {A} (a : A) : steady (mret a).
Proof. intros w. split; [done|]. exists []. simpl. by rewrite app_nil_r. Qed.

Lemma steady_raise {A} e : steady (@raise A e).
Proof. intros w. split; [done|]. exists []. simpl. by rewrite app_nil_r. Qed.

Lemma steady_call {A} ev (answer : list event → option A) : steady (call ev answer).
Proof.
  intros w. unfold call. destruct (answer _); simpl; (split; [done|]); by exists [ev].
Qed.

Lemma steady_bind {A B} (m : M A) (k : A → M B) :
  steady m → (∀ a, steady (k a)) → steady (m ≫= k).
Proof.
  intros Hm Hk w. unfold mbind, M_bind.
  destruct (Hm w) as [Hkey [evs Htr]].
  destruct (m w) as [[a|e] w1]; simpl in *.
  - destruct (Hk a w1) as [Hkey' [evs' Htr']].
    split; [congruence|]. exists (evs ++ evs'). rewrite Htr', Htr. by rewrite app_assoc.
  - split; [done|]. by exists evs.
Qed.

Lemma steady_get_preprocessor env task_id name : steady (get_preprocessor env task_id name).
Proof.
  destruct name as [name|]; [|apply steady_ret].
  unfold get_preprocessor.
  apply steady_bind; [apply steady_call|intros tk].
  apply steady_bind; [apply steady_call|intros ds].
  apply steady_bind; [apply steady_call|intros ind].
  destruct (String.eqb name "default"); [apply steady_ret|apply steady_raise].
Qed.

Lemma steady_keyword_args a b : steady (keyword_args a b).
Proof.
  unfold keyword_args.
  destruct a; try apply steady_raise. destruct b; try apply steady_raise.
  destruct (bool_decide _); [apply steady_ret|apply steady_raise].
Qed.

Lemma steady_construct env clf : steady (construct env clf).
Proof.
  unfold construct. destruct (env_construct env clf); [apply steady_ret|apply steady_raise].
Qed.

(** C9: when [run_job] is given a (non-empty) API key, the first thing it
    does is to assign the key to the tracking client's global
    configuration: every call of the run, so every call to the tracking
    service, comes after the assignment, and the key is still the
    client's key when [run_job] ends, however it ends. *)
Theorem run_job_assigns_apikey_first env clf_name task_id wc tc ac pre key w :
  key ≠ "" →
  ∃ rest,
    w_trace (run_job env clf_name task_id wc tc ac pre (Some key) w).2
      = w_trace w ++ EvSetApikey key :: rest ∧
    w_apikey (run_job env clf_name task_id wc tc ac pre (Some key) w).2 = key.
Proof.
  intros Hkey. unfold run_job.
  assert (truthy (Some key) = true) as ->.
  { simpl. by apply negb_true_iff, String.eqb_neq. }
  simpl default.
  rewrite (bind_ok (assign_apikey key) _ w tt
             (log_event (EvSetApikey key) (set_apikey key w)) eq_refl).
  match goal with |- context [(?m ≫= ?k) ?w0] =>
    assert (Hs : steady (m ≫= k)); [|destruct (Hs w0) as [Hk [rest Htr]]] end.
  { apply steady_bind; [apply steady_get_preprocessor|intros p].
    apply steady_bind.
    { destruct (String.eqb clf_name "tpot").
      - apply steady_bind; [apply steady_keyword_args|intros kw; apply steady_construct].
      - destruct (String.eqb clf_name "autosklearn"); [|apply steady_raise].
        apply steady_bind; [apply steady_keyword_args|intros kw; apply steady_construct]. }
    intros clf.
    apply steady_bind; [apply steady_call|intros tk].
    apply steady_bind; [apply steady_call|intros rn].
    apply steady_bind; [apply steady_call|intros id]. apply steady_ret. }
  exists rest. split.
  - rewrite Htr. simpl. by rewrite <- app_assoc.
  - rewrite Hk. reflexivity.
Qed.

Lemma run_job_assigns_apikey_first_witness :
  "key" ≠ "" ∧
  ∃ rest,
    w_trace (run_job env_up "tpot" (IdInt 31) (JObj []) (JObj []) (JObj [])
               (Some "default") (Some "key") world0).2
      = w_trace world0 ++ EvSetApikey "key" :: rest ∧
    w_apikey (run_job env_up "tpot" (IdInt 31) (JObj []) (JObj []) (JObj [])
                (Some "default") (Some "key") world0).2 = "key".
Proof.
  split; [discriminate|].
  apply (run_job_assigns_apikey_first env_up "tpot" (IdInt 31) (JObj []) (JObj []) (JObj [])
           (Some "default") "key" world0).
  discriminate.
Defined.

Lemma service_calls_app evs evs' :
  service_calls (evs ++ evs') = service_calls evs ++ service_calls evs'.
Proof. unfold service_calls. apply List.filter_app. Qed.

Lemma service_calls_apikey_events apikey : service_calls (apikey_events apikey) = [].
Proof. unfold apikey_events. by destruct (truthy apikey). Qed.

Lemma trace_after_assignment apikey w :
  w_trace (add_events (apikey_events apikey)
             (if truthy apikey then set_apikey (default "" apikey) w else w))
  = w_trace w ++ apikey_events apikey.
Proof. by destruct (truthy apikey). Qed.

(** C1, as the spec states it, fails: with the default preprocessor the
    task, its dataset and the indicator are fetched from the tracking
    service before the classifier name is looked at. *)
Lemma run_job_unknown_classifier_counterexample :
  ¬ ((run_job env_up "other" (IdInt 31) (JObj []) (JObj []) (JObj [])
        (Some "default") None world0).1 = Raise (unknown_classifier "other")
     ∧ service_calls
         (w_trace (run_job env_up "other" (IdInt 31) (JObj []) (JObj []) (JObj [])
                     (Some "default") None world0).2) = []).
Proof. vm_compute. intros [_ H]. discriminate H. Qed.

(** C1 (amended): for a classifier name other than ["tpot"] and
    ["autosklearn"], [run_job] never returns normally.  Without a
    preprocessor it fails with the unknown-classifier error and makes no
    call to the tracking service.  With a preprocessor name, its calls to
    the tracking service are exactly the fetches of the task, its dataset
    and the categorical indicator, starting with the task; it then fails
    with the unknown-classifier error when the fetches are answered and
    the name is ["default"], with the unknown-preprocessor error when they
    are answered and the name is another one, and with the collaborator's
    error when a fetch fails. *)
Theorem run_job_unknown_classifier env clf_name task_id wc tc ac pre apikey w :
  clf_name ≠ "tpot" → clf_name ≠ "autosklearn" →
  ∃ evs,
    w_trace (run_job env clf_name task_id wc tc ac pre apikey w).2 = w_trace w ++ evs ∧
    (∀ r, (run_job env clf_name task_id wc tc ac pre apikey w).1 ≠ Ok r) ∧
    (pre = None →
       (run_job env clf_name task_id wc tc ac pre apikey w).1
         = Raise (unknown_classifier clf_name)
       ∧ service_calls evs = []) ∧
    (∀ name, pre = Some name →
       let fetched := fetch_run env (w_trace w ++ apikey_events apikey) task_id in
       service_calls evs = fetched.2 ∧
       (∃ rest, service_calls evs = EvGetTask task_id :: rest) ∧
       (run_job env clf_name task_id wc tc ac pre apikey w).1
         = match fetched.1 with
           | None => Raise CollaboratorError
           | Some _ =>
               if String.eqb name "default" then Raise (unknown_classifier clf_name)
               else Raise (unknown_preprocessor name)
           end).
Proof.
  intros Ht Ha. rewrite (run_job_other env _ _ _ _ _ _ _ _ Ht Ha).
  pose proof (trace_after_assignment apikey w) as Hw0.
  set (w0 := add_events (apikey_events apikey) _) in *. clearbody w0.
  destruct pre as [name|]; simpl; rewrite ?Hw0.
  - set (fetched := fetch_run env (w_trace w ++ apikey_events apikey) task_id).
    exists (apikey_events apikey ++ fetched.2).
    split; [by rewrite app_assoc|].
    split.
    { intros r. destruct fetched.1; [|discriminate].
      destruct (String.eqb name "default"); discriminate. }
    split; [discriminate|].
    intros name' [= <-].
    rewrite service_calls_app, service_calls_apikey_events. simpl.
    unfold fetched. rewrite fetch_run_service_calls.
    split; [done|]. split; [apply fetch_run_first|done].
  - exists (apikey_events apikey). split; [done|].
    split; [discriminate|].
    split; [|discriminate].
    intros _. split; [done|apply service_calls_apikey_events].
Qed.

Lemma run_job_unknown_classifier_witness :
  "other" ≠ "tpot" ∧ "other" ≠ "autosklearn" ∧
  ∃ evs,
    w_trace (run_job env_up "other" (IdInt 31) (JObj []) (JObj []) (JObj [])
               None None world0).2 = w_trace world0 ++ evs ∧
    (run_job env_up "other" (IdInt 31) (JObj []) (JObj []) (JObj [])
       None None world0).1 = Raise (unknown_classifier "other") ∧
    service_calls evs = [].
Proof.
  split; [discriminate|]. split; [discriminate|].
  destruct (run_job_unknown_classifier env_up "other" (IdInt 31) (JObj []) (JObj [])
              (JObj []) None None world0) as (evs & Htr & _ & Hnone & _);
    [discriminate|discriminate|].
  exists evs. split; [exact Htr|]. exact (Hnone eq_refl).
Defined.

(** C5, as the spec states it, fails: for an unknown name the task is
    fetched before the name is looked at, so when the tracking service
    does not know the task the call fails with the service's error. *)
Lemma get_preprocessor_unknown_counterexample :
  (get_preprocessor env_down (IdInt 31) (Some "bogus") world0).1
  ≠ Raise (unknown_preprocessor "bogus").
Proof. vm_compute. discriminate. Qed.

(** C5 (amended): [get_preprocessor task_id None] returns [None] and
    changes nothing.  For a name that is neither [None] nor ["default"],
    the task, its dataset and the categorical indicator are fetched first;
    the call fails with the unknown-preprocessor error when the fetches
    are answered, and with the collaborator's error otherwise. *)
Theorem get_preprocessor_none_or_unknown env task_id name w :
  name ≠ "default" →
  get_preprocessor env task_id None w = (Ok None, w) ∧
  (get_preprocessor env task_id (Some name) w).1
    = match (fetch_run env (w_trace w) task_id).1 with
      | Some _ => Raise (unknown_preprocessor name)
      | None => Raise CollaboratorError
      end ∧
  (get_preprocessor env task_id (Some name) w).2
    = add_events (fetch_run env (w_trace w) task_id).2 w ∧
  ∃ rest, (fetch_run env (w_trace w) task_id).2 = EvGetTask task_id :: rest.
Proof.
  intros Hname. split; [reflexivity|].
  rewrite get_preprocessor_some. simpl.
  apply String.eqb_neq in Hname. rewrite Hname.
  split; [|split; [done|apply fetch_run_first]].
  by destruct (fetch_run env (w_trace w) task_id).1.
Qed.

Lemma get_preprocessor_none_or_unknown_witness :
  "bogus" ≠ "default" ∧
  get_preprocessor env_up (IdInt 31) None world0 = (Ok None, world0) ∧
  (get_preprocessor env_up (IdInt 31) (Some "bogus") world0).1
    = Raise (unknown_preprocessor "bogus").
Proof.
  split; [discriminate|].
  destruct (get_preprocessor_none_or_unknown env_up (IdInt 31) "bogus" world0)
    as (Hnone & Hres & _); [discriminate|].
  split; [exact Hnone|]. rewrite Hres. reflexivity.
Defined.

(** C6: when the task's dataset reports a categorical indicator of length
    [k], [get_preprocessor task_id "default"] returns a pipeline of two
    stages, the imputer and the one-hot encoder, both built from the
    first [k-1] entries of the indicator: the last entry, the label's, is
    dropped, so the categorical-feature indicator has [k-1] entries (none
    when the indicator is empty). *)
Theorem get_preprocessor_default_drops_label env task_id w ind k :
  (fetch_run env (w_trace w) task_id).1 = Some ind →
  length ind = k →
  ∃ cats,
    (get_preprocessor env task_id (Some "default") w).1
      = Ok (Some [ConditionalImputer cats "mean" "most_frequent";
                  OneHotEncoder cats "ignore" false]) ∧
    cats = firstn (k - 1) ind ∧
    length cats = (k - 1)%nat ∧
    (ind ≠ [] → ∃ label, ind = cats ++ [label]).
Proof.
  intros Hfetch Hk. exists (removelast ind).
  rewrite get_preprocessor_some, Hfetch. simpl.
  split; [reflexivity|].
  rewrite removelast_firstn_len, Hk, Nat.sub_1_r.
  split; [done|]. split.
  - rewrite length_firstn. lia.
  - intros Hne. exists (List.last ind true).
    rewrite <- Nat.sub_1_r, <- Hk, Nat.sub_1_r, <- removelast_firstn_len.
    by apply app_removelast_last.
Qed.

Lemma get_preprocessor_default_drops_label_witness :
  (fetch_run env_up (w_trace world0) (IdInt 31)).1 = Some [true; false; true] ∧
  length [true; false; true] = 3%nat ∧
  ∃ cats,
    (get_preprocessor env_up (IdInt 31) (Some "default") world0).1
      = Ok (Some [ConditionalImputer cats "mean" "most_frequent";
                  OneHotEncoder cats "ignore" false]) ∧
    cats = [true; false].
Proof.
  split; [reflexivity|]. split; [reflexivity|].
  destruct (get_preprocessor_default_drops_label env_up (IdInt 31) world0
              [true; false; true] 3) as (cats & Hres & Hcats & _);
    [reflexivity|reflexivity|].
  exists cats. split; [exact Hres|]. rewrite Hcats. reflexivity.
Defined.

(** ** The command-line entry point *)

(** C8: when [--task-id] is absent (or empty), or else when the
    configuration file does not exist, [cli] raises a [ClickException]
    with the matching message before it has done anything: the world is
    unchanged, so nothing was asked of the tracking service and no file
    was written.  Run under click, the message is shown on standard error
    and the exit status is 1. *)
Theorem cli_rejects_missing_task_or_config
    env classifier task_id config preprocessor apikey log w :
  truthy task_id = false ∨ Os.is_file w config = false →
  let msg := if truthy task_id then "The configuration file does not exist."
             else "Please specify a task id." in
  cli env classifier task_id config preprocessor apikey log w
    = (Raise (ClickException msg), w) ∧
  main env classifier task_id config preprocessor apikey log w
    = (1, log_event (EvStderr ("Error: " +:+ msg)) w) ∧
  service_calls (w_trace (main env classifier task_id config preprocessor apikey log w).2)
    = service_calls (w_trace w) ∧
  w_files (main env classifier task_id config preprocessor apikey log w).2 = w_files w.
Proof.
  intros Hbad msg.
  assert (Hcli : cli env classifier task_id config preprocessor apikey log w
                 = (Raise (ClickException msg), w)).
  { unfold cli, msg. destruct (truthy task_id) eqn:Htask.
    - destruct Hbad as [?|Hfile]; [discriminate|].
      simpl negb. apply bind_raise.
      unfold mbind, M_bind, Os.isfile. by rewrite Hfile.
    - by apply bind_raise. }
  split; [exact Hcli|].
  unfold main. rewrite Hcli. simpl.
  split; [done|]. split; [|done].
  rewrite service_calls_app. simpl. by rewrite app_nil_r.
Qed.

Lemma cli_rejects_missing_task_or_config_witness :
  (truthy None = false ∨ Os.is_file world0 "config.json" = false) ∧
  cli env_up "tpot" None "config.json" "default" None "log.json" world0
    = (Raise (ClickException "Please specify a task id."), world0) ∧
  (main env_up "tpot" None "config.json" "default" None "log.json" world0).1 = 1.
Proof.
  split; [left; reflexivity|].
  destruct (cli_rejects_missing_task_or_config env_up "tpot" None "config.json"
              "default" None "log.json" world0) as (Hcli & Hmain & _);
    [left; reflexivity|].
  split; [exact Hcli|]. rewrite Hmain. reflexivity.
Defined.

(** ** json: strs *)

Lemma parse_escape_char c r :
  Json.parse_string (Json.escape_char c +:+ r) = Json.prepend c (Json.parse_string r).
Proof.
  destruct c as [[] [] [] [] [] [] [] []]; reflexivity.
Qed.

Lemma parse_escape s rest :
  Json.parse_string (Json.escape s +:+ String dquote rest) = Some (s, rest).
Proof.
  induction s as [|c s IH]; [reflexivity|].
  simpl Json.escape. rewrite app_assoc_s, parse_escape_char, IH. reflexivity.
Qed.

Lemma parse_encode_str s rest :
  ∃ r, Json.encode_str s +:+ rest = String dquote r
       ∧ Json.parse_string r = Some (s, rest).
Proof.
  exists (Json.escape s +:+ String dquote rest). split.
  - unfold Json.encode_str. rewrite app_cons_s, app_assoc_s. reflexivity.
  - apply parse_escape.
Qed.

(** ** json: ints *)

Lemma take_digits_uint d rest :
  ends_number rest = true →
  Json.take_digits (NilEmpty.string_of_uint d +:+ rest) = (d, rest).
Proof.
  intros Hrest. induction d; simpl NilEmpty.string_of_uint;
    rewrite ?app_cons_s; simpl; rewrite ?IHd; try reflexivity.
  rewrite app_nil_l_s. destruct rest as [|c r]; [reflexivity|].
  simpl in *. destruct (Json.digit_of c); [discriminate|reflexivity].
Qed.

Lemma to_uint_head p :
  ∃ c r, NilEmpty.string_of_uint (Pos.to_uint p) = String c r
         ∧ Ascii.eqb c "0" = false ∧ Ascii.eqb c "-" = false
         ∧ is_Some_bool (Json.digit_of c) = true.
Proof.
  assert (Hnorm : unorm (Pos.to_uint p) = Pos.to_uint p).
  { rewrite <- (DecimalPos.Unsigned.to_of (Pos.to_uint p)).
    by rewrite DecimalPos.Unsigned.of_to. }
  pose proof (DecimalPos.Unsigned.to_uint_nonzero p) as Hnz.
  pose proof (DecimalPos.Unsigned.to_uint_nonnil p) as Hnn.
  destruct (Pos.to_uint p) as [|d|d|d|d|d|d|d|d|d|d] eqn:E; try done;
    try (eexists _, _; split; [reflexivity|done]).
  exfalso. unfold unorm in Hnorm. simpl in Hnorm.
  pose proof (DecimalFacts.nzhead_nonzero d) as Hhead.
  destruct (nzhead d) eqn:Hd; try discriminate.
  - injection Hnorm as <-. by apply Hnz.
  - by apply (Hhead u).
Qed.

Lemma parse_digits_pos negative p rest :
  ends_number rest = true →
  Json.parse_digits negative (NilEmpty.string_of_uint (Pos.to_uint p) +:+ rest)
  = Some (JInt (if negative then Zneg p else Zpos p), rest).
Proof.
  intros Hrest.
  assert (Hfloat : Json.starts_float rest = false).
  { destruct rest as [|c r]; [reflexivity|]. simpl in Hrest.
    apply andb_prop in Hrest as [_ H]. by apply negb_true_iff in H. }
  pose proof (take_digits_uint (Pos.to_uint p) rest Hrest) as Htake.
  destruct (to_uint_head p) as (c & r & Hc & H0 & _).
  rewrite Hc in *. rewrite app_cons_s in *.
  unfold Json.parse_digits. rewrite H0, Htake. simpl fst. simpl snd.
  rewrite Hfloat.
  assert (Json.is_nil (Pos.to_uint p) = false) as ->.
  { pose proof (DecimalPos.Unsigned.to_uint_nonnil p). by destruct (Pos.to_uint p). }
  destruct negative.
  - by rewrite <- (DecimalZ.of_to (Zneg p)).
  - by rewrite <- (DecimalZ.of_to (Zpos p)).
Qed.

Lemma parse_number_int n rest :
  ends_number rest = true →
  Json.parse_number (str_of_Z n +:+ rest) = Some (JInt n, rest).
Proof.
  intros Hrest.
  assert (Hnil : ∀ p, NilZero.string_of_uint (Pos.to_uint p)
                      = NilEmpty.string_of_uint (Pos.to_uint p)).
  { intros p. pose proof (DecimalPos.Unsigned.to_uint_nonnil p).
    by destruct (Pos.to_uint p). }
  unfold str_of_Z. destruct n as [|p|p]; simpl Z.to_int; simpl NilZero.string_of_int.
  - rewrite app_cons_s, app_nil_l_s.
    assert (Hfloat : Json.starts_float rest = false).
    { destruct rest as [|c r]; [reflexivity|]. simpl in Hrest.
      apply andb_prop in Hrest as [_ H]. by apply negb_true_iff in H. }
    unfold Json.parse_number, Json.parse_digits. simpl Ascii.eqb. cbv iota.
    by rewrite Hfloat.
  - rewrite Hnil.
    pose proof (parse_digits_pos false p rest Hrest) as Hd.
    destruct (to_uint_head p) as (c & r & Hc & _ & Hm & _).
    rewrite Hc in *. rewrite app_cons_s in *.
    unfold Json.parse_number. by rewrite Hm.
  - rewrite Hnil, app_cons_s. unfold Json.parse_number. simpl Ascii.eqb. cbv iota.
    by apply (parse_digits_pos true).
Qed.

(** ** json: white space and the first character of a value *)

Lemma skip_ws_app w s : all_ws w = true → Json.skip_ws (w +:+ s) = Json.skip_ws s.
Proof.
  induction w as [|c w IH]; intros Hw; [reflexivity|].
  simpl in Hw. apply andb_prop in Hw as [Hc Hw].
  rewrite app_cons_s. simpl. rewrite Hc. by apply IH.
Qed.

Lemma skip_ws_start c r : Json.is_ws c = false → Json.skip_ws (String c r) = String c r.
Proof. intros Hc. simpl. by rewrite Hc. Qed.

Lemma all_ws_spaces n : all_ws (Json.spaces n) = true.
Proof. induction n as [|n IH]; [reflexivity|]. simpl. exact IH. Qed.

Lemma all_ws_newline_indent indent level : all_ws (Json.newline_indent indent level) = true.
Proof. destruct indent as [n|]; [|reflexivity]. simpl. apply all_ws_spaces. Qed.

Lemma item_separator_shape indent level :
  ∃ w, Json.item_separator indent level = String "," w ∧ all_ws w = true.
Proof.
  destruct indent as [n|].
  - exists (Json.newline_indent (Some n) level). split; [reflexivity|].
    apply all_ws_newline_indent.
  - by exists " ".
Qed.

Lemma value_start_facts c :
  value_start c = true →
  Json.is_ws c = false ∧ Ascii.eqb c "]" = false ∧ Ascii.eqb c "}" = false.
Proof.
  destruct c as [[] [] [] [] [] [] [] []]; intros H; try discriminate H; done.
Qed.

Lemma ends_number_ws w c r :
  all_ws w = true → ends_number (String c r) = true →
  ends_number (w +:+ String c r) = true.
Proof.
  intros Hw Hc. destruct w as [|x w]; [done|].
  simpl in Hw. apply andb_prop in Hw as [Hx _].
  rewrite app_cons_s. revert Hx.
  destruct x as [[] [] [] [] [] [] [] []]; intros Hx; try discriminate Hx; reflexivity.
Qed.

Lemma parse_value_number fuel c r :
  Ascii.eqb c "-" || is_Some_bool (Json.digit_of c) = true →
  Json.parse_value (S fuel) (String c r) = Json.parse_number (String c r).
Proof.
  destruct c as [[] [] [] [] [] [] [] []]; intros H; try discriminate H; reflexivity.
Qed.

Lemma number_head n :
  ∃ c r, str_of_Z n = String c r
         ∧ Ascii.eqb c "-" || is_Some_bool (Json.digit_of c) = true.
Proof.
  unfold str_of_Z. destruct n as [|p|p]; simpl.
  - by eexists _, _.
  - destruct (to_uint_head p) as (c & r & Hc & _ & _ & Hd).
    exists c, r. split.
    + rewrite <- Hc. by destruct (Pos.to_uint p).
    + rewrite Hd. apply orb_true_r.
  - by eexists _, _.
Qed.

Lemma encode_list_cons indent level x xs :
  Json.encode indent level (JList (x :: xs))
  = "[" +:+ Json.newline_indent indent (S level)
    +:+ String.concat (Json.item_separator indent (S level))
          (map (Json.encode indent (S level)) (x :: xs))
    +:+ Json.newline_indent indent level +:+ "]".
Proof. reflexivity. Qed.

Lemma encode_obj_cons indent level kv kvs :
  Json.encode indent level (JObj (kv :: kvs))
  = "{" +:+ Json.newline_indent indent (S level)
    +:+ String.concat (Json.item_separator indent (S level))
          (map (λ kv, Json.encode_str kv.1 +:+ Json.key_separator
                      +:+ Json.encode indent (S level) kv.2) (kv :: kvs))
    +:+ Json.newline_indent indent level +:+ "}".
Proof. reflexivity. Qed.

Lemma encode_head indent level v :
  ∃ c r, Json.encode indent level v = String c r ∧ value_start c = true.
Proof.
  destruct v as [|[]|n|s|[|x xs]|[|kv kvs]]; try (by eexists _, _).
  destruct (number_head n) as (c & r & Hc & Hn). exists c, r. split; [done|].
  unfold value_start. apply orb_prop in Hn as [->| ->]; by rewrite ?orb_true_r.
Qed.

Lemma concat_cons sep x y ys :
  String.concat sep (x :: y :: ys) = x +:+ sep +:+ String.concat sep (y :: ys).
Proof. reflexivity. Qed.

Lemma concat_head {A} sep (f : A → string) x xs :
  ∃ t, String.concat sep (map f (x :: xs)) = f x +:+ t.
Proof.
  destruct xs as [|y ys].
  - exists "". simpl. by rewrite app_nil_r_s.
  - eexists. simpl map. by rewrite concat_cons.
Qed.

(** ** json: induction over values *)

Lemma json_ind' (P : json → Prop) :
  P JNull → (∀ b, P (JBool b)) → (∀ n, P (JInt n)) → (∀ s, P (JStr s)) →
  (∀ xs, Forall P xs → P (JList xs)) →
  (∀ kvs, Forall (λ kv, P kv.2) kvs → P (JObj kvs)) →
  ∀ v, P v.
Proof.
  intros Hnull Hbool Hint Hstr Hlist Hobj.
  fix IH 1. intros [|b|n|s|xs|kvs].
  - exact Hnull.
  - apply Hbool.
  - apply Hint.
  - apply Hstr.
  - apply Hlist. induction xs as [|x xs IHxs]; constructor; [apply IH|exact IHxs].
  - apply Hobj. induction kvs as [|[k x] kvs IHkvs]; constructor; [apply IH|exact IHkvs].
Qed.

(** ** json: one step of the parser *)

Lemma parse_value_str fuel r :
  Json.parse_value (S fuel) (String dquote r)
  = match Json.parse_string r with
    | Some (str, rest) => Some (JStr str, rest)
    | None => None
    end.
Proof. reflexivity. Qed.

Lemma parse_value_list fuel c r w :
  all_ws w = true → value_start c = true →
  Json.parse_value (S fuel) (String "[" (w +:+ String c r))
  = match Json.parse_elements fuel (String c r) with
    | Some (vs, rest) => Some (JList vs, rest)
    | None => None
    end.
Proof.
  intros Hw Hc. destruct (value_start_facts c Hc) as (Hws & Hclose & _).
  change (Json.parse_value (S fuel) (String "[" (w +:+ String c r)))
    with (match Json.skip_ws (w +:+ String c r) with
          | EmptyString => None
          | String c' r' =>
              if Ascii.eqb c' "]" then Some (JList [], r')
              else match Json.parse_elements fuel (String c' r') with
                   | Some (vs, rest) => Some (JList vs, rest)
                   | None => None
                   end
          end).
  rewrite skip_ws_app, skip_ws_start by done. by rewrite Hclose.
Qed.

Lemma parse_value_obj fuel r w :
  all_ws w = true →
  Json.parse_value (S fuel) (String "{" (w +:+ String dquote r))
  = match Json.parse_members fuel (String dquote r) with
    | Some (kvs, rest) => Some (JObj (dict_of_pairs kvs), rest)
    | None => None
    end.
Proof.
  intros Hw.
  change (Json.parse_value (S fuel) (String "{" (w +:+ String dquote r)))
    with (match Json.skip_ws (w +:+ String dquote r) with
          | EmptyString => None
          | String c' r' =>
              if Ascii.eqb c' "}" then Some (JObj [], r')
              else match Json.parse_members fuel (String c' r') with
                   | Some (kvs, rest) => Some (JObj (dict_of_pairs kvs), rest)
                   | None => None
                   end
          end).
  by rewrite skip_ws_app, skip_ws_start.
Qed.

Lemma parse_elements_last fuel s v w rest :
  Json.parse_value fuel s = Some (v, w +:+ String "]" rest) → all_ws w = true →
  Json.parse_elements (S fuel) s = Some ([v], rest).
Proof.
  intros Hv Hw.
  change (Json.parse_elements (S fuel) s)
    with (match Json.parse_value fuel s with
          | None => None
          | Some (v, rest) =>
              match Json.skip_ws rest with
              | EmptyString => None
              | String c r =>
                  if Ascii.eqb c "," then
                    match Json.parse_elements fuel (Json.skip_ws r) with
                    | Some (vs, rest') => Some (v :: vs, rest')
                    | None => None
                    end
                  else if Ascii.eqb c "]" then Some ([v], r)
                  else None
              end
          end).
  rewrite Hv, skip_ws_app, skip_ws_start by done. reflexivity.
Qed.

Lemma parse_elements_more fuel s v w c r vs rest :
  Json.parse_value fuel s = Some (v, String "," (w +:+ String c r)) →
  all_ws w = true → value_start c = true →
  Json.parse_elements fuel (String c r) = Some (vs, rest) →
  Json.parse_elements (S fuel) s = Some (v :: vs, rest).
Proof.
  intros Hv Hw Hc Hvs. destruct (value_start_facts c Hc) as (Hws & _).
  change (Json.parse_elements (S fuel) s)
    with (match Json.parse_value fuel s with
          | None => None
          | Some (v, rest) =>
              match Json.skip_ws rest with
              | EmptyString => None
              | String c r =>
                  if Ascii.eqb c "," then
                    match Json.parse_elements fuel (Json.skip_ws r) with
                    | Some (vs, rest') => Some (v :: vs, rest')
                    | None => None
                    end
                  else if Ascii.eqb c "]" then Some ([v], r)
                  else None
              end
          end).
  rewrite Hv. rewrite skip_ws_start by reflexivity. simpl Ascii.eqb. cbv iota.
  rewrite skip_ws_app, skip_ws_start by done. by rewrite Hvs.
Qed.

Lemma parse_members_eq fuel r :
  Json.parse_members (S fuel) (String dquote r)
  = match Json.parse_string r with
    | None => None
    | Some (k, rest) =>
        match Json.skip_ws rest with
        | EmptyString => None
        | String c1 r1 =>
            if negb (Ascii.eqb c1 ":") then None
            else
              match Json.parse_value fuel (Json.skip_ws r1) with
              | None => None
              | Some (v, rest2) =>
                  match Json.skip_ws rest2 with
                  | EmptyString => None
                  | String c2 r2 =>
                      if Ascii.eqb c2 "," then
                        match Json.parse_members fuel (Json.skip_ws r2) with
                        | Some (kvs, rest3) => Some ((k, v) :: kvs, rest3)
                        | None => None
                        end
                      else if Ascii.eqb c2 "}" then Some ([(k, v)], r2)
                      else None
                  end
              end
        end
    end.
Proof. reflexivity. Qed.

(** A member, its key already read: the colon, the value, and what
    follows. *)
Lemma parse_members_last fuel r k v c s w rest :
  Json.parse_string r = Some (k, Json.key_separator +:+ String c s) →
  value_start c = true →
  Json.parse_value fuel (String c s) = Some (v, w +:+ String "}" rest) →
  all_ws w = true →
  Json.parse_members (S fuel) (String dquote r) = Some ([(k, v)], rest).
Proof.
  intros Hk Hc Hv Hw. destruct (value_start_facts c Hc) as (Hws & _).
  rewrite parse_members_eq, Hk.
  change (Json.key_separator +:+ String c s) with (String ":" (String " " (String c s))).
  rewrite skip_ws_start by reflexivity. simpl Ascii.eqb. simpl negb. cbv iota.
  change (String " " (String c s)) with (" " +:+ String c s).
  rewrite skip_ws_app, skip_ws_start by done.
  rewrite Hv, skip_ws_app, skip_ws_start by done. reflexivity.
Qed.

Lemma parse_members_more fuel r k v c s w r' kvs rest :
  Json.parse_string r = Some (k, Json.key_separator +:+ String c s) →
  value_start c = true →
  Json.parse_value fuel (String c s) = Some (v, String "," (w +:+ String dquote r')) →
  all_ws w = true →
  Json.parse_members fuel (String dquote r') = Some (kvs, rest) →
  Json.parse_members (S fuel) (String dquote r) = Some ((k, v) :: kvs, rest).
Proof.
  intros Hk Hc Hv Hw Hkvs. destruct (value_start_facts c Hc) as (Hws & _).
  rewrite parse_members_eq, Hk.
  change (Json.key_separator +:+ String c s) with (String ":" (String " " (String c s))).
  rewrite skip_ws_start by reflexivity. simpl Ascii.eqb. simpl negb. cbv iota.
  change (String " " (String c s)) with (" " +:+ String c s).
  rewrite skip_ws_app, skip_ws_start by done.
  rewrite Hv. rewrite skip_ws_start by reflexivity. simpl Ascii.eqb. cbv iota.
  rewrite skip_ws_app, skip_ws_start by done. by rewrite Hkvs.
Qed.

(** ** json: parsing what was encoded *)

Lemma starts_with_value indent level {A} (f : A → string) (g : A → json) sep x xs tail :
  (∀ a, ∃ t, f a = Json.encode indent level (g a) +:+ t) →
  ∃ c r, String.concat sep (map f (x :: xs)) +:+ tail = String c r ∧ value_start c = true.
Proof.
  intros Hf. destruct (concat_head sep f x xs) as [t ->].
  destruct (Hf x) as [t' ->].
  destruct (encode_head indent level (g x)) as (c & r & -> & Hc).
  exists c. eexists. split; [|exact Hc]. rewrite !app_cons_s. reflexivity.
Qed.

Lemma parse_elements_encode indent level level' xs :
  Forall (round_trips indent) xs →
  ∀ x fuel rest,
    round_trips indent x → wf x = true → forallb wf xs = true →
    (list_sum (map (λ x, S (size x)) (x :: xs)) ≤ fuel)%nat →
    Json.parse_elements fuel
      (String.concat (Json.item_separator indent level)
         (map (Json.encode indent level) (x :: xs))
       +:+ Json.newline_indent indent level' +:+ String "]" rest)
    = Some (x :: xs, rest).
Proof.
  induction 1 as [|y ys Hy Hys IH]; intros x fuel rest Hx Hwx Hwxs Hfuel.
  - destruct fuel as [|fuel]; [simpl in Hfuel; lia|].
    simpl String.concat.
    eapply parse_elements_last; [|apply all_ws_newline_indent].
    apply Hx; [done|simpl in Hfuel; lia|].
    by apply ends_number_ws; [apply all_ws_newline_indent|].
  - destruct fuel as [|fuel]; [simpl in Hfuel; lia|].
    simpl in Hwxs. apply andb_prop in Hwxs as [Hwy Hwys].
    simpl map. rewrite concat_cons. rewrite !app_assoc_s.
    destruct (item_separator_shape indent level) as (w & Hsep & Hw).
    rewrite Hsep at 1. rewrite app_cons_s.
    specialize (IH y fuel rest Hy Hwy Hwys).
    simpl map in IH.
    destruct (starts_with_value indent level (Json.encode indent level) id
                (Json.item_separator indent level) y ys
                (Json.newline_indent indent level' +:+ String "]" rest))
      as (c & r & Hcr & Hc).
    { intros a. exists "". by rewrite app_nil_r_s. }
    simpl map in Hcr. rewrite Hcr in *.
    eapply parse_elements_more; [|exact Hw|exact Hc|].
    + apply Hx; [done|simpl in Hfuel; lia|reflexivity].
    + apply IH. simpl in Hfuel |- *. lia.
Qed.

Lemma parse_members_encode indent level level' kvs :
  Forall (λ kv, round_trips indent kv.2) kvs →
  ∀ kv fuel rest,
    round_trips indent kv.2 → wf kv.2 = true → forallb (λ kv, wf kv.2) kvs = true →
    (list_sum (map (λ kv, S (size kv.2)) (kv :: kvs)) ≤ fuel)%nat →
    Json.parse_members fuel
      (String.concat (Json.item_separator indent level)
         (map (λ kv, Json.encode_str kv.1 +:+ Json.key_separator
                     +:+ Json.encode indent level kv.2) (kv :: kvs))
       +:+ Json.newline_indent indent level' +:+ String "}" rest)
    = Some (kv :: kvs, rest).
Proof.
  induction 1 as [|y ys Hy Hys IH]; intros [k x] fuel rest Hx Hwx Hwxs Hfuel;
    simpl in Hx, Hwx.
  - destruct fuel as [|fuel]; [simpl in Hfuel; lia|].
    simpl String.concat. simpl fst. simpl snd. rewrite !app_assoc_s.
    destruct (parse_encode_str k (Json.key_separator +:+ Json.encode indent level x
                +:+ Json.newline_indent indent level' +:+ String "}" rest))
      as (r & -> & Hk).
    destruct (encode_head indent level x) as (c & s & Hcs & Hc).
    rewrite Hcs, app_cons_s in Hk.
    eapply parse_members_last; [exact Hk|exact Hc| |apply all_ws_newline_indent].
    rewrite <- app_cons_s, <- Hcs.
    apply Hx; [done|simpl in Hfuel; lia|].
    by apply ends_number_ws; [apply all_ws_newline_indent|].
  - destruct fuel as [|fuel]; [simpl in Hfuel; lia|].
    simpl in Hwxs. apply andb_prop in Hwxs as [Hwy Hwys].
    simpl map. rewrite concat_cons. simpl fst. simpl snd. rewrite !app_assoc_s.
    destruct (item_separator_shape indent level) as (w & Hsep & Hw).
    rewrite Hsep at 1. rewrite app_cons_s.
    specialize (IH y fuel rest Hy Hwy Hwys).
    simpl map in IH.
    set (tail := String.concat _ _ +:+ _) in *.
    assert (Htail : ∃ r', tail = String dquote r') by (unfold tail; destruct ys; by eexists).
    destruct Htail as [r' Htail]. rewrite Htail in *.
    destruct (parse_encode_str k (Json.key_separator +:+ Json.encode indent level x
                +:+ String "," (w +:+ String dquote r')))
      as (r & -> & Hk).
    destruct (encode_head indent level x) as (c & s & Hcs & Hc).
    rewrite Hcs, app_cons_s in Hk.
    eapply parse_members_more; [exact Hk|exact Hc| |exact Hw|].
    + rewrite <- app_cons_s, <- Hcs.
      apply Hx; [done|simpl in Hfuel; lia|reflexivity].
    + apply IH. simpl in Hfuel |- *. lia.
Qed.

Lemma dict_set_fresh {K V} `{EqDecision K} (k : K) (v : V) d :
  k ∉ map fst d → dict_set k v d = d ++ [(k, v)].
Proof.
  induction d as [|[k' v'] d IH]; intros Hk; [reflexivity|].
  simpl in *. apply not_elem_of_cons in Hk as [Hne Hk].
  destruct (decide (k = k')); [done|]. by rewrite IH.
Qed.

Lemma dict_of_pairs_app {K V} `{EqDecision K} (acc pairs : list (K * V)) :
  NoDup (map fst (acc ++ pairs)) →
  foldl (λ d kv, dict_set kv.1 kv.2 d) acc pairs = acc ++ pairs.
Proof.
  revert acc. induction pairs as [|[k v] pairs IH]; intros acc Hnd.
  - by rewrite app_nil_r.
  - simpl. rewrite dict_set_fresh.
    + rewrite IH; rewrite <- app_assoc; done.
    + rewrite map_app in Hnd. apply NoDup_app in Hnd as (_ & Hdisj & _).
      intros Hin. apply (Hdisj k Hin). left.
Qed.

Lemma dict_of_pairs_nodup {K V} `{EqDecision K} (pairs : list (K * V)) :
  NoDup (map fst pairs) → dict_of_pairs pairs = pairs.
Proof. intros Hnd. unfold dict_of_pairs. by rewrite dict_of_pairs_app. Qed.

(** Whatever the indentation, the parser reads back what the encoder wrote. *)
Lemma parse_encode indent v : round_trips indent v.
Proof.
  induction v as [|b|n|s|xs IH|kvs IH] using json_ind';
    intros level fuel rest Hwf Hfuel Hrest;
    (destruct fuel as [|fuel]; [simpl in Hfuel; lia|]).
  - reflexivity.
  - by destruct b.
  - simpl Json.encode. destruct (number_head n) as (c & r & Hc & Hn).
    pose proof (parse_number_int n rest Hrest) as Hnum.
    rewrite Hc in *. rewrite app_cons_s in *. by rewrite parse_value_number.
  - simpl Json.encode. destruct (parse_encode_str s rest) as (r & -> & Hs).
    by rewrite parse_value_str, Hs.
  - destruct xs as [|x xs]; [reflexivity|].
    rewrite encode_list_cons. rewrite !app_assoc_s, app_cons_s, app_nil_l_s.
    apply Forall_cons in IH as [Hx Hxs].
    simpl in Hwf. apply andb_prop in Hwf as [Hwx Hwxs].
    pose proof (parse_elements_encode indent (S level) level xs Hxs x fuel rest
                  Hx Hwx Hwxs) as Hparse.
    destruct (starts_with_value indent (S level) (Json.encode indent (S level)) id
                (Json.item_separator indent (S level)) x xs
                (Json.newline_indent indent level +:+ String "]" rest))
      as (c & r & Hcr & Hc).
    { intros a. exists "". by rewrite app_nil_r_s. }
    change ("]" +:+ rest) with (String "]" rest).
    rewrite Hcr in *.
    rewrite parse_value_list by (apply all_ws_newline_indent || done).
    rewrite Hparse; [reflexivity|]. simpl in Hfuel |- *. lia.
  - destruct kvs as [|kv kvs]; [reflexivity|].
    rewrite encode_obj_cons. rewrite !app_assoc_s, app_cons_s, app_nil_l_s.
    apply Forall_cons in IH as [Hx Hxs].
    simpl in Hwf. apply andb_prop in Hwf as [Hnd Hwf].
    apply andb_prop in Hwf as [Hwx Hwxs]. apply bool_decide_eq_true in Hnd.
    pose proof (parse_members_encode indent (S level) level kvs Hxs kv fuel rest
                  Hx Hwx Hwxs) as Hparse.
    change ("}" +:+ rest) with (String "}" rest).
    set (body := String.concat _ _ +:+ _) in *.
    assert (Hbody : ∃ r, body = String dquote r).
    { unfold body. destruct kvs; by eexists. }
    destruct Hbody as [r Hbody]. rewrite Hbody in *.
    rewrite parse_value_obj by apply all_ws_newline_indent.
    rewrite Hparse; [|simpl in Hfuel |- *; lia].
    by rewrite dict_of_pairs_nodup.
Qed.

(** ** json: the text is long enough to serve as fuel *)

Lemma length_concat_ge {A} sep (f : A → string) (g : A → nat) x xs :
  Forall (λ a, (g a ≤ String.length (f a))%nat) (x :: xs) →
  (1 ≤ String.length sep)%nat →
  (list_sum (map (λ a, S (g a)) (x :: xs))
   ≤ S (String.length (String.concat sep (map f (x :: xs)))))%nat.
Proof.
  intros Hall Hsep. revert x Hall. induction xs as [|y ys IH]; intros x Hall.
  - apply Forall_cons in Hall as [Hx _]. simpl. lia.
  - apply Forall_cons in Hall as [Hx Hall]. specialize (IH y Hall).
    simpl map in *. rewrite concat_cons, !length_app_s.
    simpl list_sum in *. lia.
Qed.

Lemma length_item_separator indent level :
  (1 ≤ String.length (Json.item_separator indent level))%nat.
Proof.
  destruct (item_separator_shape indent level) as (w & -> & _). simpl. lia.
Qed.

Lemma size_le_length indent v :
  ∀ level, (size v ≤ String.length (Json.encode indent level v))%nat.
Proof.
  induction v as [|b|n|s|xs IH|kvs IH] using json_ind'; intros level.
  - simpl. lia.
  - destruct b; simpl; lia.
  - simpl. destruct (number_head n) as (c & r & -> & _). simpl. lia.
  - simpl. lia.
  - destruct xs as [|x xs]; [simpl; lia|].
    rewrite encode_list_cons, !length_app_s.
    pose proof (length_concat_ge (Json.item_separator indent (S level))
                  (Json.encode indent (S level)) size x xs) as Hlen.
    simpl size. simpl String.length at 1.
    assert (String.length "]" = 1%nat) as -> by reflexivity.
    cut (list_sum (map (λ a, S (size a)) (x :: xs))
         ≤ S (String.length (String.concat (Json.item_separator indent (S level))
                               (map (Json.encode indent (S level)) (x :: xs)))))%nat;
      [simpl; lia|].
    apply Hlen; [|apply length_item_separator].
    eapply Forall_impl; [exact IH|]. intros a Ha. apply Ha.
  - destruct kvs as [|kv kvs]; [simpl; lia|].
    rewrite encode_obj_cons, !length_app_s.
    pose proof (length_concat_ge (Json.item_separator indent (S level))
                  (λ kv, Json.encode_str kv.1 +:+ Json.key_separator
                         +:+ Json.encode indent (S level) kv.2)
                  (λ kv, size kv.2) kv kvs) as Hlen.
    simpl size. simpl String.length at 1.
    assert (String.length "}" = 1%nat) as -> by reflexivity.
    cut (list_sum (map (λ a, S (size a.2)) (kv :: kvs))
         ≤ S (String.length
                (String.concat (Json.item_separator indent (S level))
                   (map (λ kv, Json.encode_str kv.1 +:+ Json.key_separator
                               +:+ Json.encode indent (S level) kv.2) (kv :: kvs)))))%nat;
      [simpl; lia|].
    apply Hlen; [|apply length_item_separator].
    eapply Forall_impl; [exact IH|]. intros a Ha. simpl.
    rewrite !length_app_s. specialize (Ha (S level)). lia.
Qed.

(** [json.loads] reads back what the encoder wrote. *)
Lemma loads_encode indent v : wf v = true → Json.loads (Json.encode indent 0 v) = Some v.
Proof.
  intros Hwf. unfold Json.loads.
  destruct (encode_head indent 0 v) as (c & r & Hcr & Hc).
  destruct (value_start_facts c Hc) as (Hws & _).
  pose proof (parse_encode indent v 0%nat
                (S (String.length (Json.encode indent 0 v))) "" Hwf) as Hparse.
  rewrite app_nil_r_s in Hparse.
  rewrite Hcr in *. rewrite skip_ws_start by done.
  rewrite Hparse; [reflexivity| |reflexivity].
  pose proof (size_le_length indent v 0). rewrite Hcr in *. lia.
Qed.

(** ** json: sort_keys *)

Global Instance key_le_total : Total Json.key_le.
Proof. intros a b. unfold Json.key_le. apply (total String.le). Qed.

Lemma sorted_items_perm (kvs : list (string * json)) :
  merge_sort Json.key_le kvs ≡ₚ kvs.
Proof. apply merge_sort_Permutation. Qed.

Lemma wf_sort_keys v : wf v = true → wf (Json.sort_keys v) = true.
Proof.
  induction v as [|b|n|s|xs IH|kvs IH] using json_ind'; intros Hwf; try done.
  - simpl in *. rewrite forallb_forall in *. rewrite Forall_forall in IH.
    intros y Hy. apply in_map_iff in Hy as (x & <- & Hx).
    apply IH; [by apply list_elem_of_In|by apply Hwf].
  - simpl in *. apply andb_prop in Hwf as [Hnd Hwf].
    apply bool_decide_eq_true in Hnd.
    apply andb_true_intro. split.
    + apply bool_decide_eq_true. rewrite sorted_items_perm.
      rewrite map_map. simpl. exact Hnd.
    + rewrite forallb_forall in *. rewrite Forall_forall in IH.
      intros y Hy. apply list_elem_of_In in Hy. rewrite sorted_items_perm in Hy.
      apply list_elem_of_In, in_map_iff in Hy as (x & <- & Hx). simpl.
      apply IH; [by apply list_elem_of_In|by apply Hwf].
Qed.

Lemma json_eq_sort_keys v : json_eq v (Json.sort_keys v).
Proof.
  induction v as [|b|n|s|xs IH|kvs IH] using json_ind'; try constructor.
  - induction IH; constructor; auto.
  - simpl. apply json_eq_obj with (kvs' := map (λ kv, (kv.1, Json.sort_keys kv.2)) kvs).
    + induction IH; constructor; auto.
    + symmetry. apply sorted_items_perm.
Qed.

Lemma sorted_strings_keys (kvs : list (string * json)) :
  Sorted Json.key_le kvs → sorted_strings (map fst kvs) = true.
Proof.
  induction 1 as [|a l Hl IH Hhd]; [reflexivity|].
  simpl. rewrite IH, andb_true_r.
  destruct Hhd as [|b l' Hab]; [reflexivity|].
  simpl. unfold Json.key_le, String.le in Hab. by apply Is_true_true.
Qed.

Lemma keys_sorted_sort_keys v : keys_sorted (Json.sort_keys v) = true.
Proof.
  induction v as [|b|n|s|xs IH|kvs IH] using json_ind'; try done.
  - simpl. rewrite forallb_forall. rewrite Forall_forall in IH.
    intros y Hy. apply in_map_iff in Hy as (x & <- & Hx).
    by apply IH, list_elem_of_In.
  - simpl. apply andb_true_intro. split.
    + apply sorted_strings_keys, Sorted_merge_sort. apply _.
    + rewrite forallb_forall. rewrite Forall_forall in IH.
      intros y Hy. apply list_elem_of_In in Hy. rewrite sorted_items_perm in Hy.
      apply list_elem_of_In, in_map_iff in Hy as (x & <- & Hx). simpl.
      by apply IH, list_elem_of_In.
Qed.

(** [json.loads(json.dumps(v, indent, sort_keys))] *)
Lemma loads_dumps indent sort v :
  wf v = true →
  Json.loads (Json.dumps indent sort v) = Some (if sort then Json.sort_keys v else v).
Proof.
  intros Hwf. unfold Json.dumps. apply loads_encode.
  destruct sort; [by apply wf_sort_keys|done].
Qed.

(** ** The configuration file *)

Lemma sort_keys_config tpot autosklearn wrapper :
  Json.sort_keys (JObj [("tpot", tpot); ("autosklearn", autosklearn); ("wrapper", wrapper)])
  = JObj [("autosklearn", Json.sort_keys autosklearn); ("tpot", Json.sort_keys tpot);
          ("wrapper", Json.sort_keys wrapper)].
Proof. reflexivity. Qed.

Lemma dumps_config tpot autosklearn wrapper :
  Json.dumps (Some 4%nat) true
    (JObj [("tpot", tpot); ("autosklearn", autosklearn); ("wrapper", wrapper)])
  = config_text (Json.sort_keys autosklearn) (Json.sort_keys tpot) (Json.sort_keys wrapper).
Proof.
  unfold Json.dumps. rewrite sort_keys_config, encode_obj_cons.
  simpl map. rewrite !concat_cons. simpl String.concat.
  unfold config_text. rewrite !app_assoc_s. reflexivity.
Qed.

Lemma write_opened p text w :
  Os.write p text (log_event (EvOpenWrite p) (set_files (insert p "") w))
  = (Ok tt, log_event (EvOpenWrite p) (set_files (insert p text) w)).
Proof.
  destruct w as [d fs k tr]. unfold log_event, set_files. simpl.
  by rewrite write_inserted, app_nil_l_s.
Qed.

Lemma json_load_written p v text w :
  w_files w !! p = Some text → Json.loads text = Some v →
  json_load p w = (Ok v, w).
Proof.
  intros Hfile Hloads. unfold json_load, mbind, M_bind, Os.read.
  by rewrite Hfile, Hloads.
Qed.

(** C4: [create_config_file] writes one JSON object, its keys sorted at
    every level and each item on a line of its own behind four spaces per
    level, and returns the path it was given.  Reading the file back
    yields an object with exactly the keys [autosklearn], [tpot] and
    [wrapper], whose values are equal to the mappings passed in. *)
Theorem create_config_file_round_trip file_name tpot autosklearn wrapper w :
  Os.can_open_w w file_name = true →
  wf tpot = true → wf autosklearn = true → wf wrapper = true →
  ∃ w' a t wr,
    create_config_file file_name tpot autosklearn wrapper w = (Ok file_name, w') ∧
    w_files w' !! file_name = Some (config_text a t wr) ∧
    keys_sorted (JObj [("autosklearn", a); ("tpot", t); ("wrapper", wr)]) = true ∧
    json_load file_name w'
      = (Ok (JObj [("autosklearn", a); ("tpot", t); ("wrapper", wr)]), w') ∧
    json_eq autosklearn a ∧ json_eq tpot t ∧ json_eq wrapper wr.
Proof.
  intros Hopen Ht Ha Hw.
  set (obj := JObj [("tpot", tpot); ("autosklearn", autosklearn); ("wrapper", wrapper)]).
  assert (Hwf : wf obj = true).
  { simpl. by rewrite Ht, Ha, Hw. }
  exists (log_event (EvOpenWrite file_name)
            (set_files (insert file_name (Json.dumps (Some 4%nat) true obj)) w)),
    (Json.sort_keys autosklearn), (Json.sort_keys tpot), (Json.sort_keys wrapper).
  split.
  { unfold create_config_file.
    rewrite (bind_ok _ _ _ _ _ (open_w_ok _ _ Hopen)).
    by rewrite (bind_ok _ _ _ _ _ (write_opened _ _ _)). }
  split.
  { simpl. rewrite lookup_insert_eq. f_equal. apply dumps_config. }
  split.
  { rewrite <- sort_keys_config. apply keys_sorted_sort_keys. }
  split.
  { apply json_load_written with (text := Json.dumps (Some 4%nat) true obj).
    - simpl. apply lookup_insert_eq.
    - rewrite <- sort_keys_config. by apply (loads_dumps _ true). }
  repeat split; apply json_eq_sort_keys.
Qed.

Lemma create_config_file_round_trip_witness :
  Os.can_open_w world0 "config.json" = true ∧
  wf tpot_options = true ∧ wf autosklearn_options = true ∧ wf wrapper_options = true ∧
  ∃ w' a t wr,
    create_config_file "config.json" tpot_options autosklearn_options wrapper_options world0
      = (Ok "config.json", w') ∧
    json_load "config.json" w'
      = (Ok (JObj [("autosklearn", a); ("tpot", t); ("wrapper", wr)]), w') ∧
    json_eq autosklearn_options a ∧ json_eq tpot_options t ∧ json_eq wrapper_options wr.
Proof.
  split; [vm_compute; reflexivity|].
  split; [vm_compute; reflexivity|].
  split; [vm_compute; reflexivity|].
  split; [vm_compute; reflexivity|].
  destruct (create_config_file_round_trip "config.json" tpot_options autosklearn_options
              wrapper_options world0)
    as (w' & a & t & wr & Hrun & _ & _ & Hload & Heq);
    [vm_compute; reflexivity..|].
  exists w', a, t, wr. split; [exact Hrun|]. split; [exact Hload|exact Heq].
Defined.

(** ** The log file *)

Lemma store_output_ok log id output data w :
  Os.can_open_w w log = true →
  (if Os.is_file w log then json_load log w = (Ok (JObj data), w) else data = []) →
  store_output log id output w
  = (Ok tt,
     log_event (EvOpenWrite log)
       (set_files
          (insert log (Json.dumps_dict
                         (dict_set (KInt id) (JStr output)
                            (map (λ kv, (KStr kv.1, kv.2)) data)))) w)).
Proof.
  intros Hopen Hdata. unfold store_output.
  unfold mbind at 1, M_bind at 1, Os.isfile at 1.
  destruct (Os.is_file w log).
  - rewrite (bind_ok _ _ _ _ _ Hdata). unfold update.
    unfold mbind at 1, M_bind at 1, mret at 1, M_ret at 1.
    rewrite (bind_ok _ _ _ _ _ (open_w_ok _ _ Hopen)).
    by rewrite (bind_ok _ _ _ _ _ (write_opened _ _ _)).
  - subst data. unfold mbind at 1, M_bind at 1, mret at 1, M_ret at 1. unfold update.
    unfold mbind at 1, M_bind at 1, mret at 1, M_ret at 1.
    rewrite (bind_ok _ _ _ _ _ (open_w_ok _ _ Hopen)).
    by rewrite (bind_ok _ _ _ _ _ (write_opened _ _ _)).
Qed.

Lemma is_file_lookup w p : Os.is_file w p = bool_decide (is_Some (w_files w !! p)).
Proof. reflexivity. Qed.

(** C3: when the log file holds the object [{"1": urlA}], storing the
    record [(2, urlB)] leaves it holding [{"1": urlA, "2": urlB}]; when
    there is no log file, the file is created and holds exactly the new
    record, [{"2": urlB}]. *)
Theorem store_output_merges_record log urlA urlB w :
  Os.can_open_w w log = true →
  (∀ text,
     w_files w !! log = Some text →
     Json.loads text = Some (JObj [("1", JStr urlA)]) →
     ∃ w',
       store_output log 2 urlB w = (Ok tt, w') ∧
       w_files w' !! log
         = Some ("{" +:+ Json.encode_str "1" +:+ ": " +:+ Json.encode_str urlA +:+ ", "
                 +:+ Json.encode_str "2" +:+ ": " +:+ Json.encode_str urlB +:+ "}") ∧
       json_load log w' = (Ok (JObj [("1", JStr urlA); ("2", JStr urlB)]), w')) ∧
  (w_files w !! log = None →
     ∃ w',
       store_output log 2 urlB w = (Ok tt, w') ∧
       w_files w' !! log
         = Some ("{" +:+ Json.encode_str "2" +:+ ": " +:+ Json.encode_str urlB +:+ "}") ∧
       json_load log w' = (Ok (JObj [("2", JStr urlB)]), w')).
Proof.
  intros Hopen. split.
  - intros text Hfile Hloads.
    eexists. split.
    { apply (store_output_ok log 2 urlB [("1", JStr urlA)] w Hopen).
      rewrite is_file_lookup, Hfile. simpl.
      by apply json_load_written with (text := text). }
    split.
    { simpl. rewrite lookup_insert_eq.
      f_equal; unfold Json.dumps_dict, Json.dumps; simpl; by rewrite ?app_assoc_s. }
    eapply json_load_written; [simpl; apply lookup_insert_eq|].
    unfold Json.dumps_dict. simpl map.
    by apply (loads_dumps None false (JObj [("1", JStr urlA); ("2", JStr urlB)])).
  - intros Hfile.
    eexists. split.
    { apply (store_output_ok log 2 urlB [] w Hopen).
      by rewrite is_file_lookup, Hfile. }
    split.
    { simpl. rewrite lookup_insert_eq.
      f_equal; unfold Json.dumps_dict, Json.dumps; simpl; by rewrite ?app_assoc_s. }
    eapply json_load_written; [simpl; apply lookup_insert_eq|].
    unfold Json.dumps_dict. simpl map.
    by apply (loads_dumps None false (JObj [("2", JStr urlB)])).
Qed.

Lemma store_output_merges_record_witness :
  Os.can_open_w world_with_log "log.json" = true ∧
  w_files world_with_log !! "log.json" = Some log_text ∧
  Json.loads log_text = Some (JObj [("1", JStr "urlA")]) ∧
  ∃ w',
    store_output "log.json" 2 "urlB" world_with_log = (Ok tt, w') ∧
    w_files w' !! "log.json"
      = Some ("{" +:+ quoted "1" +:+ ": " +:+ quoted "urlA" +:+ ", "
              +:+ quoted "2" +:+ ": " +:+ quoted "urlB" +:+ "}").
Proof.
  split; [vm_compute; reflexivity|].
  split; [vm_compute; reflexivity|].
  split; [vm_compute; reflexivity|].
  destruct (store_output_merges_record "log.json" "urlA" "urlB" world_with_log)
    as [Hmerge _]; [vm_compute; reflexivity|].
  destruct (Hmerge log_text) as (w' & Hrun & Hfile & _);
    [vm_compute; reflexivity..|].
  exists w'. split; [exact Hrun|]. rewrite Hfile. vm_compute. reflexivity.
Defined.

(** Where [cli] stores a record: once the task id and the configuration
    file are accepted, the configuration has its three keys and [run_job]
    has returned, what is left of [cli] is [store_output]. *)
Lemma cli_stores_record env classifier task_id config preprocessor apikey log w
    text kvs tpot autosklearn wrapper id output w' :
  task_id ≠ "" →
  w_files w !! config = Some text →
  Json.loads text = Some (JObj kvs) →
  dict_get "tpot" kvs = Some tpot →
  dict_get "autosklearn" kvs = Some autosklearn →
  dict_get "wrapper" kvs = Some wrapper →
  run_job env classifier (IdStr task_id) wrapper tpot autosklearn (Some preprocessor) apikey
    (log_event (EvPrint ("Running " +:+ classifier +:+ " on task " +:+ task_id +:+ ".")) w)
    = (Ok (id, output), w') →
  cli env classifier (Some task_id) config preprocessor apikey log w
  = store_output log id output w'.
Proof.
  intros Htask Hfile Hloads Ht Ha Hw Hrun. unfold cli.
  assert (truthy (Some task_id) = true) as ->.
  { simpl. by apply negb_true_iff, String.eqb_neq. }
  simpl negb. cbv iota.
  erewrite bind_ok; cycle 1.
  { unfold mbind, M_bind, Os.isfile, Os.is_file. rewrite Hfile. simpl.
    reflexivity. }
  rewrite (bind_ok _ _ _ _ _ (json_load_written _ _ _ _ Hfile Hloads)).
  unfold getitem. rewrite Ht, Ha, Hw.
  unfold mbind at 1, M_bind at 1, mret at 1, M_ret at 1.
  unfold mbind at 1, M_bind at 1, mret at 1, M_ret at 1.
  unfold mbind at 1, M_bind at 1, mret at 1, M_ret at 1.
  unfold mbind at 1, M_bind at 1, print at 1, modify at 1.
  simpl format_opt.
  by rewrite (bind_ok _ _ _ _ _ Hrun).
Qed.

(** ** When a job file can be opened *)

Lemma dirname_no_slash r : has_char "/" r = false → Path.dirname r = None.
Proof.
  induction r as [|c r IH]; [reflexivity|]. simpl. intros H.
  apply orb_false_elim in H as [Hc Hr]. by rewrite IH, Hc.
Qed.

Lemma dirname_app d r :
  has_char "/" r = false → Path.dirname (d +:+ String "/" r) = Some d.
Proof.
  intros Hr. induction d as [|c d IH].
  - rewrite app_nil_l_s. simpl. by rewrite dirname_no_slash.
  - rewrite app_cons_s. simpl. by rewrite IH.
Qed.

Lemma ends_with_slash_app s c t :
  Path.ends_with_slash (s +:+ String c t) = Path.ends_with_slash (String c t).
Proof.
  induction s as [|x s IH]; [reflexivity|].
  rewrite app_cons_s. simpl Path.ends_with_slash at 1. rewrite IH.
  destruct (s +:+ String c t) eqn:E; [|reflexivity].
  destruct s; discriminate.
Qed.

(** With the directory ["jobs"] in place, a job file can be opened for
    writing unless the classifier name or the task id has a ["/"] or a
    directory has the file's name. *)
Lemma can_open_job_file w clf_name task_id :
  "jobs" ∈ w_dirs w →
  Path.has_slash clf_name = false →
  Path.has_slash (format_id task_id) = false →
  job_file clf_name task_id ∉ w_dirs w →
  Os.can_open_w w (job_file clf_name task_id) = true.
Proof.
  intros Hjobs Hclf Htask Hdir.
  assert (Hname : has_char "/" (clf_name +:+ "_" +:+ format_id task_id +:+ ".sh") = false).
  { unfold Path.has_slash in *. rewrite !has_char_app, Hclf, Htask. reflexivity. }
  assert (Hd : Path.dirname (job_file clf_name task_id) = Some "jobs").
  { unfold job_file. change ("jobs/" +:+ ?s) with ("jobs" +:+ String "/" s).
    by apply dirname_app. }
  assert (Hs : Path.strip_slash (job_file clf_name task_id) = job_file clf_name task_id).
  { unfold Path.strip_slash, job_file. rewrite <- !app_assoc_s.
    change ".sh" with (String "." "sh"). by rewrite ends_with_slash_app. }
  unfold Os.can_open_w, Os.parent_exists. rewrite Hs, Hd.
  unfold Os.is_dir.
  rewrite (bool_decide_eq_true_2 _ Hjobs), (bool_decide_eq_false_2 _ Hdir).
  reflexivity.
Qed.

(** The generator end to end: a benchmark constructed with the default
    directory writes its four default jobs and submits them (in the order
    of the directory listing). *)
Example generate_and_submit :
  ∃ b w1 w2 w3,
    init "#!/bin/sh" "python3" "jobs" "config.json" world0 = (Ok b, w1) ∧
    create_jobs b [IdInt 3; IdInt 31] None w1 = (Ok b, w2) ∧
    submit_jobs env_up b w2 = (Ok b, w3) ∧
    List.filter (λ e, match e with EvSubprocess _ => true | _ => false end) (w_trace w3)
    = [EvSubprocess ["qsub"; "jobs/autosklearn_31.sh"];
       EvSubprocess ["qsub"; "jobs/autosklearn_3.sh"];
       EvSubprocess ["qsub"; "jobs/tpot_31.sh"];
       EvSubprocess ["qsub"; "jobs/tpot_3.sh"]].
Proof.
  eexists _, _, _, _.
  split; [vm_compute; reflexivity|].
  split; [vm_compute; reflexivity|].
  split; [vm_compute; reflexivity|].
  vm_compute. reflexivity.
Qed.

(** ** What equality of values means for dicts *)

Lemma json_eq_int_inv n m : json_eq (JInt n) (JInt m) → n = m.
Proof. by inversion 1. Qed.

Lemma json_eq_str_inv s t : json_eq (JStr s) (JStr t) → s = t.
Proof. by inversion 1. Qed.

Lemma dict_get_elem {V} (l : list (string * V)) k v :
  NoDup (map fst l) → dict_get k l = Some v ↔ (k, v) ∈ l.
Proof.
  induction l as [|[k' v'] l IH]; intros Hnd; simpl.
  - split; [discriminate|]. by intros ?%elem_of_nil.
  - simpl in Hnd. apply NoDup_cons in Hnd as [Hk' Hnd].
    destruct (decide (k = k')) as [->|Hne].
    + split.
      * intros [= ->]. left.
      * intros [[= ->]|Hin]%elem_of_cons; [done|].
        exfalso. apply Hk'. apply list_elem_of_fmap. by exists (k', v).
    + rewrite (IH Hnd). split.
      * by right.
      * intros [[= -> ->]|Hin]%elem_of_cons; done.
Qed.

Lemma dict_get_perm {V} (l l' : list (string * V)) k :
  NoDup (map fst l) → l ≡ₚ l' → dict_get k l = dict_get k l'.
Proof.
  intros Hnd Hperm.
  assert (Hnd' : NoDup (map fst l')) by by rewrite <- Hperm.
  destruct (dict_get k l) as [v|] eqn:E, (dict_get k l') as [v'|] eqn:E'; [| | |done].
  - apply (dict_get_elem _ _ _ Hnd) in E. rewrite Hperm in E.
    apply (dict_get_elem _ _ _ Hnd') in E. congruence.
  - apply (dict_get_elem _ _ _ Hnd) in E. rewrite Hperm in E.
    apply (dict_get_elem _ _ _ Hnd') in E. congruence.
  - apply (dict_get_elem _ _ _ Hnd') in E'. rewrite <- Hperm in E'.
    apply (dict_get_elem _ _ _ Hnd) in E'. congruence.
Qed.

(** Equal dicts have the same keys, with equal values. *)
Lemma json_eq_dict_get a b k :
  json_eq (JObj a) (JObj b) → NoDup (map fst a) →
  match dict_get k a, dict_get k b with
  | Some x, Some y => json_eq x y
  | None, None => True
  | _, _ => False
  end.
Proof.
  intros Heq Hnd.
  inversion Heq as [| | | | |kvs kvs' kvs'' Hitems Hperm]; subst. clear Heq.
  assert (Hkeys : map fst a = map fst kvs').
  { clear Hperm Hnd. induction Hitems as [|x y l l' [Hxy _] _ IH]; [done|].
    simpl. by rewrite Hxy, IH. }
  rewrite <- (dict_get_perm kvs' b k) by (by rewrite <- Hkeys || done).
  clear Hperm Hnd Hkeys.
  induction Hitems as [|[k1 x] [k2 y] l l' [Hxy Heq] _ IH]; [done|].
  simpl in *. subst k2. by destruct (decide (k = k1)).
Qed.

(** ** Corner cases worth recording *)

(** For an int task id only the classifier name can stand in the way. *)
Lemma can_open_int_job_file w clf_name n :
  "jobs" ∈ w_dirs w →
  Path.has_slash clf_name = false →
  job_file clf_name (IdInt n) ∉ w_dirs w →
  Os.can_open_w w (job_file clf_name (IdInt n)) = true.
Proof.
  intros Hjobs Hclf Hdir. apply can_open_job_file; [done..| |done].
  apply str_of_Z_no_slash.
Qed.

(** An empty API key is falsy: it is not assigned, and the client keeps the
    key it had. *)
Example run_job_empty_apikey_not_assigned :
  let w := mkWorld ∅ ∅ "old key" [] in
  let r := run_job env_up "tpot" (IdInt 31) (JObj []) (JObj []) (JObj []) None (Some "") w in
  r.1 = Ok (7, "https://www.openml.org/api/v1/json/run/7") ∧
  w_apikey r.2 = "old key" ∧
  w_trace r.2 = [EvGetTask (IdInt 31); EvRunModel (Task 0); EvPublish (Run 0)].
Proof. vm_compute. repeat split; reflexivity. Qed.

(** A record whose id is already a key of the log: the loaded key is a
    str, the new one an int, so the dict holds both and both are written. *)
Example store_output_same_id :
  let w := mkWorld ∅ {["log.json" := "{" +:+ quoted "2" +:+ ": " +:+ quoted "old" +:+ "}"]} "" [] in
  w_files (store_output "log.json" 2 "new" w).2 !! "log.json"
  = Some ("{" +:+ quoted "2" +:+ ": " +:+ quoted "old" +:+ ", "
          +:+ quoted "2" +:+ ": " +:+ quoted "new" +:+ "}").
Proof. vm_compute. reflexivity. Qed.

(** * Further properties of the job generator *)

(** ** Loops *)

Lemma for_each_app {A} (xs ys : list A) (body : A → M unit) w :
  for_each (xs ++ ys) body w = (for_each xs body;; for_each ys body) w.
Proof.
  revert w. induction xs as [|x xs IH]; intros w; [reflexivity|].
  simpl. unfold mbind, M_bind in *.
  destruct (body x w) as [[[]|e] w1]; [apply IH|reflexivity].
Qed.

Lemma for_each_map {A B} (f : A → B) (xs : list A) (body : B → M unit) w :
  for_each (map f xs) body w = for_each xs (λ x, body (f x)) w.
Proof.
  revert w. induction xs as [|x xs IH]; intros w; [reflexivity|].
  simpl. unfold mbind, M_bind.
  destruct (body (f x) w) as [[[]|e] w1]; [apply IH|reflexivity].
Qed.

(** The two nested loops of [create_jobs] are one loop over the pairs. *)
Lemma create_jobs_loop self tasks classifiers w :
  for_each classifiers (λ clf,
    for_each tasks (λ task_id,
      create_job self task_id clf default_preprocessor default_log;; mret tt)) w
  = for_each (job_pairs classifiers tasks) (write_default_job self) w.
Proof.
  revert w. induction classifiers as [|c cs IH]; intros w; [reflexivity|].
  unfold job_pairs. simpl. rewrite for_each_app.
  unfold mbind at 1 4, M_bind at 1 4. rewrite for_each_map.
  change (for_each tasks (λ x, write_default_job self (c, x)) w)
    with (for_each tasks (λ task_id,
            create_job self task_id c default_preprocessor default_log;; mret tt) w).
  destruct (for_each tasks _ w) as [[[]|e] w1]; [apply IH|reflexivity].
Qed.

Lemma jobs_loop_ok self pairs w :
  forallb (λ ct, Os.can_open_w w (job_path ct)) pairs = true →
  for_each pairs (write_default_job self) w = (Ok tt, write_all self pairs w).
Proof.
  revert w. induction pairs as [|ct pairs IH]; intros w Hopen; [reflexivity|].
  simpl in Hopen. apply andb_prop in Hopen as [Hct Hopen].
  assert (Hbody : write_default_job self ct w
                  = (Ok tt, job_written self ct.2 ct.1 default_preprocessor default_log w)).
  { unfold write_default_job. erewrite bind_ok; [reflexivity|]. by apply create_job_ok. }
  simpl for_each. rewrite (bind_ok _ _ _ _ _ Hbody).
  rewrite write_all_cons. apply IH.
  rewrite forallb_forall in *. intros ct' Hin.
  rewrite (can_open_w_dirs w); [by apply Hopen|reflexivity].
Qed.

Lemma jobs_loop_fails self done ct todo w :
  forallb (λ ct, Os.can_open_w w (job_path ct)) done = true →
  Os.can_open_w w (job_path ct) = false →
  ∃ e, for_each (done ++ ct :: todo) (write_default_job self) w
       = (Raise e, write_all self done w).
Proof.
  intros Hdone Hct.
  assert (Hct' : Os.can_open_w (write_all self done w) (job_path ct) = false).
  { rewrite (can_open_w_dirs w); [done|apply write_all_dirs]. }
  destruct (create_job_fail self ct.2 ct.1 default_preprocessor default_log _ Hct')
    as [e He].
  exists e. rewrite for_each_app.
  rewrite (bind_ok _ _ _ _ _ (jobs_loop_ok self done w Hdone)).
  simpl for_each. apply bind_raise. unfold write_default_job. by apply bind_raise.
Qed.

(** What the files hold at a path after the scripts of [pairs] were
    written: either the same text whatever was there, or what was there. *)
Lemma write_all_lookup_cases self pairs p :
  (∃ text, ∀ w, w_files (write_all self pairs w) !! p = Some text)
  ∨ (∀ w, w_files (write_all self pairs w) !! p = w_files w !! p).
Proof.
  induction pairs as [|ct pairs IH]; [by right|].
  destruct IH as [[text Htext]|Hsame].
  - left. exists text. intros w. rewrite write_all_cons. apply Htext.
  - destruct (decide (job_path ct = p)) as [<-|Hne].
    + left. eexists. intros w. rewrite write_all_cons, Hsame. simpl.
      apply lookup_insert_eq.
    + right. intros w. rewrite write_all_cons, Hsame. simpl.
      by apply lookup_insert_ne.
Qed.

Lemma job_file_dirname clf_name task_id :
  Path.has_slash clf_name = false → Path.has_slash (format_id task_id) = false →
  Path.dirname (job_file clf_name task_id) = Some "jobs".
Proof.
  intros Hclf Htask. unfold job_file.
  change ("jobs/" +:+ ?s) with ("jobs" +:+ String "/" s).
  apply dirname_app. unfold Path.has_slash in *.
  rewrite !has_char_app, Hclf, Htask. reflexivity.
Qed.

Lemma job_file_strip_slash clf_name task_id :
  Path.strip_slash (job_file clf_name task_id) = job_file clf_name task_id.
Proof.
  unfold Path.strip_slash, job_file. rewrite <- !app_assoc_s.
  change ".sh" with (String "." "sh"). by rewrite ends_with_slash_app.
Qed.

Lemma job_text_lines self task_id clf_name preprocessor log :
  job_text self task_id clf_name preprocessor log
  = headers self +:+ String newline (invocation_line self task_id clf_name preprocessor log).
Proof. reflexivity. Qed.

(** ** create_job *)

(** X1: when its file can be opened, [create_job] leaves in it the header
    block as given, a line break, and the invocation line; that line has a
    line break only if one of the values put into it has one.  Nothing
    else changes but the trace, which gains the opening of the file. *)
Theorem create_job_writes_header_and_line self task_id clf_name preprocessor log w :
  Os.can_open_w w (job_file clf_name task_id) = true →
  ∃ w',
    create_job self task_id clf_name preprocessor log w = (Ok self, w') ∧
    w_files w' !! job_file clf_name task_id
      = Some (headers self
              +:+ String newline (invocation_line self task_id clf_name preprocessor log)) ∧
    has_char newline (invocation_line self task_id clf_name preprocessor log)
      = has_char newline (python_interpreter self) || has_char newline clf_name
        || has_char newline (format_id task_id) || has_char newline (config_file self)
        || has_char newline (format_opt preprocessor) || has_char newline log ∧
    w_trace w' = w_trace w ++ [EvOpenWrite (job_file clf_name task_id)] ∧
    w_dirs w' = w_dirs w ∧ w_apikey w' = w_apikey w ∧
    ∀ p, p ≠ job_file clf_name task_id → w_files w' !! p = w_files w !! p.
Proof.
  intros Hopen. eexists. split; [by apply create_job_ok|].
  split; [simpl; rewrite lookup_insert_eq; by rewrite job_text_lines|].
  split.
  { unfold invocation_line. rewrite !has_char_app. simpl.
    by rewrite orb_false_r, !orb_assoc. }
  split; [reflexivity|]. split; [reflexivity|]. split; [reflexivity|].
  intros p Hp. simpl. by apply lookup_insert_ne.
Qed.

Lemma create_job_writes_header_and_line_witness :
  Os.can_open_w world_with_jobs (job_file "tpot" (IdInt 31)) = true ∧
  ∃ w',
    create_job bench0 (IdInt 31) "tpot" (Some "default") "log.json" world_with_jobs
      = (Ok bench0, w') ∧
    has_char newline (invocation_line bench0 (IdInt 31) "tpot" (Some "default") "log.json")
      = false.
Proof.
  split; [vm_compute; reflexivity|].
  destruct (create_job_writes_header_and_line bench0 (IdInt 31) "tpot" (Some "default")
              "log.json" world_with_jobs) as (w' & Hrun & _ & Hline & _);
    [vm_compute; reflexivity|].
  exists w'. split; [exact Hrun|]. rewrite Hline. vm_compute. reflexivity.
Defined.

(** X2: when nothing is named ["jobs"], neither a directory nor a file,
    [create_job] raises [FileNotFoundError] for its file and changes
    nothing; it does not create the directory, whatever [jobs_dir] the
    benchmark has. *)
Theorem create_job_without_jobs_directory self task_id clf_name preprocessor log w :
  Os.is_dir w "jobs" = false →
  Os.is_file w "jobs" = false →
  Path.has_slash clf_name = false →
  Path.has_slash (format_id task_id) = false →
  job_file clf_name task_id ∉ w_dirs w →
  create_job self task_id clf_name preprocessor log w
  = (Raise (FileNotFoundError (job_file clf_name task_id)), w).
Proof.
  intros Hjobs _ Hclf Htask Hdir. apply create_job_raise.
  unfold Os.open_w, Os.parent_exists.
  rewrite job_file_strip_slash, job_file_dirname, Hjobs by done.
  unfold Os.is_dir. rewrite (bool_decide_eq_false_2 _ Hdir).
  reflexivity.
Qed.

Lemma create_job_without_jobs_directory_witness :
  Os.is_dir world0 "jobs" = false ∧ Os.is_file world0 "jobs" = false ∧
  create_job (mkBenchmark "python3" "out" "config.json" "#!/bin/sh") (IdInt 31) "tpot"
    (Some "default") "log.json" world0
  = (Raise (FileNotFoundError "jobs/tpot_31.sh"), world0).
Proof.
  split; [vm_compute; reflexivity|]. split; [vm_compute; reflexivity|].
  apply (create_job_without_jobs_directory
           (mkBenchmark "python3" "out" "config.json" "#!/bin/sh") (IdInt 31) "tpot"
           (Some "default") "log.json" world0);
    [vm_compute; reflexivity..|].
  simpl. apply not_elem_of_empty.
Defined.

(** X3: the file name is a function of classifier and task that tells any
    two pairs with int task ids apart; for str task ids it does not: two
    different pairs can share a file. *)
Theorem job_file_tells_int_tasks_apart :
  (∀ c n c' n', job_file c (IdInt n) = job_file c' (IdInt n') ↔ c = c' ∧ n = n') ∧
  ∃ c s c' s', (c, s) ≠ (c', s') ∧ job_file c (IdStr s) = job_file c' (IdStr s').
Proof.
  split.
  - intros c n c' n'. split; [apply job_file_int_inj|]. by intros [-> ->].
  - exists "a", "1_2", "a_1", "2". split; [discriminate|reflexivity].
Qed.

(** ** create_jobs *)

Lemma create_jobs_as_loop self tasks classifiers w :
  create_jobs self tasks classifiers w
  = (for_each (job_pairs (default ["tpot"; "autosklearn"] classifiers) tasks)
       (write_default_job self);; mret self) w.
Proof.
  unfold create_jobs. cbv zeta. unfold mbind at 1, M_bind at 1.
  by rewrite create_jobs_loop.
Qed.

(** X4: with no task, or with an empty list of classifiers, [create_jobs]
    writes nothing and returns [self]; the empty list is not replaced by
    the default classifiers, only [None] is. *)
Theorem create_jobs_nothing_to_do self tasks classifiers w :
  tasks = [] ∨ classifiers = Some [] →
  create_jobs self tasks classifiers w = (Ok self, w).
Proof.
  intros Hempty. rewrite create_jobs_as_loop.
  assert (job_pairs (default ["tpot"; "autosklearn"] classifiers) tasks = []) as ->.
  { destruct Hempty as [-> | ->]; [|reflexivity].
    unfold job_pairs. induction (default _ classifiers) as [|c cs IH]; [reflexivity|].
    simpl. exact IH. }
  reflexivity.
Qed.

Lemma create_jobs_nothing_to_do_witness :
  ([] = @nil pyid ∨ Some ["tpot"] = Some []) ∧
  create_jobs bench0 [] (Some ["tpot"]) world0 = (Ok bench0, world0).
Proof.
  split; [by left|].
  apply (create_jobs_nothing_to_do bench0 [] (Some ["tpot"]) world0). by left.
Defined.

(** X5: [create_jobs] stops at the first pair, in classifier-major order,
    whose file cannot be opened: it raises the error of that opening, the
    scripts of the pairs before it stay written, and no file of a later
    pair is opened. *)
Theorem create_jobs_stops_at_first_failure self tasks classifiers done ct todo w :
  job_pairs (default ["tpot"; "autosklearn"] classifiers) tasks = done ++ ct :: todo →
  forallb (λ ct, Os.can_open_w w (job_path ct)) done = true →
  Os.can_open_w w (job_path ct) = false →
  ∃ e w',
    create_jobs self tasks classifiers w = (Raise e, w') ∧
    Os.open_w (job_path ct) w = (Raise e, w) ∧
    w_trace w' = w_trace w ++ map (λ ct, EvOpenWrite (job_path ct)) done ∧
    dom (w_files w') = dom (w_files w) ∪ list_to_set (map job_path done) ∧
    ∀ p, p ∉ map job_path done → w_files w' !! p = w_files w !! p.
Proof.
  intros Hpairs Hdone Hct.
  assert (Hct' : Os.can_open_w (write_all self done w) (job_path ct) = false).
  { rewrite (can_open_w_dirs w); [done|apply write_all_dirs]. }
  destruct (open_w_fail _ _ Hct) as [e He].
  assert (He' : Os.open_w (job_path ct) (write_all self done w)
                = (Raise e, write_all self done w)).
  { unfold Os.open_w, Os.parent_exists, Os.is_dir in *.
    rewrite write_all_dirs.
    destruct (String.eqb (job_path ct) ""); [by injection He as <-|].
    destruct (_ || _); [by injection He as <-|].
    destruct (negb _); [by injection He as <-|discriminate]. }
  exists e, (write_all self done w).
  split.
  { rewrite create_jobs_as_loop, Hpairs. apply bind_raise.
    rewrite for_each_app.
    rewrite (bind_ok _ _ _ _ _ (jobs_loop_ok self done w Hdone)).
    simpl for_each. apply bind_raise. unfold write_default_job. apply bind_raise.
    by apply create_job_raise. }
  split; [exact He|].
  split; [apply write_all_trace|].
  split; [apply write_all_dom|].
  intros p Hp. by apply write_all_lookup_other.
Qed.

Lemma create_jobs_stops_at_first_failure_witness :
  job_pairs ["tpot"; "a/b"] [IdInt 3; IdInt 31]
    = [("tpot", IdInt 3); ("tpot", IdInt 31)] ++ ("a/b", IdInt 3) :: [("a/b", IdInt 31)] ∧
  ∃ w',
    create_jobs bench0 [IdInt 3; IdInt 31] (Some ["tpot"; "a/b"]) world_with_jobs
      = (Raise (FileNotFoundError "jobs/a/b_3.sh"), w') ∧
    w_trace w' = [EvOpenWrite "jobs/tpot_3.sh"; EvOpenWrite "jobs/tpot_31.sh"].
Proof.
  split; [reflexivity|].
  destruct (create_jobs_stops_at_first_failure bench0 [IdInt 3; IdInt 31]
              (Some ["tpot"; "a/b"]) [("tpot", IdInt 3); ("tpot", IdInt 31)]
              ("a/b", IdInt 3) [("a/b", IdInt 31)] world_with_jobs)
    as (e & w' & Hrun & He & Htrace & _);
    [reflexivity|vm_compute; reflexivity|vm_compute; reflexivity|].
  exists w'. split.
  - rewrite Hrun. f_equal. f_equal.
    assert (Hopen : Os.open_w (job_path ("a/b", IdInt 3)) world_with_jobs
                    = (Raise (FileNotFoundError "jobs/a/b_3.sh"), world_with_jobs))
      by (vm_compute; reflexivity).
    rewrite Hopen in He. by injection He.
  - rewrite Htrace. reflexivity.
Defined.

(** X6: generating the same jobs again changes no file: after a second
    [create_jobs] with the same tasks and classifiers the files are what
    the first left (each script is rewritten with the same text). *)
Theorem create_jobs_twice self tasks classifiers w :
  forallb (λ ct, Os.can_open_w w (job_path ct))
    (job_pairs (default ["tpot"; "autosklearn"] classifiers) tasks) = true →
  ∃ w1 w2,
    create_jobs self tasks classifiers w = (Ok self, w1) ∧
    create_jobs self tasks classifiers w1 = (Ok self, w2) ∧
    w_files w2 = w_files w1 ∧ w_dirs w2 = w_dirs w1.
Proof.
  intros Hopen.
  set (pairs := job_pairs (default ["tpot"; "autosklearn"] classifiers) tasks) in *.
  assert (Hopen1 : forallb (λ ct, Os.can_open_w (write_all self pairs w) (job_path ct))
                     pairs = true).
  { rewrite forallb_forall in *. intros ct Hin.
    rewrite (can_open_w_dirs w); [by apply Hopen|apply write_all_dirs]. }
  exists (write_all self pairs w), (write_all self pairs (write_all self pairs w)).
  split.
  { rewrite create_jobs_as_loop. fold pairs.
    by rewrite (bind_ok _ _ _ _ _ (jobs_loop_ok self pairs w Hopen)). }
  split.
  { rewrite create_jobs_as_loop. fold pairs.
    by rewrite (bind_ok _ _ _ _ _ (jobs_loop_ok self pairs _ Hopen1)). }
  split; [|by rewrite !write_all_dirs].
  apply map_eq. intros p.
  destruct (write_all_lookup_cases self pairs p) as [[text Htext]|Hsame].
  - by rewrite !Htext.
  - by rewrite Hsame.
Qed.

Lemma create_jobs_twice_witness :
  forallb (λ ct, Os.can_open_w world_with_jobs (job_path ct))
    (job_pairs ["tpot"; "autosklearn"] [IdInt 3; IdInt 31]) = true ∧
  ∃ w1 w2,
    create_jobs bench0 [IdInt 3; IdInt 31] None world_with_jobs = (Ok bench0, w1) ∧
    create_jobs bench0 [IdInt 3; IdInt 31] None w1 = (Ok bench0, w2) ∧
    w_files w2 = w_files w1.
Proof.
  split; [vm_compute; reflexivity|].
  destruct (create_jobs_twice bench0 [IdInt 3; IdInt 31] None world_with_jobs)
    as (w1 & w2 & H1 & H2 & Hfiles & _); [vm_compute; reflexivity|].
  by exists w1, w2.
Defined.

(** ** submit_jobs *)

Lemma submit_jobs_as_loop env self w :
  Os.is_dir w "jobs" = true →
  submit_jobs env self w = (for_each (jobs_listing w) (submit_one env);; mret self) w.
Proof.
  intros Hdir. unfold submit_jobs.
  assert (Hls : Os.listdir "jobs/" w
                = (Ok (omap (Os.entry_name "jobs/")
                         ((map_to_list (w_files w)).*1 ++ elements (w_dirs w))), w)).
  { unfold Os.listdir.
    change (Path.strip_slash "jobs/") with "jobs". by rewrite Hdir. }
  rewrite (bind_ok _ _ _ _ _ Hls).
  by rewrite (bind_ok _ _ _ _ _ (filter_m_isfile _ _ _)).
Qed.

Lemma submit_one_answered env file rc w :
  env_subprocess env (w_trace w ++ [EvPrint ("Submitting jobs/" +:+ file)])
    ["qsub"; "jobs/" +:+ file] = Some rc →
  submit_one env file w = (Ok tt, add_events (submission file) w).
Proof.
  intros Hrc. unfold submit_one, mbind, M_bind, print, modify, subprocess_call, call.
  simpl. rewrite Hrc. unfold log_event, add_events, submission. simpl.
  by rewrite <- app_assoc.
Qed.

Lemma submit_one_raises env file w :
  env_subprocess env (w_trace w ++ [EvPrint ("Submitting jobs/" +:+ file)])
    ["qsub"; "jobs/" +:+ file] = None →
  submit_one env file w = (Raise CollaboratorError, add_events (submission file) w).
Proof.
  intros Hrc. unfold submit_one, mbind, M_bind, print, modify, subprocess_call, call.
  simpl. rewrite Hrc. unfold log_event, add_events, submission. simpl.
  by rewrite <- app_assoc.
Qed.

Lemma submit_loop_answered env files w :
  (∀ f tr, f ∈ files → is_Some (env_subprocess env tr ["qsub"; "jobs/" +:+ f])) →
  for_each files (submit_one env) w
  = (Ok tt, add_events (flat_map submission files) w).
Proof.
  revert w. induction files as [|f files IH]; intros w Hans.
  - simpl. by rewrite add_events_nil.
  - destruct (Hans f (w_trace w ++ [EvPrint ("Submitting jobs/" +:+ f)])) as [rc Hrc];
      [left|].
    simpl for_each. rewrite (bind_ok _ _ _ _ _ (submit_one_answered _ _ _ _ Hrc)).
    rewrite IH by (intros g tr Hg; apply Hans; by right).
    by rewrite add_events_add.
Qed.

Lemma strip_prefix_app pre r : Path.strip_prefix pre (pre +:+ r) = Some r.
Proof.
  induction pre as [|c pre IH]; [by destruct r|].
  rewrite app_cons_s. simpl. by rewrite Ascii.eqb_refl.
Qed.

Lemma entry_name_jobs f :
  f ≠ "" → Path.has_slash f = false → Os.entry_name "jobs/" ("jobs/" +:+ f) = Some f.
Proof.
  intros Hne Hslash. unfold Os.entry_name.
  change (Path.join "jobs/" "") with "jobs/".
  rewrite strip_prefix_app, Hslash. simpl.
  apply String.eqb_neq in Hne. by rewrite Hne.
Qed.

Lemma join_jobs f : Path.has_slash f = false → Path.join "jobs/" f = "jobs/" +:+ f.
Proof. intros Hf. by apply (join_relative "jobs"). Qed.

(** The names kept are those of the regular files directly in ["jobs/"]. *)
Lemma elem_of_jobs_listing w f :
  f ∈ jobs_listing w
  ↔ f ≠ "" ∧ Path.has_slash f = false ∧ Os.is_file w ("jobs/" +:+ f) = true.
Proof.
  unfold jobs_listing. rewrite list_elem_of_In, filter_In, <- list_elem_of_In.
  rewrite list_elem_of_omap. split.
  - intros [(p & Hp & Hname) Hfile].
    unfold Os.entry_name in Hname.
    destruct (Path.strip_prefix _ p) as [n|] eqn:Hn; [|discriminate].
    destruct (Path.has_slash n) eqn:Hslash; [discriminate|].
    simpl in Hname. destruct (String.eqb_spec n ""); [discriminate|].
    injection Hname as <-. rewrite join_jobs in Hfile by done. done.
  - intros (Hne & Hslash & Hfile). split.
    + exists ("jobs/" +:+ f). split; [|by apply entry_name_jobs].
      apply elem_of_app. left.
      unfold Os.is_file in Hfile. apply bool_decide_eq_true in Hfile as [text Htext].
      apply list_elem_of_fmap. exists ("jobs/" +:+ f, text). split; [done|].
      by apply elem_of_map_to_list.
    + by rewrite join_jobs.
Qed.

Lemma entry_name_inj d p q n :
  Os.entry_name d p = Some n → Os.entry_name d q = Some n → p = q.
Proof.
  intros [-> _]%entry_name_spec [-> _]%entry_name_spec. reflexivity.
Qed.

Lemma NoDup_omap_inj {A B} (f : A → option B) l :
  (∀ x y z, f x = Some z → f y = Some z → x = y) → NoDup l → NoDup (omap f l).
Proof.
  intros Hinj. induction 1 as [|x l Hx Hl IH]; simpl; [constructor|].
  destruct (f x) as [z|] eqn:Hz; [|exact IH].
  constructor; [|exact IH].
  intros (y & Hy & Hfy)%list_elem_of_omap.
  by rewrite (Hinj x y z Hz Hfy) in Hx.
Qed.

Lemma NoDup_jobs_listing w : consistent w → NoDup (jobs_listing w).
Proof.
  intros Hcons. unfold jobs_listing.
  rewrite omap_app, List.filter_app.
  assert (Hdirs : List.filter (λ f, Os.is_file w (Path.join "jobs/" f))
                    (omap (Os.entry_name "jobs/") (elements (w_dirs w))) = []).
  { destruct (List.filter _ _) as [|f l] eqn:E; [reflexivity|]. exfalso.
    assert (Hin : In f (f :: l)) by by left.
    rewrite <- E in Hin. apply filter_In in Hin as [Hf Hfile].
    apply list_elem_of_In, list_elem_of_omap in Hf as (p & Hp & Hname).
    apply elem_of_elements in Hp.
    apply entry_name_spec in Hname as [-> Hslash].
    change (Path.join "jobs/" "") with "jobs/" in Hp.
    rewrite join_jobs in Hfile by done.
    unfold Os.is_file in Hfile. apply bool_decide_eq_true in Hfile as [text Htext].
    by rewrite (Hcons _ Hp) in Htext. }
  rewrite Hdirs, app_nil_r.
  apply NoDup_ListNoDup, List.NoDup_filter, NoDup_ListNoDup, NoDup_omap_inj.
  - intros x y z. apply entry_name_inj.
  - apply NoDup_fst_map_to_list.
Qed.

(** X7: without a directory ["jobs"], [submit_jobs] fails at the listing:
    nothing is printed, nothing is submitted and the world is unchanged. *)
Theorem submit_jobs_without_jobs_directory env self w :
  Os.is_dir w "jobs" = false →
  ∃ e, submit_jobs env self w = (Raise e, w).
Proof.
  intros Hdir. unfold submit_jobs.
  assert (Hls : ∃ e, Os.listdir "jobs/" w = (Raise e, w)).
  { unfold Os.listdir. change (Path.strip_slash "jobs/") with "jobs". rewrite Hdir.
    simpl. destruct (Os.is_file w "jobs/"); by eexists. }
  destruct Hls as [e He]. exists e. by apply bind_raise.
Qed.

Lemma submit_jobs_without_jobs_directory_witness :
  Os.is_dir world0 "jobs" = false ∧
  ∃ e, submit_jobs env_up bench0 world0 = (Raise e, world0).
Proof.
  split; [vm_compute; reflexivity|].
  apply (submit_jobs_without_jobs_directory env_up bench0 world0).
  vm_compute. reflexivity.
Defined.

(** X8: when the queue command can be started for each of them,
    [submit_jobs] announces and submits every regular file directly in
    ["jobs/"], in the order of the listing, whatever the return codes are,
    and returns [self].  The files submitted are the entries of ["jobs/"]
    that are regular files, each once when no path is both a file and a
    directory. *)
Theorem submit_jobs_submits_every_file env self w :
  Os.is_dir w "jobs" = true →
  (∀ f tr, f ∈ jobs_listing w →
           is_Some (env_subprocess env tr ["qsub"; "jobs/" +:+ f])) →
  submit_jobs env self w
    = (Ok self, add_events (flat_map submission (jobs_listing w)) w) ∧
  (∀ f, f ∈ jobs_listing w
        ↔ f ≠ "" ∧ Path.has_slash f = false ∧ Os.is_file w ("jobs/" +:+ f) = true) ∧
  (consistent w → NoDup (jobs_listing w)).
Proof.
  intros Hdir Hans. split; [|split; [apply elem_of_jobs_listing|apply NoDup_jobs_listing]].
  rewrite submit_jobs_as_loop by done.
  by rewrite (bind_ok _ _ _ _ _ (submit_loop_answered env _ w Hans)).
Qed.

Lemma submit_jobs_submits_every_file_witness :
  Os.is_dir world_with_scripts "jobs" = true ∧
  (submit_jobs env_up bench0 world_with_scripts).1 = Ok bench0 ∧
  w_trace (submit_jobs env_up bench0 world_with_scripts).2
    = [EvPrint "Submitting jobs/tpot_31.sh"; EvSubprocess ["qsub"; "jobs/tpot_31.sh"];
       EvPrint "Submitting jobs/tpot_3.sh"; EvSubprocess ["qsub"; "jobs/tpot_3.sh"]].
Proof.
  split; [vm_compute; reflexivity|].
  destruct (submit_jobs_submits_every_file env_up bench0 world_with_scripts) as [Hrun _];
    [vm_compute; reflexivity|by eexists|].
  rewrite Hrun. split; [reflexivity|]. vm_compute. reflexivity.
Defined.

(** X9: the loop of [submit_jobs] ends with the first submission that
    raises (the queue command cannot be started): the files after it in
    the listing are neither announced nor submitted. *)
Theorem submit_jobs_stops_when_call_raises env self done f rest w :
  Os.is_dir w "jobs" = true →
  jobs_listing w = done ++ f :: rest →
  (∀ g tr, g ∈ done → is_Some (env_subprocess env tr ["qsub"; "jobs/" +:+ g])) →
  (∀ tr, env_subprocess env tr ["qsub"; "jobs/" +:+ f] = None) →
  submit_jobs env self w
  = (Raise CollaboratorError, add_events (flat_map submission done ++ submission f) w).
Proof.
  intros Hdir Hlist Hdone Hf.
  rewrite submit_jobs_as_loop, Hlist by done.
  apply bind_raise. rewrite for_each_app.
  rewrite (bind_ok _ _ _ _ _ (submit_loop_answered env done w Hdone)).
  simpl for_each. erewrite bind_raise; [|apply submit_one_raises, Hf].
  by rewrite add_events_add.
Qed.

Lemma submit_jobs_stops_when_call_raises_witness :
  Os.is_dir world_with_scripts "jobs" = true ∧
  jobs_listing world_with_scripts = [] ++ "tpot_31.sh" :: ["tpot_3.sh"] ∧
  submit_jobs env_no_qsub bench0 world_with_scripts
  = (Raise CollaboratorError,
     add_events [EvPrint "Submitting jobs/tpot_31.sh";
                 EvSubprocess ["qsub"; "jobs/tpot_31.sh"]] world_with_scripts).
Proof.
  split; [vm_compute; reflexivity|].
  split; [vm_compute; reflexivity|].
  apply (submit_jobs_stops_when_call_raises env_no_qsub bench0 [] "tpot_31.sh"
           ["tpot_3.sh"] world_with_scripts).
  - vm_compute. reflexivity.
  - vm_compute. reflexivity.
  - intros g tr Hg. by apply elem_of_nil in Hg.
  - reflexivity.
Defined.

Lemma job_file_name clf_name task_id :
  job_file clf_name task_id = "jobs/" +:+ (clf_name +:+ "_" +:+ format_id task_id +:+ ".sh").
Proof. reflexivity. Qed.

Lemma job_name_facts clf_name task_id :
  Path.has_slash clf_name = false → Path.has_slash (format_id task_id) = false →
  clf_name +:+ "_" +:+ format_id task_id +:+ ".sh" ≠ ""
  ∧ Path.has_slash (clf_name +:+ "_" +:+ format_id task_id +:+ ".sh") = false.
Proof.
  intros Hclf Htask. split.
  - intros H. apply (f_equal String.length) in H.
    rewrite !length_app_s in H. simpl in H. lia.
  - unfold Path.has_slash in *. rewrite !has_char_app, Hclf, Htask. reflexivity.
Qed.

(** X10: what [create_jobs] has written, [submit_jobs] submits: after a
    successful [create_jobs] for names without ["/"], a [submit_jobs]
    whose queue command can be started hands the file of every
    (classifier, task) pair to [qsub]. *)
Theorem create_jobs_then_submit_jobs env self tasks classifiers w :
  let cs := default ["tpot"; "autosklearn"] classifiers in
  Os.is_dir w "jobs" = true →
  forallb (λ ct, Os.can_open_w w (job_path ct)) (job_pairs cs tasks) = true →
  forallb (λ c, negb (Path.has_slash c)) cs = true →
  forallb (λ t, negb (Path.has_slash (format_id t))) tasks = true →
  (∀ tr argv, is_Some (env_subprocess env tr argv)) →
  ∃ w1 w2,
    create_jobs self tasks classifiers w = (Ok self, w1) ∧
    submit_jobs env self w1 = (Ok self, w2) ∧
    ∀ c t, c ∈ cs → t ∈ tasks → EvSubprocess ["qsub"; job_file c t] ∈ w_trace w2.
Proof.
  intros cs Hdir Hopen Hcs Hts Hans.
  set (w1 := write_all self (job_pairs cs tasks) w).
  assert (Hdir1 : Os.is_dir w1 "jobs" = true).
  { unfold Os.is_dir, w1 in *. by rewrite write_all_dirs. }
  exists w1, (add_events (flat_map submission (jobs_listing w1)) w1).
  split.
  { rewrite create_jobs_as_loop. fold cs.
    by rewrite (bind_ok _ _ _ _ _ (jobs_loop_ok self _ w Hopen)). }
  split.
  { rewrite submit_jobs_as_loop by done.
    by rewrite (bind_ok _ _ _ _ _ (submit_loop_answered env _ w1 (λ f tr _, Hans tr _))). }
  intros c t Hc Ht. simpl. apply elem_of_app. right.
  rewrite forallb_forall in Hcs, Hts.
  assert (Hclf : Path.has_slash c = false).
  { apply negb_true_iff, Hcs. by apply list_elem_of_In. }
  assert (Htask : Path.has_slash (format_id t) = false).
  { apply negb_true_iff, Hts. by apply list_elem_of_In. }
  destruct (job_name_facts c t Hclf Htask) as [Hne Hslash].
  apply list_elem_of_In, in_flat_map.
  exists (c +:+ "_" +:+ format_id t +:+ ".sh"). split.
  - apply list_elem_of_In, elem_of_jobs_listing. split; [done|]. split; [done|].
    rewrite <- job_file_name. unfold Os.is_file. apply bool_decide_eq_true.
    apply elem_of_dom. unfold w1. rewrite write_all_dom.
    apply elem_of_union_r, elem_of_list_to_set, list_elem_of_fmap.
    exists (c, t). split; [reflexivity|]. by apply elem_of_job_pairs.
  - rewrite job_file_name. right. by left.
Qed.

Lemma create_jobs_then_submit_jobs_witness :
  Os.is_dir world_with_jobs "jobs" = true ∧
  ∃ w1 w2,
    create_jobs bench0 [IdInt 3; IdInt 31] None world_with_jobs = (Ok bench0, w1) ∧
    submit_jobs env_up bench0 w1 = (Ok bench0, w2) ∧
    EvSubprocess ["qsub"; "jobs/autosklearn_31.sh"] ∈ w_trace w2.
Proof.
  split; [vm_compute; reflexivity|].
  destruct (create_jobs_then_submit_jobs env_up bench0 [IdInt 3; IdInt 31] None
              world_with_jobs) as (w1 & w2 & H1 & H2 & Hall);
    [vm_compute; reflexivity..|by eexists|].
  exists w1, w2. split; [exact H1|]. split; [exact H2|].
  apply (Hall "autosklearn" (IdInt 31)).
  - right. left.
  - right. left.
Defined.

(** * What the generator and the runner never do *)

(** ** The calls a computation makes *)

Lemma emits_ret {A} ok (a : A) : emits ok (mret a).
Proof. intros w. split; [done|]. exists []. simpl. by rewrite app_nil_r. Qed.

Lemma emits_raise {A} ok e : emits ok (@raise A e).
Proof. intros w. split; [done|]. exists []. simpl. by rewrite app_nil_r. Qed.

Lemma emits_bind {A B} ok (m : M A) (k : A → M B) :
  emits ok m → (∀ a, emits ok (k a)) → emits ok (m ≫= k).
Proof.
  intros Hm Hk w. unfold mbind, M_bind.
  destruct (Hm w) as [Hkey (evs & Htr & Hevs)].
  destruct (m w) as [[a|e] w1]; simpl in *.
  - destruct (Hk a w1) as [Hkey' (evs' & Htr' & Hevs')].
    split; [congruence|]. exists (evs ++ evs').
    rewrite Htr', Htr, app_assoc, forallb_app, Hevs, Hevs'. done.
  - split; [done|]. by exists evs.
Qed.

Lemma emits_quiet {A} ok (m : M A) :
  (∀ w, w_apikey (m w).2 = w_apikey w ∧ w_trace (m w).2 = w_trace w) → emits ok m.
Proof.
  intros Hm w. destruct (Hm w) as [Hkey Htr]. split; [done|].
  exists []. by rewrite Htr, app_nil_r.
Qed.

Lemma emits_call {A} (ok : event → bool) ev (answer : list event → option A) :
  ok ev = true → emits ok (call ev answer).
Proof.
  intros Hev w. unfold call.
  destruct (answer _); simpl; (split; [done|]); exists [ev]; simpl; by rewrite Hev.
Qed.

Lemma emits_print (ok : event → bool) line : ok (EvPrint line) = true → emits ok (print line).
Proof. intros Hev w. split; [done|]. exists [EvPrint line]. simpl. by rewrite Hev. Qed.

Lemma emits_open_w (ok : event → bool) p : ok (EvOpenWrite p) = true → emits ok (Os.open_w p).
Proof.
  intros Hev w. unfold Os.open_w.
  destruct (String.eqb p ""); [apply (emits_raise ok _ w)|].
  destruct (Os.is_dir _ _); [apply (emits_raise ok _ w)|].
  destruct (negb _); [apply (emits_raise ok _ w)|].
  split; [done|]. exists [EvOpenWrite p]. simpl. by rewrite Hev.
Qed.

Lemma emits_write ok p s : emits ok (Os.write p s).
Proof. by apply emits_quiet. Qed.

Lemma emits_exists ok p : emits ok (Os.exists_ p).
Proof. by apply emits_quiet. Qed.

Lemma emits_isfile ok p : emits ok (Os.isfile p).
Proof. by apply emits_quiet. Qed.

Lemma emits_makedirs ok p : emits ok (Os.makedirs p).
Proof.
  apply emits_quiet. intros w. unfold Os.makedirs.
  destruct (String.eqb p ""); [done|]. destruct (Os.is_dir _ _); [done|].
  by destruct (List.find _ _).
Qed.

Lemma emits_for_each {A} ok (xs : list A) (body : A → M unit) :
  (∀ x, emits ok (body x)) → emits ok (for_each xs body).
Proof.
  intros Hbody. induction xs as [|x xs IH]; [apply emits_ret|].
  simpl. apply emits_bind; [apply Hbody|by intros _].
Qed.

(** ** The generator stays on the machine *)

Lemma local_only_create_job self task_id clf_name preprocessor log :
  local_only (create_job self task_id clf_name preprocessor log).
Proof.
  unfold create_job, local_only.
  repeat (apply emits_bind; [by apply emits_open_w || apply emits_write|intros _]).
  apply emits_ret.
Qed.

(** X11: the generator stays on the machine.  Whatever their arguments
    and whether they succeed or fail, [__init__], [create_config_file],
    [create_job] and [create_jobs] leave the tracking client's API key as
    it is, and all they add to the trace are openings of files: no call to
    the tracking service, no process, no output. *)
Theorem generator_stays_local h py jd cf file_name tpot autosklearn wrapper
    self task_id clf_name preprocessor log tasks classifiers :
  local_only (init h py jd cf) ∧
  local_only (create_config_file file_name tpot autosklearn wrapper) ∧
  local_only (create_job self task_id clf_name preprocessor log) ∧
  local_only (create_jobs self tasks classifiers).
Proof.
  unfold local_only. split; [|split; [|split]].
  - unfold init. apply emits_bind; [apply emits_exists|intros present].
    apply emits_bind; [|intros _; apply emits_ret].
    destruct (negb present); [apply emits_makedirs|apply emits_ret].
  - unfold create_config_file.
    apply emits_bind; [by apply emits_open_w|intros _].
    apply emits_bind; [apply emits_write|intros _]. apply emits_ret.
  - apply local_only_create_job.
  - unfold create_jobs. apply emits_bind; [|intros _; apply emits_ret].
    apply emits_for_each. intros clf.
    apply emits_for_each. intros t.
    apply emits_bind; [apply local_only_create_job|intros _; apply emits_ret].
Qed.

(** ** Which files a computation changes *)

Lemma touches_ret {A} P (a : A) : touches P (mret a).
Proof. by intros w. Qed.

Lemma touches_raise {A} P e : touches P (@raise A e).
Proof. by intros w. Qed.

Lemma touches_bind {A B} P (m : M A) (k : A → M B) :
  touches P m → (∀ a, touches P (k a)) → touches P (m ≫= k).
Proof.
  intros Hm Hk w. unfold mbind, M_bind.
  destruct (Hm w) as [Hd Hf].
  destruct (m w) as [[a|e] w1]; simpl in *; [|done].
  destruct (Hk a w1) as [Hd' Hf']. split; [congruence|].
  intros p Hp. by rewrite Hf', Hf.
Qed.

Lemma touches_quiet {A} P (m : M A) :
  (∀ w, w_dirs (m w).2 = w_dirs w ∧ w_files (m w).2 = w_files w) → touches P m.
Proof. intros Hm w. destruct (Hm w) as [Hd Hf]. split; [done|]. intros p _. by rewrite Hf. Qed.

Lemma touches_call {A} P ev (answer : list event → option A) : touches P (call ev answer).
Proof. apply touches_quiet. intros w. unfold call. by destruct (answer _). Qed.

Lemma touches_open_w p : touches (eq p) (Os.open_w p).
Proof.
  intros w. unfold Os.open_w.
  destruct (String.eqb p ""); [done|]. destruct (Os.is_dir _ _); [done|].
  destruct (negb _); [done|]. split; [done|].
  intros q Hq. simpl. by apply lookup_insert_ne.
Qed.

Lemma touches_write p s : touches (eq p) (Os.write p s).
Proof. intros w. split; [done|]. intros q Hq. simpl. by apply lookup_insert_ne. Qed.

Lemma touches_for_each {A} P (xs : list A) (body : A → M unit) :
  (∀ x, touches P (body x)) → touches P (for_each xs body).
Proof.
  intros Hbody. induction xs as [|x xs IH]; [apply touches_ret|].
  simpl. apply touches_bind; [apply Hbody|by intros _].
Qed.

Lemma touches_filter_m {A} P (cond : A → M bool) (xs : list A) :
  (∀ x, touches P (cond x)) → touches P (filter_m cond xs).
Proof.
  intros Hcond. induction xs as [|x xs IH]; [apply touches_ret|].
  simpl. apply touches_bind; [apply Hcond|intros keep].
  apply touches_bind; [apply IH|intros rest]. apply touches_ret.
Qed.

Lemma touches_nothing {A} (m : M A) w :
  touches (λ _, False) m → w_files (m w).2 = w_files w ∧ w_dirs (m w).2 = w_dirs w.
Proof.
  intros Hm. destruct (Hm w) as [Hd Hf]. split; [|done].
  apply map_eq. intros p. apply Hf. tauto.
Qed.

Lemma touches_get_preprocessor P env task_id name :
  touches P (get_preprocessor env task_id name).
Proof.
  destruct name as [name|]; [|apply touches_ret].
  unfold get_preprocessor.
  do 3 (apply touches_bind; [apply touches_call|intros ?]).
  destruct (String.eqb name "default"); [apply touches_ret|apply touches_raise].
Qed.

Lemma touches_keyword_args P a b : touches P (keyword_args a b).
Proof.
  unfold keyword_args.
  destruct a; try apply touches_raise. destruct b; try apply touches_raise.
  destruct (bool_decide _); [apply touches_ret|apply touches_raise].
Qed.

Lemma touches_construct P env clf : touches P (construct env clf).
Proof.
  unfold construct. destruct (env_construct env clf); [apply touches_ret|apply touches_raise].
Qed.

Lemma run_job_steps env clf_name task_id wc tc ac pre apikey :
  run_job env clf_name task_id wc tc ac pre apikey
  = ((if truthy apikey then assign_apikey (default "" apikey) else mret tt);;
     p ← get_preprocessor env task_id pre;
     clf ← build_classifier env clf_name p wc tc ac;
     evaluate env task_id clf).
Proof. reflexivity. Qed.

Lemma touches_build_classifier P env clf_name p wc tc ac :
  touches P (build_classifier env clf_name p wc tc ac).
Proof.
  unfold build_classifier. destruct (String.eqb clf_name "tpot").
  - apply touches_bind; [apply touches_keyword_args|intros kw; apply touches_construct].
  - destruct (String.eqb clf_name "autosklearn"); [|apply touches_raise].
    apply touches_bind; [apply touches_keyword_args|intros kw; apply touches_construct].
Qed.

Lemma touches_evaluate P env task_id clf : touches P (evaluate env task_id clf).
Proof.
  unfold evaluate. do 3 (apply touches_bind; [apply touches_call|intros ?]).
  apply touches_ret.
Qed.

Lemma touches_run_job P env clf_name task_id wc tc ac pre apikey :
  touches P (run_job env clf_name task_id wc tc ac pre apikey).
Proof.
  rewrite run_job_steps.
  apply touches_bind.
  { destruct (truthy apikey); [by apply touches_quiet|apply touches_ret]. }
  intros _. apply touches_bind; [apply touches_get_preprocessor|intros p].
  apply touches_bind; [apply touches_build_classifier|intros clf].
  apply touches_evaluate.
Qed.

Lemma touches_json_load P path : touches P (json_load path).
Proof.
  unfold json_load. apply touches_bind.
  - apply touches_quiet. intros w. unfold Os.read.
    destruct (w_files w !! path); [done|]. by destruct (_ && _).
  - intros text. destruct (Json.loads text); [apply touches_ret|apply touches_raise].
Qed.

Lemma touches_getitem P cfg key : touches P (getitem cfg key).
Proof.
  unfold getitem. destruct cfg; try apply touches_raise.
  destruct (dict_get _ _); [apply touches_ret|apply touches_raise].
Qed.

Lemma touches_store_output log id output : touches (eq log) (store_output log id output).
Proof.
  unfold store_output.
  apply touches_bind; [by apply touches_quiet|intros present].
  apply touches_bind.
  { destruct present; [apply touches_json_load|apply touches_ret]. }
  intros data. apply touches_bind.
  { unfold update. destruct data; try apply touches_raise. apply touches_ret. }
  intros d. apply touches_bind; [apply touches_open_w|intros _].
  apply touches_bind; [apply touches_write|intros _]. apply touches_ret.
Qed.

(** X12: the runner and the submitter leave the file system alone.
    Whatever their arguments, the collaborators' answers and the way they
    end, [get_preprocessor], [run_job] and [submit_jobs] create, change or
    remove no file and no directory. *)
Theorem runner_and_submitter_keep_files env task_id name clf_name wc tc ac pre apikey self w :
  (w_files (get_preprocessor env task_id name w).2 = w_files w
   ∧ w_dirs (get_preprocessor env task_id name w).2 = w_dirs w) ∧
  (w_files (run_job env clf_name task_id wc tc ac pre apikey w).2 = w_files w
   ∧ w_dirs (run_job env clf_name task_id wc tc ac pre apikey w).2 = w_dirs w) ∧
  (w_files (submit_jobs env self w).2 = w_files w
   ∧ w_dirs (submit_jobs env self w).2 = w_dirs w).
Proof.
  split; [|split]; apply touches_nothing.
  - apply touches_get_preprocessor.
  - apply touches_run_job.
  - unfold submit_jobs.
    apply touches_bind.
    { apply touches_quiet. intros w0. unfold Os.listdir.
      destruct (_ && _); [done|]. by destruct (Os.is_file _ _). }
    intros names. apply touches_bind.
    { apply touches_filter_m. intros f. by apply touches_quiet. }
    intros files. apply touches_bind; [|intros _; apply touches_ret].
    apply touches_for_each. intros file.
    apply touches_bind; [by apply touches_quiet|intros _].
    apply touches_bind; [apply touches_call|intros _]. apply touches_ret.
Qed.

(** X13: the only file [cli] ever writes is the log.  Whatever its
    arguments and however it ends, every path other than [log] holds after
    [cli] what it held before, and no directory is created. *)
Theorem cli_writes_only_the_log env classifier task_id config preprocessor apikey log w p :
  p ≠ log →
  w_files (cli env classifier task_id config preprocessor apikey log w).2 !! p
    = w_files w !! p
  ∧ w_dirs (cli env classifier task_id config preprocessor apikey log w).2 = w_dirs w.
Proof.
  intros Hp.
  assert (touches (eq log) (cli env classifier task_id config preprocessor apikey log)) as Hcli.
  { unfold cli. apply touches_bind.
    { destruct (negb (truthy task_id)); [apply touches_raise|].
      apply touches_bind; [by apply touches_quiet|intros present].
      destruct (negb present); [apply touches_raise|apply touches_ret]. }
    intros _. apply touches_bind; [apply touches_json_load|intros cfg].
    do 3 (apply touches_bind; [apply touches_getitem|intros ?]).
    apply touches_bind; [by apply touches_quiet|intros _].
    apply touches_bind; [apply touches_run_job|intros record].
    apply touches_store_output. }
  destruct (Hcli w) as [Hd Hf]. split; [|done]. apply Hf. congruence.
Qed.

Lemma cli_writes_only_the_log_witness :
  "config.json" ≠ "log.json" ∧
  (cli env_up "tpot" (Some "31") "config.json" "default" None "log.json"
     (world_with_config config_example)).1 = Ok tt ∧
  w_files (cli env_up "tpot" (Some "31") "config.json" "default" None "log.json"
             (world_with_config config_example)).2 !! "config.json"
    = Some config_example.
Proof.
  split; [discriminate|]. split; [vm_compute; reflexivity|].
  destruct (cli_writes_only_the_log env_up "tpot" (Some "31") "config.json" "default" None
              "log.json" (world_with_config config_example) "config.json")
    as [Hf _]; [discriminate|].
  rewrite Hf. reflexivity.
Defined.

(** ** A run that returns *)

Lemma bind_ok_inv {A B} (m : M A) (k : A → M B) w b w' :
  (m ≫= k) w = (Ok b, w') → ∃ a w1, m w = (Ok a, w1) ∧ k a w1 = (Ok b, w').
Proof.
  unfold mbind, M_bind. destruct (m w) as [[a|e] w1]; [|discriminate].
  intros Hk. by exists a, w1.
Qed.

Lemma call_ok_inv {A} ev (answer : list event → option A) w a w' :
  call ev answer w = (Ok a, w') → answer (w_trace w) = Some a ∧ w' = add_events [ev] w.
Proof.
  unfold call. destruct (answer (w_trace w)); [|discriminate].
  intros [= <- <-]. done.
Qed.

Lemma get_preprocessor_ok env task_id pre w p w' :
  get_preprocessor env task_id pre w = (Ok p, w') →
  (pre = None ∧ p = None ∧ w' = w) ∨
  (pre = Some "default" ∧
   ∃ ind, (fetch_run env (w_trace w) task_id).1 = Some ind ∧
          p = Some (default_pipeline (removelast ind)) ∧
          w' = add_events (fetch_run env (w_trace w) task_id).2 w).
Proof.
  destruct pre as [name|].
  - rewrite get_preprocessor_some.
    destruct (fetch_run env (w_trace w) task_id).1 as [ind|] eqn:Hind; [|discriminate].
    destruct (String.eqb name "default") eqn:Hname; [|discriminate].
    apply String.eqb_eq in Hname. subst name.
    intros [= <- <-]. right. split; [done|]. by exists ind.
  - intros [= <- <-]. by left.
Qed.

Lemma keyword_args_ok a b w kw w' :
  keyword_args a b w = (Ok kw, w') →
  w' = w ∧ ∃ x y, a = JObj x ∧ b = JObj y ∧ kw = x ++ y
                  ∧ NoDup ("preprocessor" :: map fst x ++ map fst y).
Proof.
  unfold keyword_args. destruct a; try discriminate. destruct b; try discriminate.
  destruct (bool_decide _) eqn:Hnd; [|discriminate].
  apply bool_decide_eq_true in Hnd. intros [= <- <-].
  split; [done|]. by eexists _, _.
Qed.

Lemma construct_ok env clf w c w' :
  construct env clf w = (Ok c, w') → w' = w ∧ c = clf ∧ env_construct env clf = true.
Proof.
  unfold construct. destruct (env_construct env clf); [|discriminate].
  by intros [= <- <-].
Qed.

Lemma build_classifier_ok env clf_name p wc tc ac w clf w' :
  build_classifier env clf_name p wc tc ac w = (Ok clf, w') →
  w' = w ∧ (clf_name = "tpot" ∨ clf_name = "autosklearn") ∧
  env_construct env clf = true ∧
  ∃ a b, wc = JObj a ∧ (if String.eqb clf_name "tpot" then tc else ac) = JObj b ∧
         NoDup ("preprocessor" :: map fst a ++ map fst b) ∧
         clf = (if String.eqb clf_name "tpot" then TPOTWrapper else AutoSklearnWrapper)
                 p (a ++ b).
Proof.
  unfold build_classifier.
  destruct (String.eqb clf_name "tpot") eqn:Ht.
  - intros (kw & w1 & Hkw & Hc)%bind_ok_inv.
    apply keyword_args_ok in Hkw as (-> & a & b & -> & -> & -> & Hnd).
    apply construct_ok in Hc as (-> & -> & Hc).
    apply String.eqb_eq in Ht. split; [done|]. split; [by left|]. split; [done|].
    by exists a, b.
  - destruct (String.eqb clf_name "autosklearn") eqn:Ha; [|discriminate].
    intros (kw & w1 & Hkw & Hc)%bind_ok_inv.
    apply keyword_args_ok in Hkw as (-> & a & b & -> & -> & -> & Hnd).
    apply construct_ok in Hc as (-> & -> & Hc).
    apply String.eqb_eq in Ha. split; [done|]. split; [by right|]. split; [done|].
    by exists a, b.
Qed.

Lemma evaluate_ok env task_id clf w r w' :
  evaluate env task_id clf w = (Ok r, w') →
  ∃ tk rn,
    env_get_task env (w_trace w) task_id = Some tk ∧
    env_run_model env (w_trace w ++ [EvGetTask task_id]) tk clf = Some rn ∧
    env_publish env (w_trace w ++ [EvGetTask task_id; EvRunModel tk]) rn = Some r.1 ∧
    r.2 = run_url env r.1 ∧
    w' = add_events [EvGetTask task_id; EvRunModel tk; EvPublish rn] w.
Proof.
  unfold evaluate, get_task, run_model_on_task, publish.
  intros (tk & w1 & (Htk & ->)%call_ok_inv & H1)%bind_ok_inv.
  apply bind_ok_inv in H1 as (rn & w2 & (Hrn & ->)%call_ok_inv & H2).
  apply bind_ok_inv in H2 as (id & w3 & (Hid & ->)%call_ok_inv & H3).
  injection H3 as <- <-. simpl in Hrn, Hid. rewrite <- app_assoc in Hid.
  exists tk, rn. split; [done|]. split; [done|]. split; [done|]. split; [done|].
  rewrite !add_events_add. done.
Qed.

(** X14: what a returning [run_job] has done.  When [run_job] returns
    [(id, url)], the classifier name was ["tpot"] or ["autosklearn"] and the
    preprocessor absent or ["default"]; the two option values were
    mappings whose keywords, with [preprocessor], are all different; the
    wrapper's constructor accepted them, wrapper options first; after the
    optional key assignment and the preprocessor's fetches the calls were
    exactly: the task fetched (again), that wrapper run on it, the run
    published; [id] is what publishing answered and [url] is the server
    address followed by ["/json/run/"] and [id] in decimal. *)
Theorem run_job_returns_published_run env clf_name task_id wc tc ac pre apikey w id url w' :
  run_job env clf_name task_id wc tc ac pre apikey w = (Ok (id, url), w') →
  (clf_name = "tpot" ∨ clf_name = "autosklearn") ∧
  (pre = None ∨ pre = Some "default") ∧
  url = env_server env +:+ "/json/run/" +:+ str_of_Z id ∧
  ∃ p a b tk rn,
    wc = JObj a ∧ (if String.eqb clf_name "tpot" then tc else ac) = JObj b ∧
    NoDup ("preprocessor" :: map fst a ++ map fst b) ∧
    let clf := (if String.eqb clf_name "tpot" then TPOTWrapper else AutoSklearnWrapper)
                 p (a ++ b) in
    let before :=
      w_trace w ++ apikey_events apikey
      ++ match pre with
         | None => []
         | Some _ => (fetch_run env (w_trace w ++ apikey_events apikey) task_id).2
         end in
    env_construct env clf = true ∧
    env_run_model env (before ++ [EvGetTask task_id]) tk clf = Some rn ∧
    env_publish env (before ++ [EvGetTask task_id; EvRunModel tk]) rn = Some id ∧
    w_trace w' = before ++ [EvGetTask task_id; EvRunModel tk; EvPublish rn].
Proof.
  rewrite run_job_steps.
  rewrite (bind_ok _ _ _ _ _ (run_job_assigns apikey w)).
  pose proof (trace_after_assignment apikey w) as Hw0.
  set (w0 := add_events (apikey_events apikey) _) in *. clearbody w0.
  intros (p & w1 & Hp & H1)%bind_ok_inv.
  apply bind_ok_inv in H1 as (clf & w2 & Hclf & Hev).
  apply build_classifier_ok in Hclf as (-> & Hname & Hacc & a & b & Hwc & Hcfg & Hnd & ->).
  apply evaluate_ok in Hev as (tk & rn & Htk & Hrn & Hid & Hurl & ->).
  simpl in Hid, Hurl.
  assert (Hw1 : (pre = None ∨ pre = Some "default") ∧
                w_trace w1 = w_trace w ++ apikey_events apikey
                  ++ match pre with
                     | None => []
                     | Some _ => (fetch_run env (w_trace w ++ apikey_events apikey) task_id).2
                     end).
  { apply get_preprocessor_ok in Hp as [(-> & _ & ->)|(-> & ind & _ & _ & ->)].
    - split; [by left|]. by rewrite Hw0, app_nil_r.
    - split; [by right|]. simpl. by rewrite Hw0, app_assoc. }
  destruct Hw1 as [Hpre Hw1].
  split; [done|]. split; [done|]. split; [done|].
  exists p, a, b, tk, rn. split; [done|]. split; [done|]. split; [done|].
  intros clf before. subst clf. unfold before. rewrite <- Hw1. done.
Qed.

Lemma run_job_returns_published_run_witness :
  run_job env_up "autosklearn" (IdInt 31) wrapper_options tpot_options autosklearn_options
    (Some "default") (Some "key") world0
  = (Ok (7, "https://www.openml.org/api/v1/json/run/7"),
     mkWorld ∅ ∅ "key"
       [EvSetApikey "key"; EvGetTask (IdInt 31); EvGetDataset (Task 0); EvGetData (Dataset 0);
        EvGetTask (IdInt 31); EvRunModel (Task 0); EvPublish (Run 0)])
  ∧ ∃ p tk rn,
      env_run_model env_up
        ([EvSetApikey "key"; EvGetTask (IdInt 31); EvGetDataset (Task 0);
          EvGetData (Dataset 0); EvGetTask (IdInt 31)]) tk
        (AutoSklearnWrapper p
           [("refit", JBool true); ("time_left_for_this_task", JInt 3600);
            ("include", JList [JStr "sgd"; JNull])]) = Some rn.
Proof.
  assert (Hrun :
    run_job env_up "autosklearn" (IdInt 31) wrapper_options tpot_options autosklearn_options
      (Some "default") (Some "key") world0
    = (Ok (7, "https://www.openml.org/api/v1/json/run/7"),
       mkWorld ∅ ∅ "key"
         [EvSetApikey "key"; EvGetTask (IdInt 31); EvGetDataset (Task 0);
          EvGetData (Dataset 0);
          EvGetTask (IdInt 31); EvRunModel (Task 0); EvPublish (Run 0)])).
  { vm_compute. reflexivity. }
  split; [exact Hrun|].
  destruct (run_job_returns_published_run _ _ _ _ _ _ _ _ _ _ _ _ Hrun)
    as (_ & _ & _ & p & a & b & tk & rn & Ha & Hb & _ & _ & Hrn & _).
  injection Ha as <-. injection Hb as <-.
  exists p, tk, rn. exact Hrn.
Defined.

(** ** Keywords that clash *)

Lemma keyword_args_clash a b w :
  keywords_clash a b → keyword_args a b w = (Raise TypeError, w).
Proof.
  unfold keywords_clash, keyword_args.
  destruct a; try reflexivity. destruct b; try reflexivity.
  intros Hclash. by rewrite bool_decide_eq_false_2.
Qed.

Lemma build_classifier_clash env clf_name p wc tc ac w :
  clf_name = "tpot" ∨ clf_name = "autosklearn" →
  keywords_clash wc (if String.eqb clf_name "tpot" then tc else ac) →
  build_classifier env clf_name p wc tc ac w = (Raise TypeError, w).
Proof.
  unfold build_classifier. intros [->| ->]; simpl; intros Hclash.
  - by rewrite (bind_raise _ _ _ _ _ (keyword_args_clash _ _ _ Hclash)).
  - by rewrite (bind_raise _ _ _ _ _ (keyword_args_clash _ _ _ Hclash)).
Qed.

(** X15: keywords that clash stop the run before the model is run.  For
    the classifier ["tpot"] or ["autosklearn"], when the wrapper options or
    the classifier's options are no mapping, or a keyword occurs in both,
    or one of them has the keyword [preprocessor], the wrapper's
    constructor call fails with a [TypeError]: [run_job] makes the key
    assignment and the preprocessor's fetches, fails with that error (or
    with the preprocessor's own), and neither runs a model nor publishes. *)
Theorem run_job_keyword_clash env clf_name task_id wc tc ac pre apikey w :
  clf_name = "tpot" ∨ clf_name = "autosklearn" →
  keywords_clash wc (if String.eqb clf_name "tpot" then tc else ac) →
  let w0 := add_events (apikey_events apikey)
              (if truthy apikey then set_apikey (default "" apikey) w else w) in
  run_job env clf_name task_id wc tc ac pre apikey w
  = match pre with
    | None => (Raise TypeError, w0)
    | Some name =>
        (match (fetch_run env (w_trace w0) task_id).1 with
         | None => Raise CollaboratorError
         | Some _ =>
             if String.eqb name "default" then Raise TypeError
             else Raise (unknown_preprocessor name)
         end,
         add_events (fetch_run env (w_trace w0) task_id).2 w0)
    end.
Proof.
  intros Hname Hclash w0. rewrite run_job_steps.
  rewrite (bind_ok _ _ _ _ _ (run_job_assigns apikey w)). fold w0.
  destruct pre as [name|].
  - unfold mbind at 1, M_bind at 1. rewrite get_preprocessor_some.
    destruct (fetch_run env (w_trace w0) task_id).1 as [ind|]; [|reflexivity].
    destruct (String.eqb name "default"); [|reflexivity].
    by rewrite (bind_raise _ _ _ _ _ (build_classifier_clash _ _ _ _ _ _ _ Hname Hclash)).
  - unfold mbind at 1, M_bind at 1. rewrite get_preprocessor_none.
    by rewrite (bind_raise _ _ _ _ _ (build_classifier_clash _ _ _ _ _ _ _ Hname Hclash)).
Qed.

Lemma run_job_keyword_clash_witness :
  keywords_clash (JObj [("verbosity", JInt 0)]) tpot_options ∧
  run_job env_up "tpot" (IdInt 31) (JObj [("verbosity", JInt 0)]) tpot_options
    autosklearn_options (Some "default") None world0
  = (Raise TypeError,
     mkWorld ∅ ∅ "" [EvGetTask (IdInt 31); EvGetDataset (Task 0); EvGetData (Dataset 0)]).
Proof.
  assert (Hclash : keywords_clash (JObj [("verbosity", JInt 0)]) tpot_options).
  { simpl. intros Hnd. apply NoDup_cons in Hnd as [_ Hnd].
    apply NoDup_cons in Hnd as [Hin _]. apply Hin. left. }
  split; [exact Hclash|].
  rewrite (run_job_keyword_clash env_up "tpot" (IdInt 31) (JObj [("verbosity", JInt 0)])
             tpot_options autosklearn_options (Some "default") None world0
             (or_introl eq_refl) Hclash).
  reflexivity.
Defined.

(** ** The API key between runs *)

Lemma emits_get_preprocessor (ok : event → bool) env task_id name :
  (∀ e, is_service_call e = true → ok e = true) →
  emits ok (get_preprocessor env task_id name).
Proof.
  intros Hok. destruct name as [name|]; [|apply emits_ret].
  unfold get_preprocessor.
  do 3 (apply emits_bind; [by apply emits_call, Hok|intros ?]).
  destruct (String.eqb name "default"); [apply emits_ret|apply emits_raise].
Qed.

Lemma emits_build_classifier ok env clf_name p wc tc ac :
  emits ok (build_classifier env clf_name p wc tc ac).
Proof.
  assert (∀ a b, emits ok (keyword_args a b)) as Hkw.
  { intros a b. unfold keyword_args.
    destruct a; try apply emits_raise. destruct b; try apply emits_raise.
    destruct (bool_decide _); [apply emits_ret|apply emits_raise]. }
  assert (∀ clf, emits ok (construct env clf)) as Hc.
  { intros clf. unfold construct.
    destruct (env_construct env clf); [apply emits_ret|apply emits_raise]. }
  unfold build_classifier. destruct (String.eqb clf_name "tpot").
  - apply emits_bind; [apply Hkw|intros kw; apply Hc].
  - destruct (String.eqb clf_name "autosklearn"); [|apply emits_raise].
    apply emits_bind; [apply Hkw|intros kw; apply Hc].
Qed.

Lemma emits_evaluate (ok : event → bool) env task_id clf :
  (∀ e, is_service_call e = true → ok e = true) →
  emits ok (evaluate env task_id clf).
Proof.
  intros Hok. unfold evaluate.
  do 3 (apply emits_bind; [by apply emits_call, Hok|intros ?]).
  apply emits_ret.
Qed.

(** What [run_job] does after the key assignment. *)
Lemma emits_run_job_body (ok : event → bool) env clf_name task_id wc tc ac pre :
  (∀ e, is_service_call e = true → ok e = true) →
  emits ok (p ← get_preprocessor env task_id pre;
            clf ← build_classifier env clf_name p wc tc ac;
            evaluate env task_id clf).
Proof.
  intros Hok. apply emits_bind; [by apply emits_get_preprocessor|intros p].
  apply emits_bind; [apply emits_build_classifier|intros clf].
  by apply emits_evaluate.
Qed.

Lemma run_job_apikey env clf_name task_id wc tc ac pre apikey w :
  w_apikey (run_job env clf_name task_id wc tc ac pre apikey w).2
  = (if truthy apikey then default "" apikey else w_apikey w)
  ∧ ∃ evs,
      w_trace (run_job env clf_name task_id wc tc ac pre apikey w).2
        = w_trace w ++ apikey_events apikey ++ evs
      ∧ forallb is_service_call evs = true.
Proof.
  rewrite run_job_steps.
  rewrite (bind_ok _ _ _ _ _ (run_job_assigns apikey w)).
  match goal with |- context [(?m ≫= ?k) ?w0] =>
    destruct (emits_run_job_body is_service_call env clf_name task_id wc tc ac pre
                (λ e H, H) w0) as [Hkey (evs & Htr & Hevs)] end.
  rewrite Hkey, Htr. split.
  - by destruct (truthy apikey).
  - exists evs. rewrite trace_after_assignment, <- app_assoc. done.
Qed.

(** X16: the API key outlives the run that set it.  A run that is given
    no key, or the empty one, never assigns the client's key: all it adds
    to the trace are calls to the tracking service.  So after a run that
    was given a key, a later run without one still leaves that key in the
    client's configuration, however the two runs end. *)
Theorem apikey_outlives_the_run env key apikey
    clf1 task1 wc1 tc1 ac1 pre1 clf2 task2 wc2 tc2 ac2 pre2 w :
  key ≠ "" → truthy apikey = false →
  let w1 := (run_job env clf1 task1 wc1 tc1 ac1 pre1 (Some key) w).2 in
  let w2 := (run_job env clf2 task2 wc2 tc2 ac2 pre2 apikey w1).2 in
  w_apikey w2 = key ∧
  ∃ evs, w_trace w2 = w_trace w1 ++ evs ∧ forallb is_service_call evs = true.
Proof.
  intros Hkey Hnone w1 w2.
  destruct (run_job_apikey env clf2 task2 wc2 tc2 ac2 pre2 apikey w1)
    as [Hk2 (evs & Htr & Hevs)].
  destruct (run_job_apikey env clf1 task1 wc1 tc1 ac1 pre1 (Some key) w) as [Hk1 _].
  fold w1 in Hk1, Hk2, Htr. fold w2 in Hk2, Htr.
  unfold apikey_events in Htr. rewrite Hnone in Hk2, Htr.
  assert (truthy (Some key) = true) as Ht.
  { simpl. by apply negb_true_iff, String.eqb_neq. }
  rewrite Ht in Hk1. simpl in Hk1.
  split; [congruence|]. by exists evs.
Qed.

Lemma apikey_outlives_the_run_witness :
  "key" ≠ "" ∧ truthy (Some "") = false ∧
  w_apikey
    (run_job env_up "autosklearn" (IdInt 3) (JObj []) (JObj []) (JObj []) None (Some "")
       (run_job env_up "tpot" (IdInt 31) (JObj []) (JObj []) (JObj []) None (Some "key")
          world0).2).2 = "key".
Proof.
  split; [discriminate|]. split; [reflexivity|].
  apply (apikey_outlives_the_run env_up "key" (Some "")
           "tpot" (IdInt 31) (JObj []) (JObj []) (JObj []) None
           "autosklearn" (IdInt 3) (JObj []) (JObj []) (JObj []) None world0);
    [discriminate|reflexivity].
Defined.

(** ** The command line: configuration and classifier *)

Lemma cli_checks_pass task_id config w text :
  task_id ≠ "" → w_files w !! config = Some text →
  (if negb (truthy (Some task_id)) then raise (ClickException "Please specify a task id.")
   else
     present ← Os.isfile config;
     if negb present then raise (ClickException "The configuration file does not exist.")
     else mret tt) w = (Ok tt, w).
Proof.
  intros Htask Hfile.
  assert (truthy (Some task_id) = true) as ->.
  { simpl. by apply negb_true_iff, String.eqb_neq. }
  change (negb true) with false. cbv iota.
  unfold mbind, M_bind, Os.isfile, Os.is_file. rewrite Hfile. reflexivity.
Qed.

Lemma json_load_undecodable p text w :
  w_files w !! p = Some text → Json.loads text = None →
  json_load p w = (Raise JSONDecodeError, w).
Proof.
  intros Hfile Hloads. unfold json_load, mbind, M_bind, Os.read.
  by rewrite Hfile, Hloads.
Qed.

(** With a task id and a configuration holding the three keys, [cli]
    announces the run, runs the job and stores its record. *)
Lemma cli_runs_job env classifier task_id config preprocessor apikey log w
    text kvs tpot autosklearn wrapper :
  task_id ≠ "" →
  w_files w !! config = Some text →
  Json.loads text = Some (JObj kvs) →
  dict_get "tpot" kvs = Some tpot →
  dict_get "autosklearn" kvs = Some autosklearn →
  dict_get "wrapper" kvs = Some wrapper →
  cli env classifier (Some task_id) config preprocessor apikey log w
  = (record ← run_job env classifier (IdStr task_id) wrapper tpot autosklearn
                (Some preprocessor) apikey;
     store_output log record.1 record.2)
      (log_event (announcement classifier task_id) w).
Proof.
  intros Htask Hfile Hloads Ht Ha Hw. unfold cli.
  rewrite (bind_ok _ _ _ _ _ (cli_checks_pass _ _ _ _ Htask Hfile)).
  rewrite (bind_ok _ _ _ _ _ (json_load_written _ _ _ _ Hfile Hloads)).
  unfold getitem. rewrite Ht, Ha, Hw.
  unfold mbind at 1, M_bind at 1, mret at 1, M_ret at 1.
  unfold mbind at 1, M_bind at 1, mret at 1, M_ret at 1.
  unfold mbind at 1, M_bind at 1, mret at 1, M_ret at 1.
  unfold mbind at 1, M_bind at 1, print at 1, modify at 1.
  reflexivity.
Qed.

Lemma no_json_start_loads text : no_json_start text = true → Json.loads text = None.
Proof.
  unfold no_json_start, Json.loads.
  destruct (Json.skip_ws text) as [|c r]; [reflexivity|].
  intros Hc.
  assert (Json.parse_value (S (String.length text)) (String c r) = None) as ->; [|done].
  destruct c as [[] [] [] [] [] [] [] []];
    vm_compute in Hc; try discriminate Hc; reflexivity.
Qed.

(** X17: what [cli] does with a configuration file it cannot use.  With a
    task id and an existing configuration file, [cli] fails with
    [JSONDecodeError] when the file is empty or blank or begins with a
    character no JSON value begins with, with [TypeError] when it holds a
    JSON value that is no object, and with [KeyError] for the first of
    ["tpot"], ["autosklearn"], ["wrapper"] (in this order) the object
    lacks.  In each case nothing has happened yet: nothing is printed, no
    call is made, no file is written. *)
Theorem cli_rejects_unusable_config env classifier task_id config preprocessor apikey log
    w text :
  task_id ≠ "" → w_files w !! config = Some text →
  (no_json_start text = true →
     cli env classifier (Some task_id) config preprocessor apikey log w
     = (Raise JSONDecodeError, w)) ∧
  (∀ v, Json.loads text = Some v → (∀ kvs, v ≠ JObj kvs) →
     cli env classifier (Some task_id) config preprocessor apikey log w
     = (Raise TypeError, w)) ∧
  (∀ kvs k, Json.loads text = Some (JObj kvs) → first_missing kvs = Some k →
     cli env classifier (Some task_id) config preprocessor apikey log w
     = (Raise (KeyError k), w)).
Proof.
  intros Htask Hfile.
  pose proof (cli_checks_pass _ _ _ _ Htask Hfile) as Hchecks.
  split; [|split].
  - intros Hloads%no_json_start_loads. unfold cli. rewrite (bind_ok _ _ _ _ _ Hchecks).
    by rewrite (bind_raise _ _ _ _ _ (json_load_undecodable _ _ _ Hfile Hloads)).
  - intros v Hloads Hv. unfold cli. rewrite (bind_ok _ _ _ _ _ Hchecks).
    rewrite (bind_ok _ _ _ _ _ (json_load_written _ _ _ _ Hfile Hloads)).
    destruct v as [| | | | |kvs]; try reflexivity. by destruct (Hv kvs).
  - intros kvs k Hloads Hk. unfold cli. rewrite (bind_ok _ _ _ _ _ Hchecks).
    rewrite (bind_ok _ _ _ _ _ (json_load_written _ _ _ _ Hfile Hloads)).
    unfold first_missing in Hk. simpl in Hk. unfold getitem.
    destruct (dict_get "tpot" kvs); simpl in Hk; [|by injection Hk as <-].
    unfold mbind at 1, M_bind at 1, mret at 1, M_ret at 1.
    destruct (dict_get "autosklearn" kvs); simpl in Hk; [|by injection Hk as <-].
    unfold mbind at 1, M_bind at 1, mret at 1, M_ret at 1.
    destruct (dict_get "wrapper" kvs); simpl in Hk; [discriminate|by injection Hk as <-].
Qed.

Lemma cli_rejects_unusable_config_witness :
  "31" ≠ "" ∧
  w_files (world_with_config config_without_wrapper) !! "config.json"
    = Some config_without_wrapper ∧
  Json.loads config_without_wrapper
    = Some (JObj [("tpot", JObj []); ("autosklearn", JObj [])]) ∧
  first_missing [("tpot", JObj []); ("autosklearn", JObj [])] = Some "wrapper" ∧
  cli env_up "tpot" (Some "31") "config.json" "default" None "log.json"
    (world_with_config config_without_wrapper)
  = (Raise (KeyError "wrapper"), world_with_config config_without_wrapper).
Proof.
  split; [discriminate|]. split; [reflexivity|].
  split; [vm_compute; reflexivity|]. split; [reflexivity|].
  destruct (cli_rejects_unusable_config env_up "tpot" "31" "config.json" "default" None
              "log.json" (world_with_config config_without_wrapper) config_without_wrapper)
    as (_ & _ & Hkey); [discriminate|reflexivity|].
  apply (Hkey [("tpot", JObj []); ("autosklearn", JObj [])] "wrapper");
    [vm_compute; reflexivity|reflexivity].
Defined.

Lemma first_missing_none kvs :
  first_missing kvs = None →
  ∃ tpot autosklearn wrapper,
    dict_get "tpot" kvs = Some tpot ∧ dict_get "autosklearn" kvs = Some autosklearn
    ∧ dict_get "wrapper" kvs = Some wrapper.
Proof.
  unfold first_missing. simpl.
  destruct (dict_get "tpot" kvs) as [t|]; [|discriminate].
  destruct (dict_get "autosklearn" kvs) as [a|]; [|discriminate].
  destruct (dict_get "wrapper" kvs) as [wr|]; [|discriminate].
  intros _. by exists t, a, wr.
Qed.

(** X18: [cli] with an unknown classifier name.  With a task id, a usable
    configuration and a classifier name other than ["tpot"] and
    ["autosklearn"], [cli] announces the run, assigns the key if one is
    given, and still fetches the task, its dataset and the indicator for
    the preprocessor; only then does it fail: with the unknown-classifier
    error for the preprocessor ["default"], with the unknown-preprocessor
    error for another one, with the collaborator's when a fetch fails.
    Nothing is stored: every file is as before. *)
Theorem cli_unknown_classifier env classifier task_id config preprocessor apikey log
    w text kvs :
  task_id ≠ "" → w_files w !! config = Some text →
  Json.loads text = Some (JObj kvs) → first_missing kvs = None →
  classifier ≠ "tpot" → classifier ≠ "autosklearn" →
  let r := cli env classifier (Some task_id) config preprocessor apikey log w in
  let fetched :=
    fetch_run env (w_trace w ++ announcement classifier task_id :: apikey_events apikey)
      (IdStr task_id) in
  r.1 = match fetched.1 with
        | None => Raise CollaboratorError
        | Some _ =>
            if String.eqb preprocessor "default" then Raise (unknown_classifier classifier)
            else Raise (unknown_preprocessor preprocessor)
        end ∧
  w_trace r.2
    = w_trace w ++ announcement classifier task_id :: apikey_events apikey ++ fetched.2 ∧
  w_files r.2 = w_files w.
Proof.
  intros Htask Hfile Hloads Hkeys Ht Ha.
  destruct (first_missing_none kvs Hkeys) as (tpot & autosklearn & wrapper & Hkt & Hka & Hkw).
  rewrite (cli_runs_job env classifier task_id config preprocessor apikey log w text kvs
             tpot autosklearn wrapper Htask Hfile Hloads Hkt Hka Hkw).
  pose proof (run_job_other env classifier (IdStr task_id) wrapper tpot autosklearn
                (Some preprocessor) apikey (log_event (announcement classifier task_id) w)
                Ht Ha) as Hrun.
  pose proof (trace_after_assignment apikey (log_event (announcement classifier task_id) w))
    as Hw0.
  assert (Hf0 : w_files (add_events (apikey_events apikey)
                           (if truthy apikey
                            then set_apikey (default "" apikey)
                                   (log_event (announcement classifier task_id) w)
                            else log_event (announcement classifier task_id) w))
                = w_files w).
  { by destruct (truthy apikey). }
  cbv zeta in Hrun.
  set (w0 := add_events (apikey_events apikey) _) in *. clearbody w0.
  simpl in Hw0. rewrite <- app_assoc in Hw0. simpl in Hw0.
  rewrite Hw0 in Hrun. cbv zeta.
  destruct (fetch_run env _ (IdStr task_id)).1 as [ind|];
    [destruct (String.eqb preprocessor "default")|];
    rewrite (bind_raise _ _ _ _ _ Hrun); simpl; rewrite Hw0, Hf0, <- app_assoc; done.
Qed.

Lemma cli_unknown_classifier_witness :
  let r := cli env_up "forest" (Some "31") "config.json" "default" None "log.json"
             (world_with_config config_example) in
  r.1 = Raise (unknown_classifier "forest") ∧
  w_trace r.2
    = [announcement "forest" "31"; EvGetTask (IdStr "31"); EvGetDataset (Task 0);
       EvGetData (Dataset 0)] ∧
  w_files r.2 = w_files (world_with_config config_example).
Proof.
  apply (cli_unknown_classifier env_up "forest" "31" "config.json" "default" None "log.json"
           (world_with_config config_example) config_example
           [("autosklearn", JObj []); ("tpot", JObj []); ("wrapper", JObj [])]);
    [discriminate|reflexivity|vm_compute; reflexivity|reflexivity|discriminate|discriminate].
Defined.

(** ** The log file, in general *)

Lemma dict_get_set_eq {K V} `{EqDecision K} (k : K) (v : V) d :
  dict_get k (dict_set k v d) = Some v.
Proof.
  induction d as [|[k' v'] d IH]; simpl.
  - by rewrite decide_True.
  - destruct (decide (k = k')) as [->|Hne]; simpl.
    + by rewrite decide_True.
    + by rewrite decide_False.
Qed.

Lemma dict_get_set_ne {K V} `{EqDecision K} (k k' : K) (v : V) d :
  k ≠ k' → dict_get k' (dict_set k v d) = dict_get k' d.
Proof.
  intros Hne. induction d as [|[k0 v0] d IH]; simpl.
  - by rewrite decide_False.
  - destruct (decide (k = k0)) as [->|Hk]; simpl.
    + by rewrite !decide_False.
    + by rewrite IH.
Qed.

Lemma keys_dict_set {K V} `{EqDecision K} (k : K) (v : V) d :
  map fst (dict_set k v d) = if bool_decide (k ∈ map fst d) then map fst d else map fst d ++ [k].
Proof.
  induction d as [|[k' v'] d IH]; [reflexivity|].
  simpl. destruct (decide (k = k')) as [->|Hne]; simpl.
  - rewrite bool_decide_eq_true_2; [done|left].
  - rewrite IH. destruct (bool_decide (k ∈ map fst d)) eqn:Hin.
    + apply bool_decide_eq_true in Hin. rewrite bool_decide_eq_true_2; [done|by right].
    + apply bool_decide_eq_false in Hin. rewrite bool_decide_eq_false_2; [done|].
      by intros [?|?]%elem_of_cons.
Qed.

Lemma NoDup_dict_set {K V} `{EqDecision K} (k : K) (v : V) d :
  NoDup (map fst d) → NoDup (map fst (dict_set k v d)).
Proof.
  intros Hnd. rewrite keys_dict_set.
  destruct (bool_decide (k ∈ map fst d)) eqn:Hin; [done|].
  apply bool_decide_eq_false in Hin.
  apply NoDup_app. split; [done|]. split; [|apply NoDup_singleton].
  intros x Hx ->%list_elem_of_singleton. done.
Qed.

Lemma values_dict_set {K V} `{EqDecision K} (P : V → bool) (k : K) (v : V) d :
  P v = true → forallb (λ kv, P kv.2) d = true →
  forallb (λ kv, P kv.2) (dict_set k v d) = true.
Proof.
  intros Hv. induction d as [|[k' v'] d IH]; simpl; [by rewrite Hv|].
  intros [Hv' Hd]%andb_prop. destruct (decide (k = k')); simpl.
  - by rewrite Hv, Hd.
  - by rewrite Hv', IH.
Qed.

Lemma wf_dict_set k v kvs :
  wf v = true → wf (JObj kvs) = true → wf (JObj (dict_set k v kvs)) = true.
Proof.
  simpl. intros Hv [Hnd Hwf]%andb_prop. apply bool_decide_eq_true in Hnd.
  apply andb_true_intro. split.
  - by apply bool_decide_eq_true, NoDup_dict_set.
  - by apply (values_dict_set wf).
Qed.

Lemma dict_of_pairs_snoc {K V} `{EqDecision K} (pairs : list (K * V)) k v :
  dict_of_pairs (pairs ++ [(k, v)]) = dict_set k v (dict_of_pairs pairs).
Proof. unfold dict_of_pairs. by rewrite foldl_app. Qed.

(** The text of an object whose keys may repeat reads back as the dict of
    its items: for a repeated key the last value stays, at the place of the
    first. *)
Lemma parse_encode_items indent kvs level fuel rest :
  forallb (λ kv, wf kv.2) kvs = true → (size (JObj kvs) ≤ fuel)%nat →
  ends_number rest = true →
  Json.parse_value fuel (Json.encode indent level (JObj kvs) +:+ rest)
  = Some (JObj (dict_of_pairs kvs), rest).
Proof.
  intros Hwf Hfuel Hrest.
  destruct fuel as [|fuel]; [simpl in Hfuel; lia|].
  destruct kvs as [|kv kvs]; [reflexivity|].
  rewrite encode_obj_cons. rewrite !app_assoc_s, app_cons_s, app_nil_l_s.
  simpl in Hwf. apply andb_prop in Hwf as [Hwx Hwxs].
  assert (Hxs : Forall (λ kv, round_trips indent kv.2) kvs).
  { apply Forall_forall. intros x _. apply parse_encode. }
  pose proof (parse_members_encode indent (S level) level kvs Hxs kv fuel rest
                (parse_encode indent kv.2) Hwx Hwxs) as Hparse.
  change ("}" +:+ rest) with (String "}" rest).
  set (body := String.concat _ _ +:+ _) in *.
  assert (Hbody : ∃ r, body = String dquote r).
  { unfold body. destruct kvs; by eexists. }
  destruct Hbody as [r Hbody]. rewrite Hbody in *.
  rewrite parse_value_obj by apply all_ws_newline_indent.
  rewrite Hparse; [done|]. simpl in Hfuel |- *. lia.
Qed.

Lemma loads_encode_items indent kvs :
  forallb (λ kv, wf kv.2) kvs = true →
  Json.loads (Json.encode indent 0 (JObj kvs)) = Some (JObj (dict_of_pairs kvs)).
Proof.
  intros Hwf. unfold Json.loads.
  destruct (encode_head indent 0 (JObj kvs)) as (c & r & Hcr & Hc).
  destruct (value_start_facts c Hc) as (Hws & _).
  pose proof (parse_encode_items indent kvs 0%nat
                (S (String.length (Json.encode indent 0 (JObj kvs)))) "" Hwf) as Hparse.
  rewrite app_nil_r_s in Hparse.
  rewrite Hcr in *. rewrite skip_ws_start by done.
  rewrite Hparse; [reflexivity| |reflexivity].
  pose proof (size_le_length indent (JObj kvs) 0). rewrite Hcr in *. lia.
Qed.

Lemma dumps_dict_update id output kvs :
  Json.dumps_dict (dict_set (KInt id) (JStr output) (map (λ kv, (KStr kv.1, kv.2)) kvs))
  = Json.encode None 0 (JObj (log_items kvs id output)).
Proof.
  rewrite dict_set_fresh.
  - unfold Json.dumps_dict, Json.dumps, log_items. rewrite map_app, map_map.
    f_equal. f_equal. f_equal.
    induction kvs as [|[k v] kvs IH]; [done|]. simpl. f_equal. exact IH.
  - rewrite map_map. simpl. intros (kv & Hkv & _)%list_elem_of_fmap. discriminate.
Qed.

Lemma loads_log_items kvs id output :
  wf (JObj kvs) = true →
  Json.loads (Json.encode None 0 (JObj (log_items kvs id output)))
  = Some (JObj (dict_set (str_of_Z id) (JStr output) kvs)).
Proof.
  intros Hwf. simpl in Hwf. apply andb_prop in Hwf as [Hnd Hwf].
  apply bool_decide_eq_true in Hnd.
  rewrite loads_encode_items.
  - unfold log_items. by rewrite dict_of_pairs_snoc, dict_of_pairs_nodup.
  - unfold log_items. by rewrite forallb_app, Hwf.
Qed.

Lemma store_output_reads w log kvs :
  holds_records w log kvs →
  if Os.is_file w log then json_load log w = (Ok (JObj kvs), w) else kvs = [].
Proof.
  unfold holds_records. rewrite is_file_lookup.
  destruct (w_files w !! log) as [text|] eqn:Hfile; simpl; [|done].
  intros [Hloads _]. by apply json_load_written with (text := text).
Qed.

Lemma wf_held w log kvs : holds_records w log kvs → wf (JObj kvs) = true.
Proof.
  unfold holds_records. destruct (w_files w !! log); [by intros [_ ?]|by intros ->].
Qed.

(** One record stored: the world afterwards, and what the log then holds. *)
Lemma store_output_merge log id output kvs w :
  Os.can_open_w w log = true → holds_records w log kvs →
  let w' := log_event (EvOpenWrite log)
              (set_files (insert log (Json.encode None 0 (JObj (log_items kvs id output)))) w) in
  store_output log id output w = (Ok tt, w') ∧
  holds_records w' log (dict_set (str_of_Z id) (JStr output) kvs).
Proof.
  intros Hopen Hheld w'. split.
  - rewrite (store_output_ok log id output kvs w Hopen (store_output_reads _ _ _ Hheld)).
    unfold w'. by rewrite dumps_dict_update.
  - unfold holds_records, w'. simpl. rewrite lookup_insert_eq.
    pose proof (wf_held _ _ _ Hheld) as Hwf.
    split; [by apply loads_log_items|by apply wf_dict_set].
Qed.

Lemma json_load_held w log kvs text :
  w_files w !! log = Some text → holds_records w log kvs →
  json_load log w = (Ok (JObj kvs), w).
Proof.
  intros Hfile Hheld. unfold holds_records in Hheld. rewrite Hfile in Hheld.
  destruct Hheld as [Hloads _]. by apply json_load_written with (text := text).
Qed.

(** X19: storing a record keeps the records the log held.  When the log
    can be opened for writing and holds a JSON object (or does not exist),
    [store_output] succeeds; the file then holds the text of the old items
    followed by the new record, also when the id was a key already;
    reading it back gives an object in which the id's decimal text maps to
    the output and every other key maps to what it mapped to before; no
    other file changes. *)
Theorem store_output_keeps_earlier_records log id output kvs w :
  Os.can_open_w w log = true → holds_records w log kvs →
  ∃ w' merged,
    store_output log id output w = (Ok tt, w') ∧
    w_files w' = <[log := Json.encode None 0 (JObj (kvs ++ [(str_of_Z id, JStr output)]))]>
                   (w_files w) ∧
    json_load log w' = (Ok (JObj merged), w') ∧
    merged = dict_set (str_of_Z id) (JStr output) kvs ∧
    dict_get (str_of_Z id) merged = Some (JStr output) ∧
    (∀ k, k ≠ str_of_Z id → dict_get k merged = dict_get k kvs) ∧
    length merged = (if is_Some_bool (dict_get (str_of_Z id) kvs)
                     then length kvs else S (length kvs)).
Proof.
  intros Hopen Hheld.
  destruct (store_output_merge log id output kvs w Hopen Hheld) as [Hrun Hheld'].
  eexists _, _. split; [exact Hrun|]. split; [reflexivity|].
  split; [eapply json_load_held; [apply lookup_insert_eq|exact Hheld']|].
  split; [reflexivity|]. split; [apply dict_get_set_eq|].
  split; [intros k Hk; by apply dict_get_set_ne|].
  clear. induction kvs as [|[k v] kvs IH]; [reflexivity|].
  simpl. destruct (decide (str_of_Z id = k)); simpl; [done|].
  rewrite IH. by destruct (dict_get _ kvs).
Qed.

Lemma store_output_keeps_earlier_records_witness :
  Os.can_open_w world_with_log "log.json" = true ∧
  holds_records world_with_log "log.json" [("1", JStr "urlA")] ∧
  ∃ w',
    store_output "log.json" 1 "urlB" world_with_log = (Ok tt, w') ∧
    w_files w' !! "log.json"
      = Some ("{" +:+ quoted "1" +:+ ": " +:+ quoted "urlA" +:+ ", "
              +:+ quoted "1" +:+ ": " +:+ quoted "urlB" +:+ "}") ∧
    json_load "log.json" w' = (Ok (JObj [("1", JStr "urlB")]), w').
Proof.
  assert (Hheld : holds_records world_with_log "log.json" [("1", JStr "urlA")]).
  { unfold holds_records. simpl. split; vm_compute; reflexivity. }
  split; [vm_compute; reflexivity|]. split; [exact Hheld|].
  destruct (store_output_keeps_earlier_records "log.json" 1 "urlB" [("1", JStr "urlA")]
              world_with_log) as (w' & merged & Hrun & Hfiles & Hload & -> & _);
    [vm_compute; reflexivity|exact Hheld|].
  exists w'. split; [exact Hrun|]. split; [|exact Hload].
  rewrite Hfiles, lookup_insert_eq. vm_compute. reflexivity.
Defined.

Lemma store_output_undecodable log id output text w :
  w_files w !! log = Some text → Json.loads text = None →
  store_output log id output w = (Raise JSONDecodeError, w).
Proof.
  intros Hfile Hloads. unfold store_output.
  unfold mbind at 1, M_bind at 1, Os.isfile at 1.
  rewrite is_file_lookup, Hfile. simpl bool_decide. cbv iota.
  by rewrite (bind_raise _ _ _ _ _ (json_load_undecodable _ _ _ Hfile Hloads)).
Qed.

Lemma store_output_no_object log id output text v w :
  w_files w !! log = Some text → Json.loads text = Some v → (∀ kvs, v ≠ JObj kvs) →
  store_output log id output w = (Raise AttributeError, w).
Proof.
  intros Hfile Hloads Hv. unfold store_output.
  unfold mbind at 1, M_bind at 1, Os.isfile at 1.
  rewrite is_file_lookup, Hfile. simpl bool_decide. cbv iota.
  rewrite (bind_ok _ _ _ _ _ (json_load_written _ _ _ _ Hfile Hloads)).
  destruct v as [| | | | |kvs]; try reflexivity. by destruct (Hv kvs).
Qed.

(** X20: a log that holds no JSON object is left as it is.  When the log
    file is empty or blank or begins with a character no JSON value begins
    with, [store_output] fails with [JSONDecodeError]; when it holds a
    JSON value other than an object, with [AttributeError].  Both happen
    before the file is opened for writing: the world, and so the log's
    text, is unchanged, and the record is not stored. *)
Theorem store_output_unusable_log log id output text w :
  w_files w !! log = Some text →
  (no_json_start text = true →
     store_output log id output w = (Raise JSONDecodeError, w)) ∧
  (∀ v, Json.loads text = Some v → (∀ kvs, v ≠ JObj kvs) →
     store_output log id output w = (Raise AttributeError, w)).
Proof.
  intros Hfile. split.
  - intros Hloads%no_json_start_loads. by apply store_output_undecodable with (text := text).
  - intros v. by apply store_output_no_object.
Qed.

Lemma store_output_unusable_log_witness :
  w_files (mkWorld ∅ {["log.json" := "[1, 2]"]} "" []) !! "log.json" = Some "[1, 2]" ∧
  Json.loads "[1, 2]" = Some (JList [JInt 1; JInt 2]) ∧
  store_output "log.json" 7 "url" (mkWorld ∅ {["log.json" := "[1, 2]"]} "" [])
  = (Raise AttributeError, mkWorld ∅ {["log.json" := "[1, 2]"]} "" []) ∧
  no_json_start "" = true ∧
  store_output "log.json" 7 "url" (mkWorld ∅ {["log.json" := ""]} "" [])
  = (Raise JSONDecodeError, mkWorld ∅ {["log.json" := ""]} "" []).
Proof.
  split; [reflexivity|]. split; [vm_compute; reflexivity|].
  split.
  { destruct (store_output_unusable_log "log.json" 7 "url" "[1, 2]"
                (mkWorld ∅ {["log.json" := "[1, 2]"]} "" [])) as [_ Hother]; [reflexivity|].
    apply (Hother (JList [JInt 1; JInt 2])); [vm_compute; reflexivity|discriminate]. }
  split; [reflexivity|].
  destruct (store_output_unusable_log "log.json" 7 "url" ""
              (mkWorld ∅ {["log.json" := ""]} "" [])) as [Hempty _]; [reflexivity|].
  apply Hempty. reflexivity.
Defined.

Lemma run_job_ok_published env clf_name task_id wc tc ac pre apikey w r w' :
  run_job env clf_name task_id wc tc ac pre apikey w = (Ok r, w') →
  w_files w' = w_files w ∧ w_dirs w' = w_dirs w ∧ r.2 = run_url env r.1 ∧
  ∃ evs rn, w_trace w' = w_trace w ++ evs ++ [EvPublish rn]
            ∧ env_publish env (w_trace w ++ evs) rn = Some r.1.
Proof.
  intros Hrun.
  pose proof (touches_nothing _ w (touches_run_job _ env clf_name task_id wc tc ac pre apikey))
    as [Hf Hd].
  rewrite Hrun in Hf, Hd. split; [exact Hf|]. split; [exact Hd|].
  rewrite run_job_steps in Hrun.
  rewrite (bind_ok _ _ _ _ _ (run_job_assigns apikey w)) in Hrun.
  pose proof (trace_after_assignment apikey w) as Hw0.
  set (w0 := add_events (apikey_events apikey) _) in *. clearbody w0.
  apply bind_ok_inv in Hrun as (p & w2 & Hp & H2).
  destruct (emits_get_preprocessor is_service_call env task_id pre (λ e H, H) w0)
    as [_ (evs & Htr & _)].
  rewrite Hp in Htr. simpl in Htr.
  apply bind_ok_inv in H2 as (clf & w3 & Hclf & H3).
  apply build_classifier_ok in Hclf as (-> & _).
  apply evaluate_ok in H3 as (tk & rn & _ & _ & Hid & Hurl & ->).
  rewrite Htr, Hw0, <- !app_assoc in Hid. split; [exact Hurl|].
  exists (apikey_events apikey ++ evs ++ [EvGetTask task_id; EvRunModel tk]), rn. split.
  - simpl. rewrite Htr, Hw0, <- !app_assoc. done.
  - exact Hid.
Qed.

(** X21: [cli] publishes the run before it looks at the log.  When the
    configuration is usable and [run_job] returns, the run is on the
    tracking service by the time the log is read; if the log file then
    cannot be used, [cli] fails, with [JSONDecodeError] for a log that is
    empty or blank or begins with a character no JSON value begins with,
    with [AttributeError] for a log holding a JSON value that is no object;
    the log is left as it was, and the record of the published run is
    stored nowhere. *)
Theorem cli_publishes_before_reading_log env classifier task_id config preprocessor apikey
    log w text kvs tpot autosklearn wrapper logtext e id url w1 :
  task_id ≠ "" →
  w_files w !! config = Some text →
  Json.loads text = Some (JObj kvs) →
  dict_get "tpot" kvs = Some tpot →
  dict_get "autosklearn" kvs = Some autosklearn →
  dict_get "wrapper" kvs = Some wrapper →
  w_files w !! log = Some logtext →
  unusable_log logtext e →
  run_job env classifier (IdStr task_id) wrapper tpot autosklearn (Some preprocessor) apikey
    (log_event (announcement classifier task_id) w) = (Ok (id, url), w1) →
  cli env classifier (Some task_id) config preprocessor apikey log w = (Raise e, w1) ∧
  w_files w1 = w_files w ∧
  ∃ evs rn,
    w_trace w1 = w_trace w ++ announcement classifier task_id :: evs ++ [EvPublish rn] ∧
    env_publish env (w_trace w ++ announcement classifier task_id :: evs) rn = Some id.
Proof.
  intros Htask Hfile Hloads Ht Ha Hw Hlog Hbad Hrun.
  destruct (run_job_ok_published _ _ _ _ _ _ _ _ _ _ _ Hrun)
    as (Hf & _ & _ & evs & rn & Htr & Hid).
  simpl in Hf, Htr, Hid. rewrite <- app_assoc in Htr, Hid. simpl in Htr, Hid.
  split; [|split; [exact Hf|by exists evs, rn]].
  rewrite (cli_runs_job env classifier task_id config preprocessor apikey log w text kvs
             tpot autosklearn wrapper Htask Hfile Hloads Ht Ha Hw).
  rewrite (bind_ok _ _ _ _ _ Hrun). simpl.
  assert (Hlog1 : w_files w1 !! log = Some logtext) by (by rewrite Hf).
  destruct Hbad as [[Hstart ->]|(v & Hv & Hobj & ->)].
  - apply store_output_undecodable with (text := logtext); [done|].
    by apply no_json_start_loads.
  - by apply (store_output_no_object log id url logtext v w1 Hlog1 Hv).
Qed.

(** A log file that exists but is empty. *)
Lemma cli_publishes_before_reading_log_witness :
  unusable_log "" JSONDecodeError ∧
  ∃ w1,
    cli env_up "tpot" (Some "31") "config.json" "default" (Some "key") "log.json"
      (mkWorld ∅ {["config.json" := config_example; "log.json" := ""]} "" [])
    = (Raise JSONDecodeError, w1) ∧
    w_files w1 !! "log.json" = Some "" ∧
    ∃ evs rn, w_trace w1 = announcement "tpot" "31" :: evs ++ [EvPublish rn].
Proof.
  assert (Hbad : unusable_log "" JSONDecodeError) by (by left).
  split; [exact Hbad|].
  set (w := mkWorld ∅ {["config.json" := config_example; "log.json" := ""]} "" []).
  destruct (run_job env_up "tpot" (IdStr "31") (JObj []) (JObj []) (JObj []) (Some "default")
              (Some "key") (log_event (announcement "tpot" "31") w)) as [r w1] eqn:Hrun.
  assert (Hr : (run_job env_up "tpot" (IdStr "31") (JObj []) (JObj []) (JObj [])
                  (Some "default") (Some "key") (log_event (announcement "tpot" "31") w)).1
               = Ok (7, "https://www.openml.org/api/v1/json/run/7")).
  { vm_compute. reflexivity. }
  rewrite Hrun in Hr. simpl in Hr. subst r.
  destruct (cli_publishes_before_reading_log env_up "tpot" "31" "config.json" "default"
              (Some "key") "log.json" w config_example
              [("autosklearn", JObj []); ("tpot", JObj []); ("wrapper", JObj [])]
              (JObj []) (JObj []) (JObj []) "" JSONDecodeError 7
              "https://www.openml.org/api/v1/json/run/7" w1)
    as (Hcli & Hfiles & evs & rn & Htr & _);
    [discriminate|reflexivity|vm_compute; reflexivity|reflexivity|reflexivity|reflexivity
    |reflexivity|exact Hbad|exact Hrun|].
  exists w1. split; [exact Hcli|]. split; [by rewrite Hfiles|].
  exists evs, rn. exact Htr.
Defined.

(** X22: [cli] end to end.  With a task id, a configuration holding the
    three keys, a log that can be written and holds a JSON object (or does
    not exist yet), and a run that returns, [cli] succeeds: the run has
    been published, and the log then holds the records it held before
    together with the new one, the run's id in decimal mapped to the
    server address followed by ["/json/run/"] and the id. *)
Theorem cli_records_the_run env classifier task_id config preprocessor apikey
    log w text kvs tpot autosklearn wrapper records id url w1 :
  task_id ≠ "" →
  w_files w !! config = Some text →
  Json.loads text = Some (JObj kvs) →
  dict_get "tpot" kvs = Some tpot →
  dict_get "autosklearn" kvs = Some autosklearn →
  dict_get "wrapper" kvs = Some wrapper →
  Os.can_open_w w log = true →
  holds_records w log records →
  run_job env classifier (IdStr task_id) wrapper tpot autosklearn (Some preprocessor) apikey
    (log_event (announcement classifier task_id) w) = (Ok (id, url), w1) →
  ∃ w2 rn,
    cli env classifier (Some task_id) config preprocessor apikey log w = (Ok tt, w2) ∧
    EvPublish rn ∈ w_trace w2 ∧
    List.last (w_trace w2) (announcement classifier task_id) = EvOpenWrite log ∧
    json_load log w2
      = (Ok (JObj (dict_set (str_of_Z id)
                     (JStr (env_server env +:+ "/json/run/" +:+ str_of_Z id)) records)), w2) ∧
    ∀ p, p ≠ log → w_files w2 !! p = w_files w !! p.
Proof.
  intros Htask Hfile Hloads Ht Ha Hw Hopen Hheld Hrun.
  destruct (run_job_ok_published _ _ _ _ _ _ _ _ _ _ _ Hrun)
    as (Hf & Hd & Hurl & evs & rn & Htr & _).
  simpl in Hf, Hd, Hurl, Htr.
  assert (Hopen1 : Os.can_open_w w1 log = true).
  { by rewrite (can_open_w_dirs w). }
  assert (Hheld1 : holds_records w1 log records).
  { unfold holds_records in *. by rewrite Hf. }
  destruct (store_output_merge log id url records w1 Hopen1 Hheld1) as [Hstore Hheld2].
  eexists _, rn. split.
  { rewrite (cli_runs_job env classifier task_id config preprocessor apikey log w text kvs
               tpot autosklearn wrapper Htask Hfile Hloads Ht Ha Hw).
    rewrite (bind_ok _ _ _ _ _ Hrun). exact Hstore. }
  split.
  { simpl. rewrite Htr. set_solver. }
  split.
  { simpl. apply last_last. }
  split.
  { subst url. eapply json_load_held; [simpl; apply lookup_insert_eq|exact Hheld2]. }
  intros p Hp. simpl. rewrite lookup_insert_ne by done. by rewrite Hf.
Qed.

Lemma cli_records_the_run_witness :
  ∃ w2,
    cli env_up "tpot" (Some "31") "config.json" "default" (Some "key") "log.json"
      (mkWorld ∅ {["config.json" := config_example; "log.json" := log_text]} "" [])
    = (Ok tt, w2) ∧
    json_load "log.json" w2
    = (Ok (JObj [("1", JStr "urlA"); ("7", JStr "https://www.openml.org/api/v1/json/run/7")]),
       w2).
Proof.
  set (w := mkWorld ∅ {["config.json" := config_example; "log.json" := log_text]} "" []).
  destruct (run_job env_up "tpot" (IdStr "31") (JObj []) (JObj []) (JObj []) (Some "default")
              (Some "key") (log_event (announcement "tpot" "31") w)) as [r w1] eqn:Hrun.
  assert (Hr : (run_job env_up "tpot" (IdStr "31") (JObj []) (JObj []) (JObj [])
                  (Some "default") (Some "key") (log_event (announcement "tpot" "31") w)).1
               = Ok (7, "https://www.openml.org/api/v1/json/run/7")).
  { vm_compute. reflexivity. }
  rewrite Hrun in Hr. simpl in Hr. subst r.
  destruct (cli_records_the_run env_up "tpot" "31" "config.json" "default"
              (Some "key") "log.json" w config_example
              [("autosklearn", JObj []); ("tpot", JObj []); ("wrapper", JObj [])]
              (JObj []) (JObj []) (JObj []) [("1", JStr "urlA")] 7
              "https://www.openml.org/api/v1/json/run/7" w1)
    as (w2 & rn & Hcli & _ & _ & Hload & _);
    [discriminate|reflexivity|vm_compute; reflexivity|reflexivity|reflexivity|reflexivity
    |vm_compute; reflexivity| |exact Hrun|].
  { unfold holds_records. simpl. split; vm_compute; reflexivity. }
  exists w2. split; [exact Hcli|exact Hload].
Defined.

(** X23: two records stored one after the other are both in the log.
    Starting from a log that can be written and holds a JSON object (or
    does not exist), two calls of [store_output] succeed; the log then maps
    the second id to the second output, the first id to the first output
    unless the ids are the same, and every other key to what it mapped to
    at the start. *)
Theorem store_output_twice log id1 output1 id2 output2 records w :
  Os.can_open_w w log = true → holds_records w log records →
  ∃ w1 w2 merged,
    store_output log id1 output1 w = (Ok tt, w1) ∧
    store_output log id2 output2 w1 = (Ok tt, w2) ∧
    json_load log w2 = (Ok (JObj merged), w2) ∧
    dict_get (str_of_Z id2) merged = Some (JStr output2) ∧
    (id1 ≠ id2 → dict_get (str_of_Z id1) merged = Some (JStr output1)) ∧
    (∀ k, k ≠ str_of_Z id1 → k ≠ str_of_Z id2 → dict_get k merged = dict_get k records).
Proof.
  intros Hopen Hheld.
  destruct (store_output_merge log id1 output1 records w Hopen Hheld) as [Hrun1 Hheld1].
  set (w1 := log_event _ _) in *.
  assert (Hopen1 : Os.can_open_w w1 log = true).
  { by rewrite (can_open_w_dirs w). }
  destruct (store_output_merge log id2 output2 _ w1 Hopen1 Hheld1) as [Hrun2 Hheld2].
  eexists _, _, _. split; [exact Hrun1|]. split; [exact Hrun2|].
  split; [eapply json_load_held; [apply lookup_insert_eq|exact Hheld2]|].
  split; [apply dict_get_set_eq|]. split.
  - intros Hne. rewrite dict_get_set_ne, dict_get_set_eq; [done|].
    intros Heq. apply Hne. symmetry. by apply str_of_Z_inj.
  - intros k Hk1 Hk2. rewrite !dict_get_set_ne by done. done.
Qed.

Lemma store_output_twice_witness :
  Os.can_open_w world0 "log.json" = true ∧ holds_records world0 "log.json" [] ∧
  ∃ w1 w2,
    store_output "log.json" 7 "urlA" world0 = (Ok tt, w1) ∧
    store_output "log.json" 8 "urlB" w1 = (Ok tt, w2) ∧
    json_load "log.json" w2 = (Ok (JObj [("7", JStr "urlA"); ("8", JStr "urlB")]), w2).
Proof.
  split; [vm_compute; reflexivity|]. split; [reflexivity|].
  destruct (store_output_twice "log.json" 7 "urlA" 8 "urlB" [] world0)
    as (w1 & w2 & merged & Hrun1 & Hrun2 & Hload & _); [vm_compute; reflexivity|reflexivity|].
  exists w1, w2. split; [exact Hrun1|]. split; [exact Hrun2|].
  assert (Hw1 : w1 = (store_output "log.json" 7 "urlA" world0).2) by (by rewrite Hrun1).
  assert (Hw2 : w2 = (store_output "log.json" 8 "urlB" w1).2) by (by rewrite Hrun2).
  rewrite Hw2, Hw1. vm_compute. reflexivity.
Defined.

(** ** From the generator to the command line *)

(** X24: the configuration file [create_config_file] writes is one [cli]
    accepts.  For JSON-shaped option values, once the file is written a
    [cli] invocation with a task id passes its checks, finds the three
    keys, announces the run and runs the job with the wrapper's, tpot's
    and autosklearn's options in the places [run_job] expects them; the
    options arrive with their keys sorted and are otherwise equal to those
    passed to [create_config_file]. *)
Theorem cli_accepts_created_config env classifier task_id preprocessor apikey log
    file_name tpot autosklearn wrapper w :
  Os.can_open_w w file_name = true →
  wf tpot = true → wf autosklearn = true → wf wrapper = true →
  task_id ≠ "" →
  ∃ w1,
    create_config_file file_name tpot autosklearn wrapper w = (Ok file_name, w1) ∧
    cli env classifier (Some task_id) file_name preprocessor apikey log w1
    = (record ← run_job env classifier (IdStr task_id) (Json.sort_keys wrapper)
                  (Json.sort_keys tpot) (Json.sort_keys autosklearn)
                  (Some preprocessor) apikey;
       store_output log record.1 record.2)
        (log_event (announcement classifier task_id) w1) ∧
    json_eq wrapper (Json.sort_keys wrapper) ∧ json_eq tpot (Json.sort_keys tpot) ∧
    json_eq autosklearn (Json.sort_keys autosklearn).
Proof.
  intros Hopen Ht Ha Hw Htask.
  set (obj := JObj [("tpot", tpot); ("autosklearn", autosklearn); ("wrapper", wrapper)]).
  assert (Hwf : wf obj = true).
  { simpl. by rewrite Ht, Ha, Hw. }
  exists (log_event (EvOpenWrite file_name)
            (set_files (insert file_name (Json.dumps (Some 4%nat) true obj)) w)).
  split.
  { unfold create_config_file.
    rewrite (bind_ok _ _ _ _ _ (open_w_ok _ _ Hopen)).
    by rewrite (bind_ok _ _ _ _ _ (write_opened _ _ _)). }
  split; [|repeat split; apply json_eq_sort_keys].
  apply cli_runs_job with (text := Json.dumps (Some 4%nat) true obj)
                          (kvs := [("autosklearn", Json.sort_keys autosklearn);
                                   ("tpot", Json.sort_keys tpot);
                                   ("wrapper", Json.sort_keys wrapper)]);
    try done.
  - simpl. apply lookup_insert_eq.
  - rewrite <- sort_keys_config. by apply (loads_dumps _ true).
Qed.

Lemma cli_accepts_created_config_witness :
  ∃ w1 w2,
    create_config_file "config.json" tpot_options autosklearn_options wrapper_options world0
      = (Ok "config.json", w1) ∧
    cli env_up "tpot" (Some "31") "config.json" "default" None "log.json" w1 = (Ok tt, w2) ∧
    w_files w2 !! "log.json"
      = Some ("{" +:+ quoted "7" +:+ ": "
              +:+ quoted "https://www.openml.org/api/v1/json/run/7" +:+ "}").
Proof.
  destruct (cli_accepts_created_config env_up "tpot" "31" "default" None "log.json"
              "config.json" tpot_options autosklearn_options wrapper_options world0)
    as (w1 & Hmade & Hcli & _); [vm_compute; reflexivity..|discriminate|].
  assert (Hw1 : w1 = (create_config_file "config.json" tpot_options autosklearn_options
                        wrapper_options world0).2) by (by rewrite Hmade).
  exists w1, (cli env_up "tpot" (Some "31") "config.json" "default" None "log.json" w1).2.
  split; [exact Hmade|].
  rewrite Hcli, Hw1. split; vm_compute; reflexivity.
Defined.

(** ** Constructing the benchmark *)

Lemma init_present h py jd cf w :
  Os.exists_ jd w = (Ok true, w) → init h py jd cf w = (Ok (mkBenchmark py jd cf h), w).
Proof. intros Hex. unfold init. by rewrite (bind_ok _ _ _ _ _ Hex). Qed.

(** X25: constructing a benchmark is harmless where its path exists, and
    can be repeated.  When [jobs_dir] names something that exists, a
    directory or a regular file, the constructor creates nothing and
    returns the benchmark; and after a constructor has returned, any later
    construction with the same [jobs_dir] returns too and leaves the world
    as it is. *)
Theorem init_can_be_repeated h py jd cf h' py' cf' w :
  (Os.exists_ jd w = (Ok true, w) →
     init h py jd cf w = (Ok (mkBenchmark py jd cf h), w)) ∧
  (∀ b w1, init h py jd cf w = (Ok b, w1) →
     init h' py' jd cf' w1 = (Ok (mkBenchmark py' jd cf' h'), w1)).
Proof.
  split; [apply init_present|].
  intros b w1 Hinit. apply init_present.
  destruct (init_spec h py jd cf w) as (_ & _ & _ & Hok).
  rewrite Hinit in Hok. by destruct (Hok b eq_refl) as [_ Hex].
Qed.

Lemma init_can_be_repeated_witness :
  ∃ w1,
    init "#!/bin/sh" "python3" "out/jobs" "config.json" world0
      = (Ok (mkBenchmark "python3" "out/jobs" "config.json" "#!/bin/sh"), w1) ∧
    init "#!/bin/bash" "python" "out/jobs" "other.json" w1
      = (Ok (mkBenchmark "python" "out/jobs" "other.json" "#!/bin/bash"), w1).
Proof.
  destruct (init "#!/bin/sh" "python3" "out/jobs" "config.json" world0) as [r w1] eqn:Hinit.
  assert (Hr : (init "#!/bin/sh" "python3" "out/jobs" "config.json" world0).1
               = Ok (mkBenchmark "python3" "out/jobs" "config.json" "#!/bin/sh")).
  { vm_compute. reflexivity. }
  rewrite Hinit in Hr. simpl in Hr. subst r.
  exists w1. split; [reflexivity|].
  destruct (init_can_be_repeated "#!/bin/sh" "python3" "out/jobs" "config.json"
              "#!/bin/bash" "python" "other.json" world0) as [_ Hagain].
  exact (Hagain _ _ Hinit).
Defined.

(** X26: a benchmark constructed with the default directory can write its
    jobs.  When the constructor returns for [jobs_dir = "jobs"] in a world
    without a regular file of that name, and neither the classifier names
    nor the task ids contain ["/"] and no directory stands where a script
    goes, [create_jobs] succeeds and writes every script into the
    directory the constructor found or made. *)
Theorem init_then_create_jobs h py cf tasks classifiers w self w1 :
  init h py "jobs" cf w = (Ok self, w1) →
  Os.is_file w "jobs" = false →
  (∀ c, c ∈ default ["tpot"; "autosklearn"] classifiers → Path.has_slash c = false) →
  (∀ t, t ∈ tasks → Path.has_slash (format_id t) = false) →
  (∀ ct, ct ∈ job_pairs (default ["tpot"; "autosklearn"] classifiers) tasks →
     job_path ct ∉ w_dirs w) →
  "jobs" ∈ w_dirs w1 ∧
  create_jobs self tasks classifiers w1
  = (Ok self, write_all self (job_pairs (default ["tpot"; "autosklearn"] classifiers) tasks) w1).
Proof.
  intros Hinit Hnofile Hclf Htasks Hdirs.
  destruct (init_spec h py "jobs" cf w) as (Hf & _ & Hd & Hok).
  rewrite Hinit in Hf, Hd, Hok. simpl in Hf, Hd.
  destruct (Hok self eq_refl) as [_ Hex].
  assert (Hjobs : "jobs" ∈ w_dirs w1).
  { unfold Os.exists_ in Hex. injection Hex as Hex. simpl in Hex.
    unfold Os.is_file in Hex, Hnofile. rewrite Hf, Hnofile, orb_false_r in Hex.
    unfold Os.is_dir in Hex. simpl in Hex. by apply bool_decide_eq_true in Hex. }
  split; [exact Hjobs|].
  rewrite create_jobs_as_loop. erewrite bind_ok; [reflexivity|].
  apply jobs_loop_ok. apply forallb_forall. intros [c t] Hin.
  apply list_elem_of_In in Hin. pose proof (Hdirs _ Hin) as Hdir.
  apply elem_of_job_pairs in Hin as [Hc Ht].
  apply can_open_job_file; [done|by apply Hclf|by apply Htasks|].
  unfold job_path in *. simpl in *.
  destruct Hd as [-> | ->]; [done|].
  intros [?|Hin]%elem_of_union; [done|].
  apply elem_of_union in Hin as [Hin|[]%elem_of_empty].
  apply elem_of_singleton in Hin. unfold job_file in Hin.
  change (Path.strip_slash "jobs") with "jobs" in Hin.
  rewrite !app_cons_s in Hin. discriminate Hin.
Qed.

Lemma init_then_create_jobs_witness :
  ∃ self w1 w2,
    init "#!/bin/sh" "python3" "jobs" "config.json" world0 = (Ok self, w1) ∧
    create_jobs self [IdInt 3; IdInt 31] None w1 = (Ok self, w2) ∧
    w_files w2 !! "jobs/autosklearn_31.sh"
    = Some (job_text self (IdInt 31) "autosklearn" default_preprocessor default_log).
Proof.
  destruct (init "#!/bin/sh" "python3" "jobs" "config.json" world0) as [r w1] eqn:Hinit.
  assert (Hr : (init "#!/bin/sh" "python3" "jobs" "config.json" world0).1 = Ok bench0).
  { vm_compute. reflexivity. }
  rewrite Hinit in Hr. simpl in Hr. subst r.
  destruct (init_then_create_jobs "#!/bin/sh" "python3" "config.json" [IdInt 3; IdInt 31]
              None world0 bench0 w1 Hinit) as [_ Hjobs].
  - reflexivity.
  - intros c Hc. simpl in Hc. set_unfold. by destruct Hc as [->|[->|[]]].
  - intros t Ht. set_unfold. by destruct Ht as [->|[->|[]]].
  - intros ct _. simpl. apply not_elem_of_empty.
  - exists bench0, w1, (write_all bench0 (job_pairs ["tpot"; "autosklearn"]
                                          [IdInt 3; IdInt 31]) w1).
    split; [reflexivity|]. split; [exact Hjobs|].
    assert (Hw1 : w1 = (init "#!/bin/sh" "python3" "jobs" "config.json" world0).2).
    { by rewrite Hinit. }
    rewrite Hw1. vm_compute. reflexivity.
Defined.

(** ** Writing the configuration again *)

(** X27: a configuration file written again holds the later options only.
    [create_config_file] opens its file afresh: when the same path is
    written twice, with JSON-shaped option values, reading it back gives
    exactly the second call's three mappings (keys sorted); nothing of the
    first call's text is left, and the file was opened twice. *)
Theorem create_config_file_overwrites file_name t1 a1 wr1 t2 a2 wr2 w :
  Os.can_open_w w file_name = true →
  wf t2 = true → wf a2 = true → wf wr2 = true →
  ∃ w1 w2,
    create_config_file file_name t1 a1 wr1 w = (Ok file_name, w1) ∧
    create_config_file file_name t2 a2 wr2 w1 = (Ok file_name, w2) ∧
    w_files w2 !! file_name
      = Some (config_text (Json.sort_keys a2) (Json.sort_keys t2) (Json.sort_keys wr2)) ∧
    json_load file_name w2
      = (Ok (JObj [("autosklearn", Json.sort_keys a2); ("tpot", Json.sort_keys t2);
                   ("wrapper", Json.sort_keys wr2)]), w2) ∧
    w_trace w2 = w_trace w ++ [EvOpenWrite file_name; EvOpenWrite file_name] ∧
    ∀ p, p ≠ file_name → w_files w2 !! p = w_files w !! p.
Proof.
  intros Hopen Ht Ha Hw.
  set (obj1 := JObj [("tpot", t1); ("autosklearn", a1); ("wrapper", wr1)]).
  set (obj2 := JObj [("tpot", t2); ("autosklearn", a2); ("wrapper", wr2)]).
  assert (Hwf : wf obj2 = true).
  { simpl. by rewrite Ht, Ha, Hw. }
  assert (Hmake : ∀ obj w0,
            Os.can_open_w w0 file_name = true →
            (Os.open_w file_name;; Os.write file_name (Json.dumps (Some 4%nat) true obj);;
             mret file_name) w0
            = (Ok file_name,
               log_event (EvOpenWrite file_name)
                 (set_files (insert file_name (Json.dumps (Some 4%nat) true obj)) w0))).
  { intros obj w0 Hw0. rewrite (bind_ok _ _ _ _ _ (open_w_ok _ _ Hw0)).
    by rewrite (bind_ok _ _ _ _ _ (write_opened _ _ _)). }
  set (w1 := log_event (EvOpenWrite file_name)
               (set_files (insert file_name (Json.dumps (Some 4%nat) true obj1)) w)).
  exists w1, (log_event (EvOpenWrite file_name)
                (set_files (insert file_name (Json.dumps (Some 4%nat) true obj2)) w1)).
  split; [by apply (Hmake obj1 w)|].
  split.
  { apply (Hmake obj2 w1). by rewrite (can_open_w_dirs w). }
  split.
  { simpl. rewrite lookup_insert_eq. f_equal. apply dumps_config. }
  split.
  { apply json_load_written with (text := Json.dumps (Some 4%nat) true obj2).
    - simpl. apply lookup_insert_eq.
    - rewrite <- sort_keys_config. by apply (loads_dumps _ true). }
  split.
  { simpl. by rewrite <- app_assoc. }
  intros p Hp. simpl. by rewrite !lookup_insert_ne.
Qed.

Lemma create_config_file_overwrites_witness :
  ∃ w1 w2,
    create_config_file "config.json" tpot_options autosklearn_options wrapper_options world0
      = (Ok "config.json", w1) ∧
    create_config_file "config.json" (JObj []) (JObj []) (JObj []) w1
      = (Ok "config.json", w2) ∧
    json_load "config.json" w2
      = (Ok (JObj [("autosklearn", JObj []); ("tpot", JObj []); ("wrapper", JObj [])]), w2).
Proof.
  destruct (create_config_file_overwrites "config.json" tpot_options autosklearn_options
              wrapper_options (JObj []) (JObj []) (JObj []) world0)
    as (w1 & w2 & Hrun1 & Hrun2 & _ & Hload & _); [vm_compute; reflexivity..|].
  exists w1, w2. split; [exact Hrun1|]. split; [exact Hrun2|exact Hload].
Defined.

(** * The literal directory of the jobs *)


